(** * Blog backend: relational query layer and in-memory prototype

    A shallow embedding of [src/crud.py], [src/models.py],
    [src/dependencies.py], [src/routes.py] (relational variant) and of
    [src/app/storage.py], [src/app/models.py], [src/app/routes.py]
    (in-memory prototype), followed by the properties of the written
    specification that concern them. *)

From Stdlib Require Import ZArith String Ascii List Lia.
From stdpp Require Import base option gmap strings list fin_maps.

Local Open Scope string_scope.
Local Open Scope list_scope.
Local Open Scope Z_scope.

(* ===================================================================== *)
(** ** Python values *)
(* ===================================================================== *)

(** [datetime.datetime]: the fields of the Python object. *)
Record datetime := mk_datetime {
  year : nat; month : nat; day : nat;
  hour : nat; minute : nat; second : nat;
  microsecond : nat
}.

Global Instance datetime_eq_dec : EqDecision datetime.
Proof. solve_decision. Defined.

Definition digit (n : nat) : ascii := ascii_of_nat (48 + n mod 10).

Definition pad2 (n : nat) : string :=
  String (digit (n / 10)) (String (digit n) EmptyString).

Definition pad4 (n : nat) : string :=
  String (digit (n / 1000)) (String (digit (n / 100)) (pad2 n)).

(** [t.strftime("%Y%m%d%H%M%S")]: the microsecond field is not printed. *)
Definition strftime_YmdHMS (t : datetime) : string :=
  pad4 (year t) +:+ pad2 (month t) +:+ pad2 (day t) +:+
  pad2 (hour t) +:+ pad2 (minute t) +:+ pad2 (second t).

(** The dynamically typed values that travel in payload dictionaries and
    sit in the columns of a mapped object. *)
Inductive value :=
| VNone
| VBool (b : bool)
| VInt (n : Z)
| VStr (s : string)
| VTime (t : datetime)
| VList (l : list Z).

Global Instance value_eq_dec : EqDecision value.
Proof. solve_decision. Defined.

(** Python truthiness ([if v:]). *)
Definition truthy (v : value) : bool :=
  match v with
  | VNone => false
  | VBool b => b
  | VInt n => negb (n =? 0)%Z
  | VStr s => negb (bool_decide (s = ""))
  | VTime _ => true
  | VList l => negb (bool_decide (l = []))
  end.

(** [v is not None] *)
Definition is_not_None (v : value) : bool :=
  match v with VNone => false | _ => true end.

(** A [dict] with string keys. *)
Abbreviation dict := (gmap string value).

(** [d.get(k)] *)
Definition dict_get (d : dict) (k : string) : value := default VNone (d !! k).

(** [d.get(k, dflt)] and the value returned by [d.pop(k, dflt)] *)
Definition dict_get_default (d : dict) (k : string) (dflt : value) : value :=
  default dflt (d !! k).

(** [k in d] *)
Definition dict_mem (k : string) (d : dict) : bool := bool_decide (is_Some (d !! k)).

(** [needle in hay] on strings. *)
Fixpoint contains (needle hay : string) : bool :=
  String.prefix needle hay ||
  match hay with
  | EmptyString => false
  | String _ hay' => contains needle hay'
  end.

(* ===================================================================== *)
(** ** Exceptions and results *)
(* ===================================================================== *)

(** The constraint of the relational schema that an [IntegrityError]
    reports. *)
Inductive constraint :=
| NotNull (table col : string)
| PrimaryKey (table : string)
| Unique (table col : string)
| ForeignKey (table col : string)
| CheckConstraint (name : string).

Global Instance constraint_eq_dec : EqDecision constraint.
Proof. solve_decision. Defined.

Inductive exn :=
| ValueError (msg : string)
| KeyError (msg : string)
| TypeError
| DataError
| IntegrityError (c : constraint) (text : string).

Inductive result (A : Type) :=
| Return (a : A)
| Raise (e : exn).
Arguments Return {A} a.
Arguments Raise {A} e.

(** Sequencing of computations that may raise: [x ← r; k]. *)
Global Instance result_ret : MRet result := fun A a => Return a.
Global Instance result_bind : MBind result := fun A B k r =>
  match r with
  | Return a => k a
  | Raise e => Raise e
  end.
Global Instance result_fmap : FMap result := fun A B f r =>
  match r with
  | Return a => Return (f a)
  | Raise e => Raise e
  end.

(** [raise HTTPException(status_code, detail)] and the normal responses
    of the routes. *)
Inductive response (A : Type) :=
| Ok (status : Z) (body : A)
| HTTPException (status : Z) (detail : string).
Arguments Ok {A} status body.
Arguments HTTPException {A} status detail.

(* ===================================================================== *)
(** ** The in-memory prototype: [src/app/models.py], [src/app/storage.py] *)
(* ===================================================================== *)

Module Storage.

(** [UserCreate], [UserUpdate], [UserRead] of [app/models.py]. *)
Record UserCreate := {
  uc_email : string; uc_login : string; uc_password : string }.

Record UserUpdate := {
  uu_email : option string; uu_login : option string;
  uu_password : option string }.

Record UserRead := {
  ur_id : Z; ur_email : string; ur_login : string;
  ur_createdAt : datetime; ur_updatedAt : datetime }.

(** [PostCreate], [PostUpdate], [PostRead] of [app/models.py]. *)
Record PostCreate := {
  pc_authorId : Z; pc_title : string; pc_content : string }.

Record PostUpdate := {
  pu_authorId : option Z; pu_title : option string;
  pu_content : option string }.

Record PostRead := {
  pr_id : Z; pr_authorId : Z; pr_title : string; pr_content : string;
  pr_createdAt : datetime; pr_updatedAt : datetime }.

(** The [Store] dataclass. *)
Record Store := {
  users : gmap Z UserRead;
  posts : gmap Z PostRead;
  _user_seq : Z;
  _post_seq : Z }.

(** [any(pred(u) for u in self.users.values())] *)
Definition any_user (pred : UserRead -> bool) (s : Store) : bool :=
  existsb pred (snd <$> map_to_list (users s)).

(** [Store.create_user]; [t1], [t2] are the two readings of [utcnow()]. *)
Definition create_user (s : Store) (data : UserCreate) (t1 t2 : datetime)
  : Store * result UserRead :=
  if any_user (fun u => bool_decide (ur_email u = uc_email data)) s
  then (s, Raise (ValueError "email already in use"))
  else if any_user (fun u => bool_decide (ur_login u = uc_login data)) s
  then (s, Raise (ValueError "login already in use"))
  else
    let seq := (_user_seq s + 1)%Z in
    let user := {| ur_id := seq; ur_email := uc_email data;
                   ur_login := uc_login data;
                   ur_createdAt := t1; ur_updatedAt := t2 |} in
    ({| users := <[ur_id user := user]> (users s); posts := posts s;
        _user_seq := seq; _post_seq := _post_seq s |},
     Return user).

(** [Store.get_user] *)
Definition get_user (s : Store) (user_id : Z) : option UserRead :=
  users s !! user_id.

(** [Store.update_user] *)
Definition update_user (s : Store) (user_id : Z) (data : UserUpdate)
    (t : datetime) : Store * result UserRead :=
  match users s !! user_id with
  | None => (s, Raise (KeyError "user not found"))
  | Some user =>
    if match uu_email data with
       | Some e => any_user (fun u => bool_decide (ur_email u = e)
                               && negb (bool_decide (ur_id u = user_id))) s
       | None => false
       end
    then (s, Raise (ValueError "email already in use"))
    else if match uu_login data with
       | Some l => any_user (fun u => bool_decide (ur_login u = l)
                               && negb (bool_decide (ur_id u = user_id))) s
       | None => false
       end
    then (s, Raise (ValueError "login already in use"))
    else
      let new_user :=
        {| ur_id := ur_id user;
           ur_email := match uu_email data with
                       | Some e => e | None => ur_email user end;
           ur_login := match uu_login data with
                       | Some l => l | None => ur_login user end;
           ur_createdAt := ur_createdAt user;
           ur_updatedAt := t |} in
      ({| users := <[user_id := new_user]> (users s); posts := posts s;
          _user_seq := _user_seq s; _post_seq := _post_seq s |},
       Return new_user)
  end.

(** [Store.delete_user]: the posts of the author go with the user. *)
Definition delete_user (s : Store) (user_id : Z) : Store * result unit :=
  match users s !! user_id with
  | None => (s, Raise (KeyError "user not found"))
  | Some _ =>
    ({| users := delete user_id (users s);
        posts := filter (fun kp => pr_authorId kp.2 <> user_id) (posts s);
        _user_seq := _user_seq s; _post_seq := _post_seq s |},
     Return tt)
  end.

(** [Store.create_post] *)
Definition create_post (s : Store) (data : PostCreate) (t1 t2 : datetime)
  : Store * result PostRead :=
  match users s !! pc_authorId data with
  | None => (s, Raise (ValueError "authorId does not exist"))
  | Some _ =>
    let seq := (_post_seq s + 1)%Z in
    let post := {| pr_id := seq; pr_authorId := pc_authorId data;
                   pr_title := pc_title data; pr_content := pc_content data;
                   pr_createdAt := t1; pr_updatedAt := t2 |} in
    ({| users := users s; posts := <[pr_id post := post]> (posts s);
        _user_seq := _user_seq s; _post_seq := seq |},
     Return post)
  end.

(** [Store.get_post] *)
Definition get_post (s : Store) (post_id : Z) : option PostRead :=
  posts s !! post_id.

(** [Store.update_post] *)
Definition update_post (s : Store) (post_id : Z) (data : PostUpdate)
    (t : datetime) : Store * result PostRead :=
  match posts s !! post_id with
  | None => (s, Raise (KeyError "post not found"))
  | Some post =>
    let new_author := match pu_authorId data with
                      | Some a => a | None => pr_authorId post end in
    match users s !! new_author with
    | None => (s, Raise (ValueError "authorId does not exist"))
    | Some _ =>
      let new_post :=
        {| pr_id := pr_id post;
           pr_authorId := new_author;
           pr_title := match pu_title data with
                       | Some x => x | None => pr_title post end;
           pr_content := match pu_content data with
                         | Some x => x | None => pr_content post end;
           pr_createdAt := pr_createdAt post;
           pr_updatedAt := t |} in
      ({| users := users s; posts := <[post_id := new_post]> (posts s);
          _user_seq := _user_seq s; _post_seq := _post_seq s |},
       Return new_post)
    end
  end.

(** [Store.delete_post] *)
Definition delete_post (s : Store) (post_id : Z) : Store * result unit :=
  match posts s !! post_id with
  | None => (s, Raise (KeyError "post not found"))
  | Some _ =>
    ({| users := users s; posts := delete post_id (posts s);
        _user_seq := _user_seq s; _post_seq := _post_seq s |},
     Return tt)
  end.

(** The handlers of [src/app/routes.py] that the properties below use. *)
Module Routes.

(** [POST /users]: a [ValueError] becomes [HTTPException(409, str(e))]. *)
Definition create_user (s : Store) (data : UserCreate) (t1 t2 : datetime)
  : Store * response UserRead :=
  match Storage.create_user s data t1 t2 with
  | (s', Return u) => (s', Ok 201 u)
  | (s', Raise (ValueError msg)) => (s', HTTPException 409 msg)
  | (s', Raise _) => (s', HTTPException 500 "Internal Server Error")
  end.

(** [GET /posts/{post_id}] *)
Definition get_post (s : Store) (post_id : Z) : response PostRead :=
  match Storage.get_post s post_id with
  | Some p => Ok 200 p
  | None => HTTPException 404 "post not found"
  end.

End Routes.

End Storage.

(* ===================================================================== *)
(** ** The relational schema: [src/models.py] *)
(* ===================================================================== *)

(** A mapped object ([User], [Post], [Category], [Comment]) and the row it
    is stored as: its column attributes by name.  An attribute that was
    never set reads as [None]. *)
Abbreviation row := (gmap string value).

Definition getattr (r : row) (f : string) : value := default VNone (r !! f).

(** Collaborators that are not part of the sources: the [slugify]
    package, [get_password_hash] of [auth.py], the [email_validator]
    package (normalised address, or the message of [EmailNotValidError]),
    and what the storage engine decides on its own: the text [str(e)] of
    an [IntegrityError] for the constraint that fired on the offending
    row, the [ILIKE] match of a pattern's search term against a column,
    and the order that [ORDER BY column ASC|DESC] gives to rows. *)
Class External := {
  slugify : string -> string;
  get_password_hash : string -> string;
  email_validator : string -> string + string;
  integrity_text : constraint -> row -> string;
  ilike : string -> value -> bool;
  order_by_column : string -> bool -> list row -> list row
}.

Module Models.

(** Rows of the association tables [favorites], [subscriptions] and
    [post_categories]. *)
Record favorite := {
  fav_user_id : Z; fav_post_id : Z; fav_created_at : datetime }.

Record subscription := {
  sub_follower_id : Z; sub_following_id : Z; sub_created_at : datetime }.

Record post_category := {
  pcat_post_id : Z; pcat_category_id : Z; pcat_created_at : datetime }.

(** What a mapped class declares. *)
Record table_decl := {
  t_name : string;
  t_columns : list string;
  t_relationships : list string;
  t_not_null : list string;                (* nullable=False *)
  t_unique : list string;                  (* unique=True *)
  t_defaults : list (string * value);      (* default=... *)
  t_server_now : list string;              (* server_default=func.now() *)
  t_foreign_keys : list (string * string)  (* column, referenced table *)
}.

Definition User : table_decl := {|
  t_name := "users";
  t_columns := ["id"; "email"; "login"; "password_hash"; "full_name"; "bio";
                "avatar_url"; "is_active"; "is_admin"; "created_at";
                "updated_at"];
  t_relationships := ["posts"; "comments"; "liked_posts"; "following";
                      "followers"];
  t_not_null := ["email"; "login"; "password_hash"];
  t_unique := ["email"; "login"];
  t_defaults := [("is_active", VBool true); ("is_admin", VBool false)];
  t_server_now := ["created_at"; "updated_at"];
  t_foreign_keys := [] |}.

Definition Category : table_decl := {|
  t_name := "categories";
  t_columns := ["id"; "name"; "slug"; "description"; "created_at"];
  t_relationships := ["posts"];
  t_not_null := ["name"; "slug"];
  t_unique := ["name"; "slug"];
  t_defaults := [];
  t_server_now := ["created_at"];
  t_foreign_keys := [] |}.

Definition Post : table_decl := {|
  t_name := "posts";
  t_columns := ["id"; "author_id"; "title"; "slug"; "content"; "summary";
                "is_published"; "published_at"; "view_count"; "created_at";
                "updated_at"];
  t_relationships := ["author"; "comments"; "categories"; "liked_by"];
  t_not_null := ["author_id"; "title"; "content"];
  t_unique := ["slug"];
  t_defaults := [("is_published", VBool true); ("view_count", VInt 0)];
  t_server_now := ["created_at"; "updated_at"];
  t_foreign_keys := [("author_id", "users")] |}.

Definition Comment : table_decl := {|
  t_name := "comments";
  t_columns := ["id"; "post_id"; "user_id"; "content"; "parent_id";
                "is_edited"; "created_at"; "updated_at"];
  t_relationships := ["post"; "user"; "parent"; "replies"];
  t_not_null := ["post_id"; "user_id"; "content"];
  t_unique := [];
  t_defaults := [("is_edited", VBool false)];
  t_server_now := ["created_at"; "updated_at"];
  t_foreign_keys := [("post_id", "posts"); ("user_id", "users");
                     ("parent_id", "comments")] |}.

(** [len(v)] of the [login] validator. *)
Definition len (v : value) : option nat :=
  match v with
  | VStr s => Some (String.length s)
  | VList l => Some (length l)
  | _ => None
  end.

(** The [@validates] hooks of [User]: [validate_email] stores the
    normalised address, [validate_login] checks the length. *)
Definition validate_User `{External} (key : string) (v : value)
  : result value :=
  if bool_decide (key = "email") then
    match v with
    | VStr s => match email_validator s with
                | inl normalised => Return (VStr normalised)
                | inr msg => Raise (ValueError msg)
                end
    | _ => Raise TypeError
    end
  else if bool_decide (key = "login") then
    match len v with
    | None => Raise TypeError
    | Some n =>
      if (n <? 3)%nat
      then Raise (ValueError "Login must be at least 3 characters long")
      else if (50 <? n)%nat
      then Raise (ValueError "Login must be at most 50 characters long")
      else Return v
    end
  else Return v.

(** The classes without validators. *)
Definition no_validator (key : string) (v : value) : result value :=
  Return v.

End Models.

(* ===================================================================== *)
(** ** The session and the storage engine behind it *)
(* ===================================================================== *)

Module Orm.
Import Models.

(** The state behind [db: Session]: the tables and the two sequences
    that number new users and posts. *)
Record Database := {
  users : list row;
  posts : list row;
  categories : list row;
  comments : list row;
  post_categories : list post_category;
  favorites : list favorite;
  subscriptions : list subscription;
  users_id_seq : Z;
  posts_id_seq : Z
}.

Definition table (db : Database) (name : string) : list row :=
  if bool_decide (name = "users") then users db
  else if bool_decide (name = "posts") then posts db
  else if bool_decide (name = "categories") then categories db
  else if bool_decide (name = "comments") then comments db
  else [].

Definition set_users (db : Database) (t : list row) (seq : Z) : Database :=
  {| users := t; posts := posts db; categories := categories db;
     comments := comments db; post_categories := post_categories db;
     favorites := favorites db; subscriptions := subscriptions db;
     users_id_seq := seq; posts_id_seq := posts_id_seq db |}.

Definition set_posts (db : Database) (t : list row) (seq : Z) : Database :=
  {| users := users db; posts := t; categories := categories db;
     comments := comments db; post_categories := post_categories db;
     favorites := favorites db; subscriptions := subscriptions db;
     users_id_seq := users_id_seq db; posts_id_seq := seq |}.

Definition set_categories (db : Database) (t : list row) : Database :=
{| users := users db; posts := posts db; categories := t;
   comments := comments db; post_categories := post_categories db;
   favorites := favorites db; subscriptions := subscriptions db;
   users_id_seq := users_id_seq db; posts_id_seq := posts_id_seq db |}.

Definition set_post_categories (db : Database) (t : list post_category)
  : Database :=
  {| users := users db; posts := posts db; categories := categories db;
     comments := comments db; post_categories := t;
     favorites := favorites db; subscriptions := subscriptions db;
     users_id_seq := users_id_seq db; posts_id_seq := posts_id_seq db |}.

Definition set_favorites (db : Database) (t : list favorite) : Database :=
  {| users := users db; posts := posts db; categories := categories db;
     comments := comments db; post_categories := post_categories db;
     favorites := t; subscriptions := subscriptions db;
     users_id_seq := users_id_seq db; posts_id_seq := posts_id_seq db |}.

Definition set_subscriptions (db : Database) (t : list subscription)
  : Database :=
  {| users := users db; posts := posts db; categories := categories db;
     comments := comments db; post_categories := post_categories db;
     favorites := favorites db; subscriptions := t;
     users_id_seq := users_id_seq db; posts_id_seq := posts_id_seq db |}.

(** [Model.id == v] *)
Definition id_is (v : value) (r : row) : bool :=
  bool_decide (getattr r "id" = v).

Definition has_id (t : list row) (v : value) : bool := existsb (id_is v) t.

(** [db.query(Model).filter(Model.id == i).first()] *)
Definition first_by_id (t : list row) (i : Z) : option row :=
  List.find (id_is (VInt i)) t.

Definition mem (s : string) (l : list string) : bool := bool_decide (s ∈ l).

(** [setattr(obj, field, v)] on a mapped object of class [T]: a column
    goes through the validator of the class; an attribute that is not
    mapped is a plain Python attribute and is never stored.  Only
    column values are modelled, so a relationship name is refused. *)
Definition setattr (T : table_decl) (validate : string -> value -> result value)
    (r : row) (field : string) (v : value) : result row :=
  if mem field (t_columns T) then
    v' ← validate field v; Return (<[field := v']> r)
  else if mem field (t_relationships T) then Raise TypeError
  else Return r.

(** The declarative constructor of [T] applied to the dict as keyword
    arguments: it sets each keyword and
    refuses a keyword that is not an attribute of the class.  With
    several offending keywords, which one is reported follows the
    traversal of the map rather than the order of the Python dict. *)
Definition construct (T : table_decl) (validate : string -> value -> result value)
    (data : dict) : result row :=
  map_fold (fun field v acc =>
              r ← acc;
              if mem field (t_columns T) then setattr T validate r field v
              else Raise TypeError)
           (Return ∅) data.

(** Column defaults fire at INSERT for the columns left at [None]. *)
Definition with_defaults (T : table_decl) (now : datetime) (r : row) : row :=
  foldr (fun cv r => if is_not_None (getattr r cv.1) then r
                     else <[cv.1 := cv.2]> r)
        r
        (t_defaults T ++ ((fun c => (c, VTime now)) <$> t_server_now T)).

(** The first constraint that an INSERT of [r] violates. *)
Definition check_insert (T : table_decl) (db : Database) (r : row)
  : option constraint :=
  let t := table db (t_name T) in
  match List.find (fun c => negb (is_not_None (getattr r c))) (t_not_null T) with
  | Some c => Some (NotNull (t_name T) c)
  | None =>
    if has_id t (getattr r "id") then Some (PrimaryKey (t_name T)) else
    match List.find (fun c => is_not_None (getattr r c) &&
                       existsb (fun r' => bool_decide (getattr r' c = getattr r c)) t)
                    (t_unique T) with
    | Some c => Some (Unique (t_name T) c)
    | None =>
      match List.find (fun ct => is_not_None (getattr r ct.1) &&
                         negb (has_id (table db ct.2) (getattr r ct.1)))
                      (t_foreign_keys T) with
      | Some ct => Some (ForeignKey (t_name T) ct.1)
      | None => None
      end
    end
  end.

(** [db.add(obj); db.commit(); db.refresh(obj)] for a new object: the
    sequence numbers it unless an id was given, the defaults fire, and
    the engine either stores the row or reports the violated
    constraint, in which case nothing is stored. *)
Definition insert `{External} (T : table_decl) (db : Database) (seq : Z)
    (now : datetime) (r : row) : result (row * Z) :=
  let seq' := if is_not_None (getattr r "id") then seq else (seq + 1)%Z in
  let r1 := if is_not_None (getattr r "id") then r
            else <["id" := VInt seq']> r in
  let r2 := with_defaults T now r1 in
  match check_insert T db r2 with
  | Some c => Raise (IntegrityError c (integrity_text c r2))
  | None => Return (r2, seq')
  end.

(** Rows of other tables that hold the id [v] of a row of [name] in a
    foreign key. *)
Definition referenced (db : Database) (name : string) (v : value) : bool :=
  if bool_decide (name = "users") then
    existsb (fun p => bool_decide (getattr p "author_id" = v)) (posts db)
    || existsb (fun c => bool_decide (getattr c "user_id" = v)) (comments db)
    || existsb (fun f => bool_decide (VInt (fav_user_id f) = v)) (favorites db)
    || existsb (fun s => bool_decide (VInt (sub_follower_id s) = v)
                         || bool_decide (VInt (sub_following_id s) = v))
               (subscriptions db)
  else if bool_decide (name = "posts") then
    existsb (fun c => bool_decide (getattr c "post_id" = v)) (comments db)
    || existsb (fun f => bool_decide (VInt (fav_post_id f) = v)) (favorites db)
    || existsb (fun pc => bool_decide (VInt (pcat_post_id pc) = v))
               (post_categories db)
  else false.

Definition changed (old new : row) (c : string) : bool :=
  negb (bool_decide (getattr new c = getattr old c)).

(** The first constraint that the UPDATE turning [old] into [new]
    violates; only the columns whose value changed are written. *)
Definition check_update (T : table_decl) (db : Database) (old new : row)
  : option constraint :=
  let others := List.filter (fun r => negb (id_is (getattr old "id") r))
                            (table db (t_name T)) in
  match List.find (fun c => changed old new c && negb (is_not_None (getattr new c)))
                  ("id" :: t_not_null T) with
  | Some c => Some (NotNull (t_name T) c)
  | None =>
    if changed old new "id" && has_id others (getattr new "id")
    then Some (PrimaryKey (t_name T))
    else if changed old new "id" && referenced db (t_name T) (getattr old "id")
    then Some (ForeignKey (t_name T) "id")
    else
    match List.find (fun c => changed old new c && is_not_None (getattr new c) &&
                       existsb (fun r' => bool_decide (getattr r' c = getattr new c))
                               others)
                    (t_unique T) with
    | Some c => Some (Unique (t_name T) c)
    | None =>
      match List.find (fun ct => changed old new ct.1 &&
                         is_not_None (getattr new ct.1) &&
                         negb (has_id (table db ct.2) (getattr new ct.1)))
                      (t_foreign_keys T) with
      | Some ct => Some (ForeignKey (t_name T) ct.1)
      | None => None
      end
    end
  end.

(** [db.commit(); db.refresh(obj)] for a loaded object [old] whose
    attributes now read [new]: the rows with its id are rewritten, or
    the violated constraint is reported and nothing is written. *)
Definition update `{External} (T : table_decl) (db : Database)
    (old new : row) : result (list row) :=
  match check_update T db old new with
  | Some c => Raise (IntegrityError c (integrity_text c new))
  | None =>
    Return ((fun r => if id_is (getattr old "id") r then new else r)
              <$> table db (t_name T))
  end.

(** An integer column of an association row. *)
Definition as_int (v : value) : result Z :=
  match v with VInt n => Return n | _ => Raise DataError end.

(** INSERT into [favorites]: composite primary key and the two foreign
    keys. *)
Definition insert_favorite `{External} (db : Database) (f : favorite)
  : result (list favorite) :=
  let r : row := {[ "user_id" := VInt (fav_user_id f);
                    "post_id" := VInt (fav_post_id f) ]} in
  let raise c := Raise (IntegrityError c (integrity_text c r)) in
  if existsb (fun g => bool_decide (fav_user_id g = fav_user_id f) &&
                       bool_decide (fav_post_id g = fav_post_id f))
             (favorites db)
  then raise (PrimaryKey "favorites")
  else if negb (has_id (users db) (VInt (fav_user_id f)))
  then raise (ForeignKey "favorites" "user_id")
  else if negb (has_id (posts db) (VInt (fav_post_id f)))
  then raise (ForeignKey "favorites" "post_id")
  else Return (favorites db ++ [f]).

(** INSERT into [subscriptions]: composite primary key, the two foreign
    keys and [check_no_self_follow]. *)
Definition insert_subscription `{External} (db : Database) (s : subscription)
  : result (list subscription) :=
  let r : row := {[ "follower_id" := VInt (sub_follower_id s);
                    "following_id" := VInt (sub_following_id s) ]} in
  let raise c := Raise (IntegrityError c (integrity_text c r)) in
  if existsb (fun g => bool_decide (sub_follower_id g = sub_follower_id s) &&
                       bool_decide (sub_following_id g = sub_following_id s))
             (subscriptions db)
  then raise (PrimaryKey "subscriptions")
  else if bool_decide (sub_follower_id s = sub_following_id s)
  then raise (CheckConstraint "check_no_self_follow")
  else if negb (has_id (users db) (VInt (sub_follower_id s)))
  then raise (ForeignKey "subscriptions" "follower_id")
  else if negb (has_id (users db) (VInt (sub_following_id s)))
  then raise (ForeignKey "subscriptions" "following_id")
  else Return (subscriptions db ++ [s]).

(** [Category.id.in_(ids)] *)
Definition id_in (ids : list Z) (c : row) : bool :=
  match getattr c "id" with
  | VInt n => bool_decide (n ∈ ids)
  | _ => false
  end.

(** [post.categories = cats]: the rows of [post_categories] that the
    post had (under [old_id]) are deleted and one row per assigned
    category is inserted under the id [new_id] the post now has. *)
Definition assign_categories `{External} (db : Database) (old_id : value)
    (new_id : value) (cats : list row) (now : datetime)
  : result (list post_category) :=
  pid ← as_int new_id;
  foldl (fun acc c =>
           t ← acc;
           cid ← as_int (getattr c "id");
           if existsb (fun g => bool_decide (pcat_post_id g = pid) &&
                                bool_decide (pcat_category_id g = cid)) t
           then let r : row := {[ "post_id" := VInt pid;
                                  "category_id" := VInt cid ]} in
                Raise (IntegrityError (PrimaryKey "post_categories")
                         (integrity_text (PrimaryKey "post_categories") r))
           else Return (t ++ [{| pcat_post_id := pid; pcat_category_id := cid;
                                 pcat_created_at := now |}]))
        (Return (List.filter (fun g => negb (bool_decide (VInt (pcat_post_id g) = old_id)))
                             (post_categories db)))
        cats.

(** [db.delete(obj); db.commit()].  The unit of work follows the
    relationships declared in [models.py]:
    - [User.posts] and [User.comments] are [cascade="all, delete-orphan"]:
      the posts and comments of a deleted user are deleted as objects;
    - [Post.comments] is [cascade="all, delete-orphan"]: so are the
      comments of a deleted post;
    - the [secondary] tables [favorites], [subscriptions] and
      [post_categories] lose the rows of a deleted user or post;
    - the [replies] backref of [Comment.parent] has no delete cascade:
      a surviving reply to a deleted comment has its [parent_id] set to
      NULL by an UPDATE of its row.  That statement does not set
      [updated_at], so the [onupdate] of [Comment.updated_at] fires
      with the engine's clock [now].
    [user0], [post0], [comment0] select the objects passed to
    [db.delete]. *)
Definition dead_user (user0 : row -> bool) (db : Database) (v : value) : bool :=
  existsb (fun u => user0 u && id_is v u) (users db).

Definition dead_post (user0 post0 : row -> bool) (db : Database) (p : row)
  : bool :=
  post0 p || dead_user user0 db (getattr p "author_id").

Definition dead_post_id (user0 post0 : row -> bool) (db : Database)
    (v : value) : bool :=
  existsb (fun p => dead_post user0 post0 db p && id_is v p) (posts db).

Definition dead_comment (user0 post0 comment0 : row -> bool) (db : Database)
    (c : row) : bool :=
  comment0 c || dead_user user0 db (getattr c "user_id")
  || dead_post_id user0 post0 db (getattr c "post_id").

Definition dead_comment_id (user0 post0 comment0 : row -> bool)
    (db : Database) (v : value) : bool :=
  existsb (fun c => dead_comment user0 post0 comment0 db c && id_is v c)
          (comments db).

Definition delete_cascade (user0 post0 comment0 : row -> bool)
    (now : datetime) (db : Database) : Database :=
  {| users := List.filter (fun u => negb (user0 u)) (users db);
     posts := List.filter (fun p => negb (dead_post user0 post0 db p)) (posts db);
     categories := categories db;
     comments :=
       (fun c => if is_not_None (getattr c "parent_id") &&
                    dead_comment_id user0 post0 comment0 db (getattr c "parent_id")
                 then <["updated_at" := VTime now]> (<["parent_id" := VNone]> c)
                 else c)
       <$> List.filter (fun c => negb (dead_comment user0 post0 comment0 db c))
                       (comments db);
     post_categories :=
       List.filter (fun g => negb (dead_post_id user0 post0 db (VInt (pcat_post_id g))))
                   (post_categories db);
     favorites :=
       List.filter (fun f => negb (dead_user user0 db (VInt (fav_user_id f))) &&
                             negb (dead_post_id user0 post0 db (VInt (fav_post_id f))))
                   (favorites db);
     subscriptions :=
       List.filter (fun s => negb (dead_user user0 db (VInt (sub_follower_id s))) &&
                             negb (dead_user user0 db (VInt (sub_following_id s))))
                   (subscriptions db);
     users_id_seq := users_id_seq db;
     posts_id_seq := posts_id_seq db |}.

Definition nobody (r : row) : bool := false.

Definition set_comments (db : Database) (t : list row) : Database :=
{| users := users db; posts := posts db; categories := categories db;
   comments := t; post_categories := post_categories db;
   favorites := favorites db; subscriptions := subscriptions db;
   users_id_seq := users_id_seq db; posts_id_seq := posts_id_seq db |}.

(** The range of a column declared [Integer], which the engine of
    [config.py] stores as a signed integer of four bytes. *)
Definition Integer_min : Z := -2147483648.
Definition Integer_max : Z := 2147483647.

Definition in_Integer (n : Z) : bool :=
(Integer_min <=? n) && (n <=? Integer_max).

(** [Post.view_count + 1] as the engine computes it on the [Integer]
    column: NULL stays NULL, and a sum out of the range of the column
    is refused. *)
Definition plus_one (v : value) : result value :=
match v with
| VInt n => if in_Integer (n + 1) then Return (VInt (n + 1)) else Raise DataError
| VNone => Return VNone
| _ => Raise DataError
end.

End Orm.

(* ===================================================================== *)
(** ** The query and command layer: [src/crud.py] *)
(* ===================================================================== *)

Module Crud.
Import Models Orm.

Section WithExternal.
Context `{External}.

(** [get_user], [get_user_by_email], [get_user_by_login] *)
Definition get_user (db : Database) (user_id : Z) : option row :=
  first_by_id (users db) user_id.

Definition get_user_by_email (db : Database) (email : string) : option row :=
  List.find (fun u => bool_decide (getattr u "email" = VStr email)) (users db).

Definition get_user_by_login (db : Database) (login : string) : option row :=
  List.find (fun u => bool_decide (getattr u "login" = VStr login)) (users db).

(** [get_password_hash(v)] on a dynamically typed argument. *)
Definition hash_value (v : value) : result value :=
  match v with
  | VStr s => Return (VStr (get_password_hash s))
  | _ => Raise TypeError
  end.

(** [for field, value in data.items(): if value is not None:
    setattr(obj, field, value)] *)
Definition set_fields (T : table_decl)
    (validate : string -> value -> result value) (data : dict) (obj : row)
  : result row :=
  map_fold (fun field v acc =>
              r ← acc;
              if is_not_None v then setattr T validate r field v
              else Return r)
           (Return obj) data.

(** [create_user]; [now] is the engine's clock at the INSERT. *)
Definition create_user (db : Database) (user_data : dict) (now : datetime)
  : Database * result row :=
  let hashed :=
    if dict_mem "password" user_data then
      h ← hash_value (dict_get user_data "password");
      Return (<["password_hash" := h]> (delete "password" user_data))
    else Return user_data in
  match hashed ≫= construct User validate_User with
  | Raise e => (db, Raise e)
  | Return db_user =>
    match insert User db (users_id_seq db) now db_user with
    | Return (u, seq) => (set_users db (users db ++ [u]) seq, Return u)
    | Raise (IntegrityError c text) =>
      if contains "email" text
      then (db, Raise (ValueError "Email already registered"))
      else if contains "login" text
      then (db, Raise (ValueError "Login already taken"))
      else (db, Raise (IntegrityError c text))
    | Raise e => (db, Raise e)
    end
  end.

(** [update_user]; [now] is the reading of [datetime.utcnow()]. *)
Definition update_user (db : Database) (user_id : Z) (user_data : dict)
    (now : datetime) : Database * result (option row) :=
  match get_user db user_id with
  | None => (db, Return None)
  | Some db_user =>
    let hashed :=
      if dict_mem "password" user_data && truthy (dict_get user_data "password")
      then h ← hash_value (dict_get user_data "password");
           Return (<["password_hash" := h]> (delete "password" user_data))
      else Return user_data in
    match (user_data ← hashed;
           r ← set_fields User validate_User user_data db_user;
           let r := <["updated_at" := VTime now]> r in
           t ← update User db db_user r;
           Return (t, r)) with
    | Raise e => (db, Raise e)
    | Return (t, r) => (set_users db t (users_id_seq db), Return (Some r))
    end
  end.

(** [delete_user]; [now] is the engine's clock at the commit. *)
Definition delete_user (db : Database) (user_id : Z) (now : datetime)
  : Database * result bool :=
  match get_user db user_id with
  | None => (db, Return false)
  | Some _ =>
    (delete_cascade (id_is (VInt user_id)) nobody nobody now db, Return true)
  end.

(** [get_post] *)
Definition get_post (db : Database) (post_id : Z) : option row :=
  first_by_id (posts db) post_id.

(** The categories a post is linked to through [post_categories]
    ([Post.categories], loaded by [joinedload]). *)
Definition categories_of (db : Database) (post_id : value) : list row :=
  List.filter (fun c => existsb (fun g => bool_decide (VInt (pcat_post_id g) = post_id) &&
                                 bool_decide (VInt (pcat_category_id g) = getattr c "id"))
                                (post_categories db))
              (categories db).

(** The query of [get_posts] before [.offset(skip).limit(limit)]. *)
Definition posts_query (db : Database) (author_id category_id : value)
    (is_published : value) (search : value) (order_by order : string)
  : result (list row) :=
  let q := posts db in
  let q := if truthy is_published
           then List.filter (fun p => bool_decide (getattr p "is_published" = VBool true)) q
           else q in
  let q := if truthy author_id
           then List.filter (fun p => bool_decide (getattr p "author_id" = author_id)) q
           else q in
  let q := if truthy category_id
           then List.filter (fun p => existsb (fun c => bool_decide (getattr c "id" = category_id))
                                         (categories_of db (getattr p "id"))) q
           else q in
  q ← (if truthy search then
         match search with
         | VStr s => Return (List.filter (fun p => ilike s (getattr p "title")
                                            || ilike s (getattr p "content")
                                            || ilike s (getattr p "summary")) q)
         | _ => Raise TypeError
         end
       else Return q);
  let order_column := if mem order_by (t_columns Post) then order_by
                      else "created_at" in
  Return (order_by_column order_column (bool_decide (order = "asc")) q).

(** [get_posts]: the engine refuses a negative OFFSET or LIMIT. *)
Definition get_posts (db : Database) (skip limit : Z)
    (author_id category_id : value) (is_published : value) (search : value)
    (order_by order : string) : result (list row) :=
  q ← posts_query db author_id category_id is_published search order_by order;
  if (skip <? 0) || (limit <? 0) then Raise DataError
  else Return (take (Z.to_nat limit) (drop (Z.to_nat skip) q)).

(** [db.query(Category).filter(Category.id.in_(category_ids)).all()] *)
Definition categories_in (db : Database) (category_ids : value)
  : result (list row) :=
  match category_ids with
  | VList ids => Return (List.filter (id_in ids) (categories db))
  | _ => Raise TypeError
  end.

(** [create_post]; [t_slug] and [t_pub] are the two readings of
    [datetime.utcnow()], [now] is the engine's clock at the INSERT. *)
Definition create_post (db : Database) (post_data : dict)
    (t_slug t_pub now : datetime) : Database * result row :=
  let category_ids := dict_get_default post_data "category_ids" (VList []) in
  let post_data := delete "category_ids" (delete "categories" post_data) in
  match
    (title ← match dict_get_default post_data "title" (VStr "") with
             | VStr s => Return s
             | _ => Raise TypeError
             end;
     let post_data :=
       <["slug" := VStr (slugify title +:+ "-" +:+ strftime_YmdHMS t_slug)]>
         post_data in
     let post_data :=
       if truthy (dict_get post_data "is_published")
       then <["published_at" := VTime t_pub]> post_data else post_data in
     db_post ← construct Post no_validator post_data;
     cats ← (if truthy category_ids then Some <$> categories_in db category_ids
             else Return None);
     ps ← insert Post db (posts_id_seq db) now db_post;
     pcs ← match cats with
           | Some cats => assign_categories db (getattr ps.1 "id")
                            (getattr ps.1 "id") cats now
           | None => Return (post_categories db)
           end;
     Return (ps, pcs))
  with
  | Raise e => (db, Raise e)
  | Return (p, seq, pcs) =>
    (set_post_categories (set_posts db (posts db ++ [p]) seq) pcs, Return p)
  end.

(** [update_post]; [t_upd] and [t_pub] are the two readings of
    [datetime.utcnow()], [now] is the engine's clock at the commit. *)
Definition update_post (db : Database) (post_id : Z) (post_data : dict)
    (t_upd t_pub now : datetime) : Database * result (option row) :=
  match get_post db post_id with
  | None => (db, Return None)
  | Some db_post =>
    let category_ids := dict_get_default post_data "category_ids" (VList []) in
    let post_data := delete "category_ids" (delete "categories" post_data) in
    match
      (r ← set_fields Post no_validator post_data db_post;
       cats ← (if truthy category_ids then Some <$> categories_in db category_ids
               else Return None);
       let r := <["updated_at" := VTime t_upd]> r in
       let r := if truthy (dict_get post_data "is_published") &&
                   negb (truthy (getattr r "published_at"))
                then <["published_at" := VTime t_pub]> r else r in
       t ← update Post db db_post r;
       pcs ← match cats with
             | Some cats => assign_categories db (getattr db_post "id")
                              (getattr r "id") cats now
             | None => Return (post_categories db)
             end;
       Return (t, r, pcs))
    with
    | Raise e => (db, Raise e)
    | Return (t, r, pcs) =>
      (set_post_categories (set_posts db t (posts_id_seq db)) pcs,
       Return (Some r))
    end
  end.

(** [delete_post]; [now] is the engine's clock at the commit. *)
Definition delete_post (db : Database) (post_id : Z) (now : datetime)
  : Database * result bool :=
  match get_post db post_id with
  | None => (db, Return false)
  | Some _ =>
    (delete_cascade nobody (id_is (VInt post_id)) nobody now db, Return true)
  end.

(** [get_category] *)
Definition get_category (db : Database) (category_id : Z) : option row :=
  first_by_id (categories db) category_id.

(** [update_category] *)
Definition update_category (db : Database) (category_id : Z)
    (category_data : dict) : Database * result (option row) :=
  match get_category db category_id with
  | None => (db, Return None)
  | Some db_category =>
    match (r ← set_fields Category no_validator category_data db_category;
           t ← update Category db db_category r;
           Return (t, r)) with
    | Raise e => (db, Raise e)
    | Return (t, r) => (set_categories db t, Return (Some r))
    end
  end.

(** [get_comment] *)
Definition get_comment (db : Database) (comment_id : Z) : option row :=
  first_by_id (comments db) comment_id.

(** [favorites.c.user_id == user_id, favorites.c.post_id == post_id] *)
Definition favorite_is (user_id post_id : Z) (f : favorite) : bool :=
  bool_decide (fav_user_id f = user_id) && bool_decide (fav_post_id f = post_id).

(** [is_favorited] *)
Definition is_favorited (db : Database) (user_id post_id : Z) : bool :=
  match List.find (favorite_is user_id post_id) (favorites db) with
  | Some _ => true
  | None => false
  end.

(** [add_favorite]; [now] is the engine's clock ([created_at]). *)
Definition add_favorite (db : Database) (user_id post_id : Z) (now : datetime)
  : Database * result bool :=
  match List.find (favorite_is user_id post_id) (favorites db) with
  | Some _ => (db, Return false)
  | None =>
    match insert_favorite db {| fav_user_id := user_id; fav_post_id := post_id;
                                fav_created_at := now |} with
    | Return t => (set_favorites db t, Return true)
    | Raise e => (db, Raise e)
    end
  end.

(** [remove_favorite]: [result.rowcount] is the number of rows that the
    DELETE matched. *)
Definition remove_favorite (db : Database) (user_id post_id : Z)
  : Database * result bool :=
  let rowcount := length (List.filter (favorite_is user_id post_id) (favorites db)) in
  (set_favorites db
     (List.filter (fun f => negb (favorite_is user_id post_id f)) (favorites db)),
   Return (0 <? rowcount)%nat).

(** [subscriptions.c.follower_id == follower_id,
     subscriptions.c.following_id == following_id] *)
Definition subscription_is (follower_id following_id : Z) (s : subscription)
  : bool :=
  bool_decide (sub_follower_id s = follower_id) &&
  bool_decide (sub_following_id s = following_id).

(** [is_following] *)
Definition is_following (db : Database) (follower_id following_id : Z) : bool :=
  match List.find (subscription_is follower_id following_id) (subscriptions db) with
  | Some _ => true
  | None => false
  end.

(** [follow_user] *)
Definition follow_user (db : Database) (follower_id following_id : Z)
    (now : datetime) : Database * result bool :=
  let existing :=
    List.find (subscription_is follower_id following_id) (subscriptions db) in
  if bool_decide (is_Some existing) || bool_decide (follower_id = following_id)
  then (db, Return false)
  else
    match insert_subscription db
            {| sub_follower_id := follower_id; sub_following_id := following_id;
               sub_created_at := now |} with
    | Return t => (set_subscriptions db t, Return true)
    | Raise e => (db, Raise e)
    end.

(** [unfollow_user] *)
Definition unfollow_user (db : Database) (follower_id following_id : Z)
  : Database * result bool :=
  let rowcount :=
    length (List.filter (subscription_is follower_id following_id)
                        (subscriptions db)) in
  (set_subscriptions db
     (List.filter (fun s => negb (subscription_is follower_id following_id s))
                  (subscriptions db)),
   Return (0 <? rowcount)%nat).

(** [get_post_by_slug] *)
Definition get_post_by_slug (db : Database) (slug : string) : option row :=
List.find (fun p => bool_decide (getattr p "slug" = VStr slug)) (posts db).

(** [increment_post_views]: one UPDATE statement over the rows with the
    id.  The statement does not set [updated_at], so the [onupdate] of
    that column fires with the engine's clock [now]. *)
Definition increment_post_views (db : Database) (post_id : Z) (now : datetime)
  : Database * result unit :=
match mapM (fun p => if id_is (VInt post_id) p
                     then v ← plus_one (getattr p "view_count");
                          Return (<["updated_at" := VTime now]>
                                    (<["view_count" := v]> p))
                     else Return p)
           (posts db) with
| Return t => (set_posts db t (posts_id_seq db), Return tt)
| Raise e => (db, Raise e)
end.

(** [get_category_by_slug] *)
Definition get_category_by_slug (db : Database) (slug : string) : option row :=
List.find (fun c => bool_decide (getattr c "slug" = VStr slug)) (categories db).

(** [delete_category]: [Category.posts] goes through the [secondary]
    table [post_categories], whose rows for the category are deleted
    with it; the posts stay. *)
Definition delete_category (db : Database) (category_id : Z)
  : Database * result bool :=
match get_category db category_id with
| None => (db, Return false)
| Some _ =>
  (set_post_categories
     (set_categories db
        (List.filter (fun c => negb (id_is (VInt category_id) c)) (categories db)))
     (List.filter (fun g => negb (bool_decide (pcat_category_id g = category_id)))
                  (post_categories db)),
   Return true)
end.

(** [get_comments] *)
Definition get_comments (db : Database) (post_id user_id : value)
    (skip limit : Z) : result (list row) :=
let q := comments db in
let q := if truthy post_id
         then List.filter (fun c => bool_decide (getattr c "post_id" = post_id)) q
         else q in
let q := if truthy user_id
         then List.filter (fun c => bool_decide (getattr c "user_id" = user_id)) q
         else q in
let q := order_by_column "created_at" false q in
if (skip <? 0) || (limit <? 0) then Raise DataError
else Return (take (Z.to_nat limit) (drop (Z.to_nat skip) q)).

(** [update_comment]; [now] is the reading of [datetime.utcnow()]. *)
Definition update_comment (db : Database) (comment_id : Z)
    (comment_data : dict) (now : datetime) : Database * result (option row) :=
match get_comment db comment_id with
| None => (db, Return None)
| Some db_comment =>
  match (content ← match comment_data !! "content" with
                   | Some v => Return v
                   | None => Raise (KeyError "content")
                   end;
         let r := <["content" := content]> db_comment in
         let r := <["is_edited" := VBool true]> r in
         let r := <["updated_at" := VTime now]> r in
         t ← update Comment db db_comment r;
         Return (t, r)) with
  | Raise e => (db, Raise e)
  | Return (t, r) => (set_comments db t, Return (Some r))
  end
end.

(** [delete_comment]; [now] is the engine's clock at the commit. *)
Definition delete_comment (db : Database) (comment_id : Z) (now : datetime)
  : Database * result bool :=
match get_comment db comment_id with
| None => (db, Return false)
| Some _ =>
  (delete_cascade nobody nobody (id_is (VInt comment_id)) now db, Return true)
end.

(** [get_following]: the users joined to the rows of [subscriptions]
    whose follower is [user_id].  The query has no ORDER BY: the order
    of the list is the engine's. *)
Definition get_following (db : Database) (user_id : Z) : list row :=
flat_map (fun u =>
            flat_map (fun s => if bool_decide (VInt (sub_following_id s) = getattr u "id")
                                  && bool_decide (sub_follower_id s = user_id)
                               then [u] else [])
                     (subscriptions db))
         (users db).

(** [get_followers] *)
Definition get_followers (db : Database) (user_id : Z) : list row :=
flat_map (fun u =>
            flat_map (fun s => if bool_decide (VInt (sub_follower_id s) = getattr u "id")
                                  && bool_decide (sub_following_id s = user_id)
                               then [u] else [])
                     (subscriptions db))
         (users db).

End WithExternal.
End Crud.

(* ===================================================================== *)
(** ** Request schemas of [src/models.py], [src/dependencies.py] and the
       handlers of [src/routes.py] *)
(* ===================================================================== *)

Module Schemas.

(** A field of a request model as [model_dump(exclude_unset=True)] sees
    it: not sent, sent as [null], or sent with a value. *)
Inductive field (A : Type) :=
| Unset
| Null
| Given (a : A).
Arguments Unset {A}.
Arguments Null {A}.
Arguments Given {A} a.

Definition dump_field {A} (inj : A -> value) (key : string) (f : field A)
    (d : dict) : dict :=
  match f with
  | Unset => d
  | Null => <[key := VNone]> d
  | Given a => <[key := inj a]> d
  end.

(** [PostCreate] *)
Record PostCreate := {
  pc_title : string;
  pc_content : string;
  pc_summary : option string;
  pc_is_published : bool;
  pc_category_ids : option (list Z)
}.

Definition opt {A} (inj : A -> value) (o : option A) : value :=
  match o with Some a => inj a | None => VNone end.

(** [PostCreate.model_dump()]: every field, defaults included. *)
Definition PostCreate_model_dump (m : PostCreate) : dict :=
  {[ "title" := VStr (pc_title m);
     "content" := VStr (pc_content m);
     "summary" := opt VStr (pc_summary m);
     "is_published" := VBool (pc_is_published m);
     "category_ids" := opt VList (pc_category_ids m) ]}.

(** [PostUpdate] *)
Record PostUpdate := {
  pu_title : field string;
  pu_content : field string;
  pu_summary : field string;
  pu_is_published : field bool;
  pu_category_ids : field (list Z)
}.

(** [PostUpdate.model_dump(exclude_unset=True)] *)
Definition PostUpdate_model_dump (m : PostUpdate) : dict :=
  dump_field VStr "title" (pu_title m)
    (dump_field VStr "content" (pu_content m)
      (dump_field VStr "summary" (pu_summary m)
        (dump_field VBool "is_published" (pu_is_published m)
          (dump_field VList "category_ids" (pu_category_ids m) ∅)))).

(** [UserUpdate] *)
Record UserUpdate := {
  uu_email : field string;
  uu_login : field string;
  uu_full_name : field string;
  uu_bio : field string;
  uu_avatar_url : field string;
  uu_password : field string
}.

(** [UserUpdate.model_dump(exclude_unset=True)] *)
Definition UserUpdate_model_dump (m : UserUpdate) : dict :=
  dump_field VStr "email" (uu_email m)
    (dump_field VStr "login" (uu_login m)
      (dump_field VStr "full_name" (uu_full_name m)
        (dump_field VStr "bio" (uu_bio m)
          (dump_field VStr "avatar_url" (uu_avatar_url m)
            (dump_field VStr "password" (uu_password m) ∅))))).

(** [UserCreate] *)
Record UserCreate := {
  uc_email : string;
  uc_login : string;
  uc_full_name : option string;
  uc_bio : option string;
  uc_avatar_url : option string;
  uc_password : string
}.

(** [UserCreate.model_dump()] *)
Definition UserCreate_model_dump (m : UserCreate) : dict :=
{[ "email" := VStr (uc_email m);
   "login" := VStr (uc_login m);
   "full_name" := opt VStr (uc_full_name m);
   "bio" := opt VStr (uc_bio m);
   "avatar_url" := opt VStr (uc_avatar_url m);
   "password" := VStr (uc_password m) ]}.

(** [CommentUpdate] and its [model_dump()] *)
Record CommentUpdate := { cu_content : string }.

Definition CommentUpdate_model_dump (m : CommentUpdate) : dict :=
{[ "content" := VStr (cu_content m) ]}.

End Schemas.

Module Dependencies.
Import Orm.

Record pagination := { skip : Z; limit : Z }.

(** [get_pagination_params]: [page] is declared [ge=1] and [page_size]
    [ge=1, le=100]; a request outside the bounds is answered 422 before
    the function runs. *)
Definition get_pagination_params (page page_size : Z) : response pagination :=
  if (1 <=? page) && (1 <=? page_size) && (page_size <=? 100)
  then Ok 200 {| skip := (page - 1) * page_size; limit := page_size |}
  else HTTPException 422 "Unprocessable Entity".

Section WithExternal.
Context `{External}.

(** [get_post_or_404] *)
Definition get_post_or_404 (db : Database) (post_id : Z) : response row :=
  match Crud.get_post db post_id with
  | Some post => Ok 200 post
  | None => HTTPException 404 "Post not found"
  end.

(** [get_comment_or_404] *)
Definition get_comment_or_404 (db : Database) (comment_id : Z) : response row :=
  match Crud.get_comment db comment_id with
  | Some comment => Ok 200 comment
  | None => HTTPException 404 "Comment not found"
  end.

(** [verify_post_owner]; [current_user] is the user object that
    [get_current_user] of [auth.py] resolved from the credential. *)
Definition verify_post_owner (db : Database) (post_id : Z) (current_user : row)
  : response row :=
  match get_post_or_404 db post_id with
  | HTTPException st detail => HTTPException st detail
  | Ok _ post =>
    if negb (bool_decide (getattr post "author_id" = getattr current_user "id"))
       && negb (truthy (getattr current_user "is_admin"))
    then HTTPException 403 "Not enough permissions"
    else Ok 200 post
  end.

(** [verify_comment_owner] *)
Definition verify_comment_owner (db : Database) (comment_id : Z)
    (current_user : row) : response row :=
match get_comment_or_404 db comment_id with
| HTTPException st detail => HTTPException st detail
| Ok _ comment =>
  if negb (bool_decide (getattr comment "user_id" = getattr current_user "id"))
     && negb (truthy (getattr current_user "is_admin"))
  then HTTPException 403 "Not enough permissions"
  else Ok 200 comment
end.

(** [get_category_or_404] *)
Definition get_category_or_404 (db : Database) (category_id : Z) : response row :=
match Crud.get_category db category_id with
| Some category => Ok 200 category
| None => HTTPException 404 "Category not found"
end.

End WithExternal.
End Dependencies.

Module Routes.
Import Orm Schemas Dependencies.

Section WithExternal.
Context `{External}.

(** An exception that no handler catches. *)
Definition unhandled {A} : response A := HTTPException 500 "Internal Server Error".

(** [POST /posts] *)
Definition create_post (db : Database) (post_data : PostCreate)
    (current_user : row) (t_slug t_pub now : datetime)
  : Database * response row :=
  let post_dict :=
    <["author_id" := getattr current_user "id"]> (PostCreate_model_dump post_data) in
  match Crud.create_post db post_dict t_slug t_pub now with
  | (db', Return post) => (db', Ok 201 post)
  | (db', Raise (ValueError msg)) => (db', HTTPException 400 msg)
  | (db', Raise _) => (db', unhandled)
  end.

(** [PUT /posts/{post_id}] *)
Definition update_post (db : Database) (post_id : Z) (post_data : PostUpdate)
    (current_user : row) (t_upd t_pub now : datetime)
  : Database * response row :=
  match verify_post_owner db post_id current_user with
  | HTTPException st detail => (db, HTTPException st detail)
  | Ok _ _ =>
    let update_data := PostUpdate_model_dump post_data in
    match Crud.update_post db post_id update_data t_upd t_pub now with
    | (db', Return (Some post)) => (db', Ok 200 post)
    | (db', Return None) => (db', HTTPException 404 "Post not found")
    | (db', Raise (ValueError msg)) => (db', HTTPException 400 msg)
    | (db', Raise _) => (db', unhandled)
    end
  end.

(** [POST /posts/{post_id}/favorite] *)
Definition add_to_favorites (db : Database) (post_id : Z) (current_user : row)
    (now : datetime) : Database * response string :=
  match get_post_or_404 db post_id with
  | HTTPException st detail => (db, HTTPException st detail)
  | Ok _ post =>
    if negb (truthy (getattr post "is_published"))
    then (db, HTTPException 403 "Cannot favorite unpublished post")
    else
      match as_int (getattr current_user "id") with
      | Raise _ => (db, unhandled)
      | Return me =>
        match Crud.add_favorite db me post_id now with
        | (db', Return true) => (db', Ok 201 "Post added to favorites")
        | (db', Return false) => (db', HTTPException 400 "Post already in favorites")
        | (db', Raise _) => (db', unhandled)
        end
      end
  end.

(** [DELETE /posts/{post_id}/favorite] *)
Definition remove_from_favorites (db : Database) (post_id : Z)
    (current_user : row) : Database * response string :=
  match as_int (getattr current_user "id") with
  | Raise _ => (db, unhandled)
  | Return me =>
    match Crud.remove_favorite db me post_id with
    | (db', Return true) => (db', Ok 204 "")
    | (db', Return false) => (db', HTTPException 404 "Post not found in favorites")
    | (db', Raise _) => (db', unhandled)
    end
  end.

(** [POST /users/{user_id}/follow] *)
Definition follow_user (db : Database) (user_id : Z) (current_user : row)
    (now : datetime) : Database * response string :=
  match Crud.get_user db user_id with
  | None => (db, HTTPException 404 "User not found")
  | Some _ =>
    if bool_decide (VInt user_id = getattr current_user "id")
    then (db, HTTPException 400 "Cannot follow yourself")
    else
      match as_int (getattr current_user "id") with
      | Raise _ => (db, unhandled)
      | Return me =>
        match Crud.follow_user db me user_id now with
        | (db', Return true) => (db', Ok 201 "User followed successfully")
        | (db', Return false) => (db', HTTPException 400 "Already following this user")
        | (db', Raise _) => (db', unhandled)
        end
      end
  end.

(** [DELETE /users/{user_id}/follow] *)
Definition unfollow_user (db : Database) (user_id : Z) (current_user : row)
  : Database * response string :=
  match as_int (getattr current_user "id") with
  | Raise _ => (db, unhandled)
  | Return me =>
    match Crud.unfollow_user db me user_id with
    | (db', Return true) => (db', Ok 204 "")
    | (db', Return false) => (db', HTTPException 404 "Not following this user")
    | (db', Raise _) => (db', unhandled)
    end
  end.

(** [post.liked_by] and [post.comments], loaded when the handler takes
    their length. *)
Definition liked_by (db : Database) (post : row) : list row :=
flat_map (fun u =>
            flat_map (fun f => if bool_decide (VInt (Models.fav_user_id f) = getattr u "id")
                                  && bool_decide (VInt (Models.fav_post_id f) = getattr post "id")
                               then [u] else [])
                     (favorites db))
         (users db).

Definition comments_of (db : Database) (post : row) : list row :=
List.filter (fun c => bool_decide (getattr c "post_id" = getattr post "id"))
            (comments db).

(** [PostWithStats]: the post with [likes_count] and [comments_count]. *)
Definition with_stats (db : Database) (post : row) : row :=
<["comments_count" := VInt (Z.of_nat (length (comments_of db post)))]>
  (<["likes_count" := VInt (Z.of_nat (length (liked_by db post)))]> post).

(** [GET /posts]: one page of the listing.  [order_by] and [order] are
    declared with a [regex]; a request outside it is answered 422. *)
Definition list_posts (db : Database) (author_id category_id search : value)
    (order_by order : string) (page page_size : Z) (current_user : option row)
  : response (list row) :=
  if negb (mem order_by ["created_at"; "updated_at"; "view_count"; "title"])
     || negb (mem order ["asc"; "desc"])
  then HTTPException 422 "Unprocessable Entity" else
  match get_pagination_params page page_size with
  | HTTPException st detail => HTTPException st detail
  | Ok _ pagination =>
    let is_published :=
      match current_user with
      | Some u => if truthy (getattr u "is_admin") then VNone else VBool true
      | None => VBool true
      end in
    match Crud.get_posts db (skip pagination) (limit pagination)
            author_id category_id is_published search order_by order with
    | Return posts => Ok 200 (with_stats db <$> posts)
    | Raise _ => unhandled
    end
  end.

(** [POST /auth/register] *)
Definition register (db : Database) (user_data : UserCreate) (now : datetime)
  : Database * response row :=
match Crud.get_user_by_email db (uc_email user_data) with
| Some _ => (db, HTTPException 400 "Email already registered")
| None =>
  match Crud.get_user_by_login db (uc_login user_data) with
  | Some _ => (db, HTTPException 400 "Login already taken")
  | None =>
    match Crud.create_user db (UserCreate_model_dump user_data) now with
    | (db', Return user) => (db', Ok 201 user)
    | (db', Raise (ValueError msg)) => (db', HTTPException 400 msg)
    | (db', Raise _) => (db', unhandled)
    end
  end
end.

(** [crud.get_user_by_email] and [crud.get_user_by_login] on a value of
    the payload, which may be [None]: the first user whose column
    equals it. *)
Definition user_with (db : Database) (column : string) (v : value) : option row :=
List.find (fun u => bool_decide (getattr u column = v)) (users db).

(** [PUT /auth/me] *)
Definition update_current_user (db : Database) (user_data : UserUpdate)
    (current_user : row) (now : datetime) : Database * response row :=
let update_data := UserUpdate_model_dump user_data in
let taken column :=
  match update_data !! column with
  | Some v => negb (bool_decide (v = getattr current_user column))
              && bool_decide (is_Some (user_with db column v))
  | None => false
  end in
if taken "email" then (db, HTTPException 400 "Email already registered")
else if taken "login" then (db, HTTPException 400 "Login already taken")
else
  match as_int (getattr current_user "id") with
  | Raise _ => (db, unhandled)
  | Return me =>
    match Crud.update_user db me update_data now with
    | (db', Return (Some user)) => (db', Ok 200 user)
    | (db', Return None) => (db', HTTPException 404 "User not found")
    | (db', Raise _) => (db', unhandled)
    end
  end.

(** [GET /posts/{post_id}]: the answer is built from the post as loaded;
    the background task [increment_post_views] runs once the answer is
    out, with the engine's clock at [now]. *)
Definition get_post (db : Database) (post_id : Z) (current_user : option row)
    (now : datetime) : Database * response row :=
match get_post_or_404 db post_id with
| HTTPException st detail => (db, HTTPException st detail)
| Ok _ post =>
  if negb (truthy (getattr post "is_published")) &&
     match current_user with
     | None => true
     | Some u => negb (bool_decide (getattr post "author_id" = getattr u "id"))
                 && negb (truthy (getattr u "is_admin"))
     end
  then (db, HTTPException 403 "Not enough permissions")
  else ((Crud.increment_post_views db post_id now).1, Ok 200 (with_stats db post))
end.

(** [DELETE /posts/{post_id}] *)
Definition delete_post (db : Database) (post_id : Z) (current_user : row)
    (now : datetime) : Database * response string :=
match verify_post_owner db post_id current_user with
| HTTPException st detail => (db, HTTPException st detail)
| Ok _ _ =>
  match Crud.delete_post db post_id now with
  | (db', Return true) => (db', Ok 204 "")
  | (db', Return false) => (db', HTTPException 404 "Post not found")
  | (db', Raise _) => (db', unhandled)
  end
end.

(** [PUT /comments/{comment_id}] *)
Definition update_comment (db : Database) (comment_id : Z)
    (comment_data : CommentUpdate) (current_user : row) (now : datetime)
  : Database * response row :=
match verify_comment_owner db comment_id current_user with
| HTTPException st detail => (db, HTTPException st detail)
| Ok _ _ =>
  match Crud.update_comment db comment_id
          (CommentUpdate_model_dump comment_data) now with
  | (db', Return (Some comment)) => (db', Ok 200 comment)
  | (db', Return None) => (db', HTTPException 404 "Comment not found")
  | (db', Raise _) => (db', unhandled)
  end
end.

(** [DELETE /comments/{comment_id}] *)
Definition delete_comment (db : Database) (comment_id : Z) (current_user : row)
    (now : datetime) : Database * response string :=
match verify_comment_owner db comment_id current_user with
| HTTPException st detail => (db, HTTPException st detail)
| Ok _ _ =>
  match Crud.delete_comment db comment_id now with
  | (db', Return true) => (db', Ok 204 "")
  | (db', Return false) => (db', HTTPException 404 "Comment not found")
  | (db', Raise _) => (db', unhandled)
  end
end.

(** [GET /me/feed]: one page of the published posts, of which those
    written by a followed user are kept. *)
Definition get_feed (db : Database) (page page_size : Z) (current_user : row)
  : response (list row) :=
match get_pagination_params page page_size with
| HTTPException st detail => HTTPException st detail
| Ok _ pagination =>
  match as_int (getattr current_user "id") with
  | Raise _ => unhandled
  | Return me =>
    let following := Crud.get_following db me in
    let following_ids := (fun user => getattr user "id") <$> following in
    match following_ids with
    | [] => Ok 200 []
    | _ :: _ =>
      match Crud.get_posts db (skip pagination) (limit pagination)
              VNone VNone (VBool true) VNone "created_at" "desc" with
      | Raise _ => unhandled
      | Return posts =>
        let feed_posts :=
          List.filter (fun post => bool_decide (getattr post "author_id" ∈ following_ids))
                      posts in
        Ok 200 (with_stats db <$> feed_posts)
      end
    end
  end
end.

End WithExternal.
End Routes.

(* ===================================================================== *)
(** ** Vocabulary of the properties *)
(* ===================================================================== *)

Module Props.
Import Models Orm.

(** What the loop of a partial update leaves in attribute [f]. *)
Definition field_after (T : table_decl)
    (validate : string -> value -> result value) (data : dict) (obj : row)
    (f : string) : option value :=
  match data !! f with
  | Some v =>
    if is_not_None v && mem f (t_columns T) then
      match validate f v with
      | Return v' => Some v'
      | Raise _ => obj !! f
      end
    else obj !! f
  | None => obj !! f
  end.

(** A post that is published carries its publication time. *)
Definition stamped_if_published (p : row) : Prop :=
  truthy (getattr p "is_published") = true ->
  truthy (getattr p "published_at") = true.

(** Primary key of a mapped table: no two rows share an id. *)
Definition primary_key (t : list row) : Prop :=
  NoDup ((fun r => getattr r "id") <$> t).

(** Primary keys of the association tables. *)
Definition favorites_key (t : list favorite) : Prop :=
  NoDup ((fun f => (fav_user_id f, fav_post_id f)) <$> t).

Definition subscriptions_key (t : list subscription) : Prop :=
  NoDup ((fun s => (sub_follower_id s, sub_following_id s)) <$> t).

(** [check_no_self_follow] *)
Definition no_self_follow (t : list subscription) : Prop :=
  Forall (fun s => sub_follower_id s <> sub_following_id s) t.

(** A foreign key column [col] of the rows [t] into the table [target]:
    every value that is not NULL is the id of a row of [target]. *)
Definition foreign_key (col : string) (t target : list row) : Prop :=
  Forall (fun r => is_not_None (getattr r col) = true ->
                   has_id target (getattr r col) = true) t.

(** No orphan rows: every reference of the schema of [models.py] points
    at a stored row. *)
Record referential_integrity (db : Database) : Prop := {
  ri_post_author : foreign_key "author_id" (posts db) (users db);
  ri_comment_post : foreign_key "post_id" (comments db) (posts db);
  ri_comment_user : foreign_key "user_id" (comments db) (users db);
  ri_comment_parent : foreign_key "parent_id" (comments db) (comments db);
  ri_favorite :
    Forall (fun f => has_id (users db) (VInt (fav_user_id f)) = true /\
                     has_id (posts db) (VInt (fav_post_id f)) = true)
           (favorites db);
  ri_subscription :
    Forall (fun s => has_id (users db) (VInt (sub_follower_id s)) = true /\
                     has_id (users db) (VInt (sub_following_id s)) = true)
           (subscriptions db);
  ri_post_category :
    Forall (fun g => has_id (posts db) (VInt (pcat_post_id g)) = true)
           (post_categories db)
}.

(** The same for the prototype store: every post has a stored author. *)
Definition store_integrity (s : Storage.Store) : Prop :=
  forall pid p, Storage.posts s !! pid = Some p ->
                is_Some (Storage.users s !! Storage.pr_authorId p).

(** The keys that [update_post] and [create_post] pop before anything
    else. *)
Definition popped (d : dict) : dict :=
  delete "category_ids" (delete "categories" d).

(** The attributes of the post after [update_post] has run its loop and
    set the two timestamps. *)
Definition updated_post (d : dict) (t_upd t_pub : datetime) (r0 : row) : row :=
  let r := <["updated_at" := VTime t_upd]> r0 in
  if truthy (dict_get (popped d) "is_published") &&
     negb (truthy (getattr r "published_at"))
  then <["published_at" := VTime t_pub]> r else r.

(** The commands of [crud.py] that write, and the state they leave.
    A history is a sequence of commands run from the empty database. *)
Inductive command :=
| CreateUser (user_data : dict) (now : datetime)
| UpdateUser (user_id : Z) (user_data : dict) (now : datetime)
| DeleteUser (user_id : Z) (now : datetime)
| CreatePost (post_data : dict) (t_slug t_pub now : datetime)
| UpdatePost (post_id : Z) (post_data : dict) (t_upd t_pub now : datetime)
| DeletePost (post_id : Z) (now : datetime)
| UpdateCategory (category_id : Z) (category_data : dict)
| AddFavorite (user_id post_id : Z) (now : datetime)
| RemoveFavorite (user_id post_id : Z)
| FollowUser (follower_id following_id : Z) (now : datetime)
| UnfollowUser (follower_id following_id : Z).

Definition run `{External} (db : Database) (c : command) : Database :=
match c with
| CreateUser d now => (Crud.create_user db d now).1
| UpdateUser i d now => (Crud.update_user db i d now).1
| DeleteUser i now => (Crud.delete_user db i now).1
| CreatePost d t_slug t_pub now => (Crud.create_post db d t_slug t_pub now).1
| UpdatePost i d t_upd t_pub now => (Crud.update_post db i d t_upd t_pub now).1
| DeletePost i now => (Crud.delete_post db i now).1
| UpdateCategory i d => (Crud.update_category db i d).1
| AddFavorite u p now => (Crud.add_favorite db u p now).1
| RemoveFavorite u p => (Crud.remove_favorite db u p).1
| FollowUser a b now => (Crud.follow_user db a b now).1
| UnfollowUser a b => (Crud.unfollow_user db a b).1
end.

Definition empty_database : Database := {|
  users := []; posts := []; categories := []; comments := [];
  post_categories := []; favorites := []; subscriptions := [];
  users_id_seq := 0; posts_id_seq := 0
|}.

(** The row that links post [pid] to category [cid]. *)
Definition category_row (pid : Z) (now : datetime) (cid : Z) : post_category :=
{| pcat_post_id := pid; pcat_category_id := cid; pcat_created_at := now |}.

(** The payload of [update_user] after the new password, if one is
    supplied, has been replaced by its hash. *)
Definition with_password_hash `{External} (user_data : dict) : result dict :=
if dict_mem "password" user_data && truthy (dict_get user_data "password")
then h ← Crud.hash_value (dict_get user_data "password");
     Return (<["password_hash" := h]> (delete "password" user_data))
else Return user_data.

(** The operations of the prototype [Store] that write, and the store
    they leave.  A history of the prototype is a sequence of operations
    run from [store = Store(users={}, posts={})]. *)
Inductive store_command :=
| StoreCreateUser (data : Storage.UserCreate) (t1 t2 : datetime)
| StoreUpdateUser (user_id : Z) (data : Storage.UserUpdate) (t : datetime)
| StoreDeleteUser (user_id : Z)
| StoreCreatePost (data : Storage.PostCreate) (t1 t2 : datetime)
| StoreUpdatePost (post_id : Z) (data : Storage.PostUpdate) (t : datetime)
| StoreDeletePost (post_id : Z).

Definition store_run (s : Storage.Store) (c : store_command) : Storage.Store :=
match c with
| StoreCreateUser data t1 t2 => (Storage.create_user s data t1 t2).1
| StoreUpdateUser i data t => (Storage.update_user s i data t).1
| StoreDeleteUser i => (Storage.delete_user s i).1
| StoreCreatePost data t1 t2 => (Storage.create_post s data t1 t2).1
| StoreUpdatePost i data t => (Storage.update_post s i data t).1
| StoreDeletePost i => (Storage.delete_post s i).1
end.

Definition empty_store : Storage.Store :=
{| Storage.users := ∅; Storage.posts := ∅;
   Storage._user_seq := 0; Storage._post_seq := 0 |}.

(** Every record is filed under its own id, and no id is ahead of its
    sequence. *)
Definition store_keys (s : Storage.Store) : Prop :=
(forall k u, Storage.users s !! k = Some u ->
   Storage.ur_id u = k /\ k <= Storage._user_seq s) /\
(forall k p, Storage.posts s !! k = Some p ->
   Storage.pr_id p = k /\ k <= Storage._post_seq s).

(** Who may write a post or a comment: the user in [owner_column], or
    an administrator. *)
Definition may_write (owner_column : string) (obj current_user : row) : Prop :=
getattr obj owner_column = getattr current_user "id" \/
truthy (getattr current_user "is_admin") = true.

(** The posts on page [page] of a listing cut into pages of [size]:
    what [get_posts] returns for the offset and limit that
    [get_pagination_params] computes, nothing if either refuses. *)
Definition page_of `{External} (db : Database) (author_id category_id : value)
    (is_published search : value) (order_by order : string) (size page : Z)
  : list row :=
match Dependencies.get_pagination_params page size with
| Ok _ pagination =>
  match Crud.get_posts db (Dependencies.skip pagination)
          (Dependencies.limit pagination) author_id category_id is_published
          search order_by order with
  | Return posts => posts
  | Raise _ => []
  end
| HTTPException _ _ => []
end.

(** No two users share an email or a login. *)
Definition store_unique (s : Storage.Store) : Prop :=
forall k1 k2 u1 u2,
  Storage.users s !! k1 = Some u1 -> Storage.users s !! k2 = Some u2 ->
  Storage.ur_email u1 = Storage.ur_email u2 \/
  Storage.ur_login u1 = Storage.ur_login u2 ->
  k1 = k2.

End Props.

(* ===================================================================== *)
(** ** A concrete environment and concrete states *)
(* ===================================================================== *)

(** Stand-ins for the collaborators, used to run the model on concrete
    inputs.  The text of an [IntegrityError] follows the report of
    PostgreSQL (the engine of [config.py]): the name of the violated
    constraint and, for a unique violation, the DETAIL line that quotes
    the offending key. *)
Module Sample.
Import Models Orm.

Definition key_text (v : value) : string :=
match v with VStr s => s | _ => "" end.

Definition report (c : constraint) (r : row) : string :=
match c with
| Unique t col =>
  "duplicate key value violates unique constraint ix_" +:+ t +:+ "_" +:+ col
  +:+ " DETAIL: Key (" +:+ col +:+ ")=(" +:+ key_text (getattr r col)
  +:+ ") already exists."
| PrimaryKey t =>
  "duplicate key value violates unique constraint " +:+ t +:+ "_pkey"
| NotNull t col =>
  "null value in column " +:+ col +:+ " of relation " +:+ t
  +:+ " violates not-null constraint"
| ForeignKey t col =>
  "insert or update on table " +:+ t +:+ " violates foreign key constraint "
  +:+ t +:+ "_" +:+ col +:+ "_fkey"
| CheckConstraint name =>
  "new row violates check constraint " +:+ name
end.

Definition environment : External := {|
  slugify := fun title => title;
  get_password_hash := fun password => "hashed:" +:+ password;
  email_validator := fun address => inl address;
  integrity_text := report;
  ilike := fun term v => match v with VStr s => contains term s | _ => false end;
  order_by_column := fun _ _ rows => rows
|}.

Definition noon : datetime := mk_datetime 2024 5 17 12 0 0 0.
Definition noon_later : datetime := mk_datetime 2024 5 17 12 0 0 250.
Definition evening : datetime := mk_datetime 2024 5 17 19 30 15 0.

Definition user (i : Z) (email login : string) : row :=
{[ "id" := VInt i; "email" := VStr email; "login" := VStr login;
   "password_hash" := VStr "hashed:secret123"; "is_active" := VBool true;
   "is_admin" := VBool false; "created_at" := VTime noon;
   "updated_at" := VTime noon ]}.

Definition post (i author : Z) (title slug : string) (published : bool)
  (published_at : value) : row :=
{[ "id" := VInt i; "author_id" := VInt author; "title" := VStr title;
   "slug" := VStr slug; "content" := VStr "Lorem ipsum";
   "is_published" := VBool published; "published_at" := published_at;
   "view_count" := VInt 0; "created_at" := VTime noon;
   "updated_at" := VTime noon ]}.

Definition category (i : Z) (name : string) : row :=
{[ "id" := VInt i; "name" := VStr name; "slug" := VStr name;
   "created_at" := VTime noon ]}.

Definition comment (i post_id user_id : Z) (parent : value) : row :=
{[ "id" := VInt i; "post_id" := VInt post_id; "user_id" := VInt user_id;
   "content" := VStr "Nice"; "parent_id" := parent;
   "is_edited" := VBool false; "created_at" := VTime noon;
   "updated_at" := VTime noon ]}.

(** Two users; a draft and a published post of the first, a published
    post of the second; comments, a reply, a favorite and a follow in
    both directions of ownership. *)
Definition blog : Database := {|
  users := [user 1 "ann@example.com" "email_fan"; user 2 "bob@example.com" "bobby"];
  posts := [post 1 1 "Draft" "draft-20240517120000" false VNone;
            post 2 1 "Hello" "hello-20240517120000" true (VTime noon);
            post 3 2 "World" "world-20240517120000" true (VTime noon)];
  categories := [category 1 "news"; category 2 "tech"];
  comments := [comment 1 2 2 VNone; comment 2 3 1 VNone;
               comment 3 3 2 (VInt 2)];
  post_categories := [{| pcat_post_id := 1; pcat_category_id := 1;
                         pcat_created_at := noon |}];
  favorites := [{| fav_user_id := 2; fav_post_id := 2; fav_created_at := noon |};
                {| fav_user_id := 1; fav_post_id := 3; fav_created_at := noon |}];
  subscriptions := [{| sub_follower_id := 2; sub_following_id := 1;
                       sub_created_at := noon |}];
  users_id_seq := 2;
  posts_id_seq := 3
|}.

(** The row that a lookup found or that an update returned, and whether
    there is one. *)
Definition found (o : option row) : row := default ∅ o.

Definition is_found (o : option row) : bool :=
match o with Some _ => true | None => false end.

Definition returned_row (r : result (option row)) : row :=
match r with Return (Some x) => x | _ => ∅ end.

Definition returns_row (r : result (option row)) : bool :=
match r with Return (Some _) => true | _ => false end.

Definition created_row (r : result row) : row :=
match r with Return x => x | _ => ∅ end.

Definition creates_row (r : result row) : bool :=
match r with Return _ => true | _ => false end.

(** A blog with 45 published posts of its one author. *)
Definition archive : Database := {|
  users := [user 1 "ann@example.com" "email_fan"];
  posts := (fun i => post (Z.of_nat i) 1 "Entry" "entry" true (VTime noon))
             <$> seq 1 45;
  categories := []; comments := []; post_categories := [];
  favorites := []; subscriptions := [];
  users_id_seq := 1; posts_id_seq := 45
|}.

(** The rows that a listing returned, and whether it returned. *)
Definition listed (r : result (list row)) : list row :=
match r with Return l => l | Raise _ => [] end.

Definition lists (r : result (list row)) : bool :=
match r with Return _ => true | Raise _ => false end.

(** The body of an answer that carries a row, and the status of an
    answer (0 for an error). *)
Definition body_row (r : response row) : row :=
match r with Ok _ x => x | HTTPException _ _ => ∅ end.

Definition status_ok {A} (r : response A) : Z :=
match r with Ok st _ => st | HTTPException _ _ => 0 end.

(** The constraint that made an INSERT fail. *)
Definition violated {A} (r : result A) : option constraint :=
match r with Raise (IntegrityError c _) => Some c | _ => None end.

(** A history of the prototype: two users register, the first writes a
    post, the second takes a new login. *)
Definition ann : Storage.UserCreate :=
{| Storage.uc_email := "ann@example.com"; Storage.uc_login := "ann";
   Storage.uc_password := "secret123" |}.

Definition bob : Storage.UserCreate :=
{| Storage.uc_email := "bob@example.com"; Storage.uc_login := "bob";
   Storage.uc_password := "secret456" |}.

Definition carol : Storage.UserCreate :=
{| Storage.uc_email := "carol@example.com"; Storage.uc_login := "carol";
   Storage.uc_password := "secret789" |}.

Definition prototype_history : list Props.store_command :=
[ Props.StoreCreateUser ann noon noon;
  Props.StoreCreateUser bob noon noon;
  Props.StoreCreatePost
    {| Storage.pc_authorId := 1; Storage.pc_title := "Hello";
       Storage.pc_content := "Lorem ipsum" |} evening evening;
  Props.StoreUpdateUser 2
    {| Storage.uu_email := None; Storage.uu_login := Some "bobby";
       Storage.uu_password := None |} evening ].

End Sample.

(* ===================================================================== *)
(** ** Python values and the update loop *)
(* ===================================================================== *)

Import Models Orm Props.

Ltac unfold_result :=
  unfold mbind, mret, fmap, result_bind, result_ret, result_fmap in *.

(** Membership in a list that is written out. *)
Ltac elem_tac :=
  simpl; repeat first [apply list_elem_of_here | apply list_elem_of_further].

Ltac not_elem_tac :=
  simpl; let Hin := fresh in
  intros Hin;
  repeat (apply elem_of_cons in Hin as [Hin|Hin]; [discriminate|]);
  by apply elem_of_nil in Hin.

Lemma strftime_ignores_microsecond y mo d h mi s us us' :
  strftime_YmdHMS (mk_datetime y mo d h mi s us) =
  strftime_YmdHMS (mk_datetime y mo d h mi s us').
Proof. reflexivity. Qed.

Lemma mem_true s l : mem s l = true <-> s ∈ l.
Proof. unfold mem. apply bool_decide_eq_true. Qed.

Lemma getattr_insert_eq (r : row) f v : getattr (<[f := v]> r) f = v.
Proof. unfold getattr. by rewrite lookup_insert_eq. Qed.

Lemma getattr_insert_ne (r : row) f g v :
  f <> g -> getattr (<[f := v]> r) g = getattr r g.
Proof. intros. unfold getattr. by rewrite lookup_insert_ne. Qed.

Section SetFields.
Variable T : table_decl.
Variable validate : string -> value -> result value.

(** The loop touches exactly the columns whose payload value is not
    [None]. *)
Lemma set_fields_lookup data obj r f :
  Crud.set_fields T validate data obj = Return r ->
  r !! f = field_after T validate data obj f.
Proof.
  unfold Crud.set_fields, field_after. revert r.
  apply (map_fold_weak_ind
           (fun acc (m : dict) => forall r, acc = Return r ->
              r !! f = match m !! f with
                       | Some v =>
                         if is_not_None v && mem f (t_columns T) then
                           match validate f v with
                           | Return v' => Some v'
                           | Raise _ => obj !! f
                           end
                         else obj !! f
                       | None => obj !! f
                       end)).
  - intros r [= <-]. by rewrite lookup_empty.
  - intros i x m acc Hi IH r Hr. unfold_result.
    destruct acc as [r0|e]; [|discriminate].
    specialize (IH r0 eq_refl).
    destruct (decide (i = f)) as [->|Hne].
    + rewrite lookup_insert_eq. rewrite Hi in IH.
      destruct (is_not_None x); simpl in *.
      * unfold setattr in Hr. unfold_result.
        destruct (mem f (t_columns T)).
        -- destruct (validate f x); [|discriminate].
           injection Hr as <-. by rewrite lookup_insert_eq.
        -- destruct (mem f (t_relationships T)); [discriminate|].
           by injection Hr as <-.
      * by injection Hr as <-.
    + rewrite lookup_insert_ne by done.
      destruct (is_not_None x); simpl in *.
      * unfold setattr in Hr. unfold_result.
        destruct (mem i (t_columns T)).
        -- destruct (validate i x); [|discriminate].
           injection Hr as <-. by rewrite lookup_insert_ne.
        -- destruct (mem i (t_relationships T)); [discriminate|].
           by injection Hr as <-.
      * by injection Hr as <-.
Qed.

(** The loop runs to its end when every value it has to set is accepted. *)
Lemma set_fields_returns data obj :
  (forall f v, data !! f = Some v -> is_not_None v = true ->
     if mem f (t_columns T) then exists v', validate f v = Return v'
     else mem f (t_relationships T) = false) ->
  exists r, Crud.set_fields T validate data obj = Return r.
Proof.
  unfold Crud.set_fields.
  apply (map_fold_weak_ind
           (fun acc (m : dict) =>
              (forall f v, m !! f = Some v -> is_not_None v = true ->
                 if mem f (t_columns T) then exists v', validate f v = Return v'
                 else mem f (t_relationships T) = false) ->
              exists r, acc = Return r)).
  - eauto.
  - intros i x m acc Hi IH Hall.
    destruct IH as [r0 ->].
    { intros f v Hf. apply Hall. rewrite lookup_insert_ne; [done|].
      intros ->. congruence. }
    unfold_result. destruct (is_not_None x) eqn:Hx; [|eauto].
    specialize (Hall i x (lookup_insert_eq _ _ _) Hx).
    unfold setattr. unfold_result.
    destruct (mem i (t_columns T)).
    + destruct Hall as [v' ->]. eauto.
    + rewrite Hall. eauto.
Qed.

End SetFields.

(* ===================================================================== *)
(** ** Posts: creation and partial update *)
(* ===================================================================== *)

Section Posts.
Context `{External}.

Lemma popped_lookup d f :
  f <> "category_ids" -> f <> "categories" -> popped d !! f = d !! f.
Proof. intros. unfold popped. by rewrite !lookup_delete_ne. Qed.

(** What a call of [update_post] can have done. *)
Lemma update_post_inv db post_id d t_upd t_pub now db' res :
  Crud.update_post db post_id d t_upd t_pub now = (db', res) ->
  match res with
  | Raise _ => db' = db
  | Return None => db' = db /\ Crud.get_post db post_id = None
  | Return (Some p') =>
    exists p r0,
      Crud.get_post db post_id = Some p /\
      Crud.set_fields Post no_validator (popped d) p = Return r0 /\
      p' = updated_post d t_upd t_pub r0 /\
      check_update Post db p p' = None /\
      posts db' = (fun r => if id_is (getattr p "id") r then p' else r) <$> posts db /\
      users db' = users db /\ categories db' = categories db /\
      comments db' = comments db /\ favorites db' = favorites db /\
      subscriptions db' = subscriptions db /\
      let category_ids := dict_get_default d "category_ids" (VList []) in
      if truthy category_ids then
        exists ids, category_ids = VList ids /\
          assign_categories db (getattr p "id") (getattr p' "id")
            (List.filter (id_in ids) (categories db)) now
          = Return (post_categories db')
      else post_categories db' = post_categories db
  end.
Proof.
  unfold Crud.update_post. fold (popped d).
  destruct (Crud.get_post db post_id) as [p|] eqn:Hget.
  2:{ intros [= <- <-]. done. }
  destruct (Crud.set_fields Post no_validator (popped d) p) as [r0|e] eqn:Hset;
    unfold_result.
  2:{ intros [= <- <-]. done. }
  fold (updated_post d t_upd t_pub r0).
  set (category_ids := dict_get_default d "category_ids" (VList [])).
  destruct (truthy category_ids) eqn:Htr.
  - unfold Crud.categories_in.
    destruct category_ids as [| | | | |ids] eqn:Hids;
      try (intros [= <- <-]; done).
    unfold update.
    destruct (check_update Post db p (updated_post d t_upd t_pub r0)) eqn:Hchk.
    { intros [= <- <-]. done. }
    destruct (assign_categories db (getattr p "id")
                (getattr (updated_post d t_upd t_pub r0) "id")
                (List.filter (id_in ids) (categories db)) now) as [pcs|e] eqn:Hasg.
    2:{ intros [= <- <-]. done. }
    intros [= <- <-]. exists p, r0. simpl.
    repeat split; try done. exists ids. done.
  - unfold update.
    destruct (check_update Post db p (updated_post d t_upd t_pub r0)) eqn:Hchk.
    { intros [= <- <-]. done. }
    intros [= <- <-]. exists p, r0. simpl. repeat split; done.
Qed.

Lemma construct_no_validator T d r :
construct T no_validator d = Return r -> r = d.
Proof.
unfold construct. revert r.
apply (map_fold_weak_ind
         (fun acc (m : dict) => forall r, acc = Return r -> r = m)).
- by intros r [= <-].
- intros i x m acc Hi IH r Hr. unfold_result.
  destruct acc as [r0|e]; [|discriminate].
  rewrite (IH r0 eq_refl) in Hr. unfold setattr, no_validator in Hr.
  destruct (mem i (t_columns T)); [|discriminate].
  by injection Hr as <-.
Qed.

Lemma with_defaults_keep T now r c :
is_not_None (getattr r c) = true ->
getattr (with_defaults T now r) c = getattr r c.
Proof.
intros Hc. unfold with_defaults.
induction (t_defaults T ++ ((fun c => (c, VTime now)) <$> t_server_now T))
  as [|x l IH]; simpl; [done|].
destruct (is_not_None (getattr (foldr _ r l) x.1)) eqn:Hx; [done|].
destruct (decide (x.1 = c)) as [<-|Hne].
- rewrite IH, Hc in Hx. discriminate.
- by rewrite getattr_insert_ne.
Qed.

Lemma fst_tagged {A B} (b : B) (l : list A) : ((fun a => (a, b)) <$> l).*1 = l.
Proof. induction l as [|a l IH]; simpl; [done|]. f_equal. exact IH. Qed.

Lemma with_defaults_other T now r c :
c ∉ (t_defaults T).*1 -> c ∉ t_server_now T ->
getattr (with_defaults T now r) c = getattr r c.
Proof.
intros H1 H2. unfold with_defaults.
assert (Hc : c ∉ (t_defaults T ++ ((fun c => (c, VTime now)) <$> t_server_now T)).*1).
{ rewrite fmap_app, fst_tagged. by intros [?|?]%elem_of_app. }
clear H1 H2.
induction (t_defaults T ++ ((fun c => (c, VTime now)) <$> t_server_now T))
  as [|x l IH]; simpl in *; [done|].
apply not_elem_of_cons in Hc as [Hne Hc].
destruct (is_not_None (getattr (foldr _ r l) x.1)); [by apply IH|].
rewrite getattr_insert_ne by done. by apply IH.
Qed.

(** What the engine stored when an INSERT went through. *)
Lemma insert_inv T db seq now r p seq' :
insert T db seq now r = Return (p, seq') ->
p = with_defaults T now
      (if is_not_None (getattr r "id") then r else <["id" := VInt (seq + 1)]> r) /\
check_insert T db p = None.
Proof.
unfold insert.
destruct (check_insert T db _) eqn:Hchk; [discriminate|].
intros [= <- <-]. split; [|done].
by destruct (is_not_None (getattr r "id")).
Qed.

(** What a successful [create_post] has done. *)
Lemma create_post_inv db d t_slug t_pub now db' p :
Crud.create_post db d t_slug t_pub now = (db', Return p) ->
exists title seq,
  dict_get_default (popped d) "title" (VStr "") = VStr title /\
  let d1 := <["slug" := VStr (slugify title +:+ "-" +:+ strftime_YmdHMS t_slug)]>
              (popped d) in
  let d2 := if truthy (dict_get d1 "is_published")
            then <["published_at" := VTime t_pub]> d1 else d1 in
  insert Post db (posts_id_seq db) now d2 = Return (p, seq) /\
  posts db' = posts db ++ [p] /\ users db' = users db /\
  comments db' = comments db /\ favorites db' = favorites db /\
  subscriptions db' = subscriptions db.
Proof.
unfold Crud.create_post. fold (popped d).
destruct (dict_get_default (popped d) "title" (VStr "")) as [| | |title| |] eqn:Ht;
  [intros [=] | intros [=] | intros [=] | | intros [=] | intros [=]].
unfold_result.
set (d1 := <["slug" := _]> (popped d)).
set (d2 := if truthy (dict_get d1 "is_published") then _ else d1).
destruct (construct Post no_validator d2) as [r|e] eqn:Hc; [|intros [=]].
apply construct_no_validator in Hc as ->.
destruct (if truthy (dict_get_default d "category_ids" (VList [])) then _
          else Return None) as [cats|e]; [|intros [=]].
destruct (insert Post db (posts_id_seq db) now d2) as [[p0 seq]|e] eqn:Hins;
  [|intros [=]].
destruct (match cats with Some _ => _ | None => _ end) as [pcs|e]; [|intros [=]].
intros [= <- <-]. exists title, seq. simpl. done.
Qed.

Lemma published_at_not_defaulted :
("published_at" ∉ (t_defaults Post).*1) /\ ("published_at" ∉ t_server_now Post).
Proof.
split; simpl; intros Hin;
  repeat (apply elem_of_cons in Hin as [Hin|Hin]; [discriminate|]);
  by apply elem_of_nil in Hin.
Qed.

(** [create_post] on the dictionary that the route builds from a
    [PostCreate]: the post carries a publication time exactly when it is
    created published. *)
Lemma create_post_stamps_iff_published db (m : Schemas.PostCreate) author
  t_slug t_pub now db' p :
Crud.create_post db (<["author_id" := author]> (Schemas.PostCreate_model_dump m))
  t_slug t_pub now = (db', Return p) ->
getattr p "is_published" = VBool (Schemas.pc_is_published m) /\
getattr p "published_at" =
  (if Schemas.pc_is_published m then VTime t_pub else VNone).
Proof.
intros (title & seq & _ & Hins & _)%create_post_inv. simpl in Hins.
apply insert_inv in Hins as [-> _].
set (d := <["author_id" := author]> (Schemas.PostCreate_model_dump m)) in *.
set (d1 := <["slug" := _]> (popped d)) in *.
assert (Hpub : dict_get d1 "is_published" = VBool (Schemas.pc_is_published m)).
{ unfold dict_get, d1, d, popped, Schemas.PostCreate_model_dump.
  by simplify_map_eq. }
assert (Hat : getattr d1 "published_at" = VNone).
{ unfold getattr, d1, d, popped, Schemas.PostCreate_model_dump.
  by simplify_map_eq. }
rewrite Hpub. simpl.
set (d2 := if Schemas.pc_is_published m then _ else d1).
set (d3 := if is_not_None (getattr d2 "id") then d2 else _).
assert (H3 : forall c, c <> "id" -> getattr d3 c = getattr d2 c).
{ intros c Hc. unfold d3. destruct (is_not_None _); [done|].
  by rewrite getattr_insert_ne. }
split.
- rewrite with_defaults_keep; rewrite H3 by done.
  + unfold d2. destruct (Schemas.pc_is_published m).
    * by rewrite getattr_insert_ne.
    * done.
  + unfold d2. destruct (Schemas.pc_is_published m).
    * rewrite getattr_insert_ne by done. unfold getattr, dict_get in *.
      by rewrite Hpub.
    * unfold getattr, dict_get in *. by rewrite Hpub.
- destruct published_at_not_defaulted.
  rewrite with_defaults_other by done. rewrite H3 by done.
  unfold d2. destruct (Schemas.pc_is_published m).
  + by rewrite getattr_insert_eq.
  + done.
Qed.

(** A default fires for a column that is left at [None]. *)
Lemma defaults_other (l : list (string * value)) r c :
c ∉ l.*1 ->
getattr (foldr (fun cv r => if is_not_None (getattr r cv.1) then r
                            else <[cv.1 := cv.2]> r) r l) c
= getattr r c.
Proof.
induction l as [|x l IH]; simpl; [done|].
intros [Hne Hc]%not_elem_of_cons.
destruct (is_not_None _); [by apply IH|].
rewrite getattr_insert_ne by done. by apply IH.
Qed.

Lemma defaults_head c v (tl : list (string * value)) r :
c ∉ tl.*1 -> getattr r c = VNone ->
getattr (foldr (fun cv r => if is_not_None (getattr r cv.1) then r
                            else <[cv.1 := cv.2]> r) r ((c, v) :: tl)) c
= v.
Proof.
intros Hc Hr. simpl. rewrite defaults_other by done. rewrite Hr. simpl.
by rewrite getattr_insert_eq.
Qed.

Lemma is_published_defaults_to_True now r :
getattr r "is_published" = VNone ->
getattr (with_defaults Post now r) "is_published" = VBool true.
Proof.
intros Hr. unfold with_defaults.
apply (defaults_head "is_published" (VBool true)
         [("view_count", VInt 0); ("created_at", VTime now);
          ("updated_at", VTime now)]); [|done].
simpl. intros Hin.
repeat (apply elem_of_cons in Hin as [Hin|Hin]; [discriminate|]).
by apply elem_of_nil in Hin.
Qed.

(** [create_post] on any dictionary: the publication time follows the
    [is_published] of the payload, the stored [is_published] follows the
    payload or, without one, the default of the column. *)
Lemma create_post_published_at db d t_slug t_pub now db' p :
Crud.create_post db d t_slug t_pub now = (db', Return p) ->
getattr p "published_at" =
  (if truthy (dict_get d "is_published") then VTime t_pub
   else dict_get d "published_at") /\
getattr p "is_published" =
  (if is_not_None (dict_get d "is_published") then dict_get d "is_published"
   else VBool true).
Proof.
intros (title & seq & _ & Hins & _)%create_post_inv. simpl in Hins.
apply insert_inv in Hins as [-> _].
set (d1 := <["slug" := _]> (popped d)) in *.
assert (Hd1 : forall f, f <> "slug" -> f <> "category_ids" -> f <> "categories" ->
                getattr d1 f = dict_get d f).
{ intros f ? ? ?. unfold getattr, dict_get, d1.
  rewrite lookup_insert_ne by done. by rewrite popped_lookup. }
assert (Hpub : dict_get d1 "is_published" = dict_get d "is_published").
{ by apply (Hd1 "is_published"). }
rewrite Hpub.
set (d2 := if truthy (dict_get d "is_published") then _ else d1).
set (d3 := if is_not_None (getattr d2 "id") then d2 else _).
assert (H3 : forall c, c <> "id" -> getattr d3 c = getattr d2 c).
{ intros c Hc. unfold d3. destruct (is_not_None _); [done|].
  by rewrite getattr_insert_ne. }
assert (H2 : getattr d2 "is_published" = dict_get d "is_published").
{ unfold d2. destruct (truthy _); rewrite ?getattr_insert_ne by done;
    by apply Hd1. }
split.
- destruct published_at_not_defaulted.
  rewrite with_defaults_other by done. rewrite H3 by done.
  unfold d2. destruct (truthy (dict_get d "is_published")).
  + by rewrite getattr_insert_eq.
  + by apply Hd1.
- destruct (is_not_None (dict_get d "is_published")) eqn:Hnn.
  + rewrite with_defaults_keep; rewrite H3, H2 by done; done.
  + apply is_published_defaults_to_True. rewrite H3, H2 by done.
    by destruct (dict_get d "is_published").
Qed.

(** An update whose payload does not carry [published_at] leaves the
    attribute as the loop found it. *)
Lemma set_fields_keeps_absent T validate d obj r f :
Crud.set_fields T validate d obj = Return r ->
dict_get d f = VNone ->
getattr r f = getattr obj f.
Proof.
intros Hset Hf. unfold getattr. rewrite (set_fields_lookup _ _ _ _ _ f Hset).
unfold field_after, dict_get in *.
destruct (d !! f) as [v|]; [|done]. simpl in Hf. by subst v.
Qed.

(** A column whose payload value is not [None] holds that value after
    the loop of [update_post]. *)
Lemma set_fields_Post_given d obj r f v :
Crud.set_fields Post no_validator d obj = Return r ->
d !! f = Some v -> is_not_None v = true -> f ∈ t_columns Post ->
getattr r f = v.
Proof.
intros Hset Hf Hv Hc. unfold getattr. rewrite (set_fields_lookup _ _ _ _ _ f Hset).
unfold field_after. rewrite Hf, Hv. apply mem_true in Hc. by rewrite Hc.
Qed.

Lemma update_post_published_at db post_id d t_upd t_pub now db' p p' :
dict_get d "published_at" = VNone ->
Crud.get_post db post_id = Some p ->
Crud.update_post db post_id d t_upd t_pub now = (db', Return (Some p')) ->
(truthy (getattr p "published_at") = true ->
   getattr p' "published_at" = getattr p "published_at") /\
(getattr p' "published_at" <> getattr p "published_at" ->
   truthy (getattr p "published_at") = false /\
   truthy (dict_get d "is_published") = true /\
   truthy (getattr p' "is_published") = true /\
   getattr p' "published_at" = VTime t_pub /\
   (stamped_if_published p -> truthy (getattr p "is_published") = false)) /\
(stamped_if_published p -> stamped_if_published p') /\
(forall q, q ∈ posts db' -> q = p' \/ q ∈ posts db).
Proof.
intros Hd Hget Hupd. apply update_post_inv in Hupd.
destruct Hupd as (p0 & r0 & Hget' & Hset & -> & _ & Hposts & _).
rewrite Hget in Hget'. injection Hget' as <-.
assert (Hpd : forall f, f <> "category_ids" -> f <> "categories" ->
                dict_get (popped d) f = dict_get d f).
{ intros f ? ?. unfold dict_get. by rewrite popped_lookup. }
assert (Hat : getattr r0 "published_at" = getattr p "published_at").
{ apply (set_fields_keeps_absent _ _ _ _ _ _ Hset). by rewrite Hpd. }
assert (Hpub : getattr r0 "is_published" =
               if is_not_None (dict_get d "is_published")
               then dict_get d "is_published" else getattr p "is_published").
{ destruct (is_not_None (dict_get d "is_published")) eqn:Hnn.
  - unfold dict_get in *. rewrite <- (popped_lookup d "is_published") in * by done.
    destruct (popped d !! "is_published") as [v|] eqn:Hv; [|discriminate].
    apply (set_fields_Post_given _ _ _ _ _ Hset Hv Hnn).
    apply mem_true. reflexivity.
  - apply (set_fields_keeps_absent _ _ _ _ _ _ Hset). rewrite Hpd by done.
    by destruct (dict_get d "is_published"). }
set (p' := updated_post d t_upd t_pub r0) in *.
assert (Hrows : forall q, q ∈ posts db' -> q = p' \/ q ∈ posts db).
{ intros q Hq. rewrite Hposts in Hq.
  apply list_elem_of_fmap in Hq as (q0 & -> & Hq0).
  destruct (id_is _ q0); auto. }
assert (Hat' : getattr p' "published_at" =
               if truthy (dict_get d "is_published") &&
                  negb (truthy (getattr p "published_at"))
               then VTime t_pub else getattr p "published_at").
{ unfold p', updated_post. rewrite Hpd by done.
  rewrite (getattr_insert_ne _ "updated_at" "published_at") by done. rewrite Hat.
  destruct (_ && _).
  - by rewrite getattr_insert_eq.
  - rewrite getattr_insert_ne by done. exact Hat. }
assert (Hpub' : getattr p' "is_published" = getattr r0 "is_published").
{ unfold p', updated_post.
  destruct (truthy (dict_get (popped d) "is_published") && _);
    rewrite !getattr_insert_ne by done; done. }
clearbody p'. clear Hposts Hset.
unfold stamped_if_published. rewrite Hat', Hpub', Hpub.
destruct (truthy (dict_get d "is_published")) eqn:Hp;
  destruct (truthy (getattr p "published_at")) eqn:Hs; simpl;
  (split; [|split; [|split]]); try done.
- intros _. repeat split; try done.
  + destruct (dict_get d "is_published"); simpl in *; done.
  + intros Hinv. destruct (truthy (getattr p "is_published")); [|done].
    by specialize (Hinv eq_refl).
- destruct (is_not_None (dict_get d "is_published")); [congruence|].
  rewrite Hs. done.
Qed.

(** [update_post] on any dictionary: the publication time after the
    update. *)
Lemma update_post_published_at_any db post_id d t_upd t_pub now db' p p' :
Crud.get_post db post_id = Some p ->
Crud.update_post db post_id d t_upd t_pub now = (db', Return (Some p')) ->
getattr p' "published_at" =
  (let given := if is_not_None (dict_get d "published_at")
                then dict_get d "published_at"
                else getattr p "published_at" in
   if truthy (dict_get d "is_published") && negb (truthy given)
   then VTime t_pub else given).
Proof.
intros Hget Hupd. apply update_post_inv in Hupd.
destruct Hupd as (p0 & r0 & Hget' & Hset & -> & _).
rewrite Hget in Hget'. injection Hget' as <-.
assert (Hpd : forall f, f <> "category_ids" -> f <> "categories" ->
                dict_get (popped d) f = dict_get d f).
{ intros f ? ?. unfold dict_get. by rewrite popped_lookup. }
assert (Hat : getattr r0 "published_at" =
              if is_not_None (dict_get d "published_at")
              then dict_get d "published_at" else getattr p "published_at").
{ destruct (is_not_None (dict_get d "published_at")) eqn:Hnn.
  - unfold dict_get in *. rewrite <- (popped_lookup d "published_at") in * by done.
    destruct (popped d !! "published_at") as [v|] eqn:Hv; [|discriminate].
    apply (set_fields_Post_given _ _ _ _ _ Hset Hv Hnn).
    apply mem_true. reflexivity.
  - apply (set_fields_keeps_absent _ _ _ _ _ _ Hset). rewrite Hpd by done.
    by destruct (dict_get d "published_at"). }
cbv zeta. rewrite <- Hat.
unfold updated_post. rewrite Hpd by done.
rewrite (getattr_insert_ne _ "updated_at" "published_at") by done.
destruct (_ && _).
- by rewrite getattr_insert_eq.
- by rewrite getattr_insert_ne.
Qed.

(** C1. [published_at] follows the payload.  [create_post] stamps the
    post exactly when the [is_published] of its payload is truthy, and
    otherwise stores the [published_at] that the payload carries, if
    any.  The post is stored with the [is_published] of the payload or,
    when the payload leaves it out, as published by the default of the
    column: it carries its publication time whenever it is published
    if the payload says whether it is published, as the payload of the
    route always does.  [update_post] never clears a publication time.
    After it, the attribute is the value that the payload carries for
    [published_at] or, without one, the stored value, and the stamp of
    the update when the payload publishes the post and that value is
    unset.  So for every payload that does not itself carry a
    [published_at] (no request model has that field), [update_post]
    keeps a publication time that is set; it changes the attribute only
    by stamping it, and then the payload publishes the post and the
    attribute was unset; the rows of the other posts are untouched. *)
Theorem published_at_follows_the_payload :
(forall db d t_slug t_pub now db' p,
   Crud.create_post db d t_slug t_pub now = (db', Return p) ->
   getattr p "published_at" =
     (if truthy (dict_get d "is_published") then VTime t_pub
      else dict_get d "published_at") /\
   getattr p "is_published" =
     (if is_not_None (dict_get d "is_published") then dict_get d "is_published"
      else VBool true) /\
   (is_not_None (dict_get d "is_published") = true -> stamped_if_published p)) /\
(forall db (m : Schemas.PostCreate) author t_slug t_pub now db' p,
   Crud.create_post db
     (<["author_id" := author]> (Schemas.PostCreate_model_dump m))
     t_slug t_pub now = (db', Return p) ->
   getattr p "is_published" = VBool (Schemas.pc_is_published m) /\
   getattr p "published_at" =
     (if Schemas.pc_is_published m then VTime t_pub else VNone)) /\
(forall db post_id d t_upd t_pub now db' p p',
   Crud.get_post db post_id = Some p ->
   Crud.update_post db post_id d t_upd t_pub now = (db', Return (Some p')) ->
   getattr p' "published_at" =
     (let given := if is_not_None (dict_get d "published_at")
                   then dict_get d "published_at"
                   else getattr p "published_at" in
      if truthy (dict_get d "is_published") && negb (truthy given)
      then VTime t_pub else given) /\
   (is_not_None (getattr p "published_at") = true ->
      is_not_None (getattr p' "published_at") = true)) /\
(forall db post_id d t_upd t_pub now db' p p',
   dict_get d "published_at" = VNone ->
   Crud.get_post db post_id = Some p ->
   Crud.update_post db post_id d t_upd t_pub now = (db', Return (Some p')) ->
   (truthy (getattr p "published_at") = true ->
      getattr p' "published_at" = getattr p "published_at") /\
   (getattr p' "published_at" <> getattr p "published_at" ->
      truthy (getattr p "published_at") = false /\
      truthy (dict_get d "is_published") = true /\
      truthy (getattr p' "is_published") = true /\
      getattr p' "published_at" = VTime t_pub /\
      (stamped_if_published p -> truthy (getattr p "is_published") = false)) /\
   (stamped_if_published p -> stamped_if_published p') /\
   (forall q, q ∈ posts db' -> q = p' \/ q ∈ posts db)).
Proof.
repeat apply conj.
- intros db d t_slug t_pub now db' p Hc.
  destruct (create_post_published_at _ _ _ _ _ _ _ Hc) as [Hat Hpub].
  repeat apply conj; [done|done|].
  intros Hnn. unfold stamped_if_published. rewrite Hat, Hpub, Hnn.
  by intros ->.
- intros. by eapply create_post_stamps_iff_published.
- intros db post_id d t_upd t_pub now db' p p' Hget Hupd.
  pose proof (update_post_published_at_any _ _ _ _ _ _ _ _ _ Hget Hupd) as Hat.
  split; [exact Hat|].
  intros Hset. rewrite Hat. cbv zeta.
  destruct (is_not_None (dict_get d "published_at")) eqn:Hnn;
    destruct (_ && _); done.
- intros. by eapply update_post_published_at.
Qed.

End Posts.

Lemma dump_field_lookup_ne {A} (inj : A -> value) key (f : Schemas.field A) d k :
key <> k -> Schemas.dump_field inj key f d !! k = d !! k.
Proof. intros. destruct f; simpl; [done| |]; by rewrite lookup_insert_ne. Qed.

(** The dictionaries of the request models never carry [published_at]. *)
Lemma PostUpdate_dump_has_no_published_at (m : Schemas.PostUpdate) :
dict_get (Schemas.PostUpdate_model_dump m) "published_at" = VNone.
Proof.
unfold dict_get, Schemas.PostUpdate_model_dump.
by rewrite !dump_field_lookup_ne, lookup_empty.
Qed.

Lemma found_eq o : Sample.is_found o = true -> o = Some (Sample.found o).
Proof. by destruct o. Qed.

Lemma returns_row_eq {A} (x : A * result (option row)) :
Sample.returns_row x.2 = true -> x = (x.1, Return (Some (Sample.returned_row x.2))).
Proof. by destruct x as [a [[r|]|e]]. Qed.

Lemma creates_row_eq {A} (x : A * result row) :
Sample.creates_row x.2 = true -> x = (x.1, Return (Sample.created_row x.2)).
Proof. by destruct x as [a [r|e]]. Qed.

(** C1 as amended, at work: the published post of the sample blog keeps
    its publication time when it is published again later. *)
Lemma published_at_follows_the_payload_witness :
let payload := Schemas.PostUpdate_model_dump
                 {| Schemas.pu_title := Schemas.Unset;
                    Schemas.pu_content := Schemas.Unset;
                    Schemas.pu_summary := Schemas.Unset;
                    Schemas.pu_is_published := Schemas.Given true;
                    Schemas.pu_category_ids := Schemas.Unset |} in
let again := @Crud.update_post Sample.environment Sample.blog 2 payload
               Sample.evening Sample.evening Sample.evening in
getattr (Sample.returned_row again.2) "published_at" = VTime Sample.noon.
Proof.
intros payload again.
assert (Hget : Sample.is_found (Crud.get_post Sample.blog 2) = true)
  by (vm_compute; reflexivity).
assert (Hret : Sample.returns_row again.2 = true) by (vm_compute; reflexivity).
destruct (@published_at_follows_the_payload Sample.environment)
  as (_ & _ & _ & Hupdate).
destruct (Hupdate
            Sample.blog 2 payload Sample.evening Sample.evening Sample.evening
            again.1 (Sample.found (Crud.get_post Sample.blog 2))
            (Sample.returned_row again.2)
            (PostUpdate_dump_has_no_published_at _)
            (found_eq _ Hget) (returns_row_eq again Hret))
  as [Hkeep _].
rewrite Hkeep; vm_compute; reflexivity.
Defined.

(** C1 as stated fails.  A post created from a dictionary that leaves
    [is_published] out is stored published, by the default of the
    column, and without a publication time; and an update whose
    dictionary carries a [published_at] replaces the publication time
    of the second post of the sample blog, which was set. *)
Lemma published_at_unset_or_replaced :
let bare : dict := {[ "author_id" := VInt 1; "title" := VStr "Notes";
                      "content" := VStr "Lorem ipsum" ]} in
let created := @Crud.create_post Sample.environment Sample.blog bare
                 Sample.evening Sample.evening Sample.evening in
let payload : dict := {[ "published_at" := VTime Sample.evening ]} in
let updated := @Crud.update_post Sample.environment Sample.blog 2 payload
                 Sample.evening Sample.evening Sample.evening in
(Sample.creates_row created.2 = true /\
 getattr (Sample.created_row created.2) "is_published" = VBool true /\
 getattr (Sample.created_row created.2) "published_at" = VNone) /\
(getattr (Sample.found (Crud.get_post Sample.blog 2)) "published_at"
 = VTime Sample.noon /\
 Sample.returns_row updated.2 = true /\
 getattr (Sample.returned_row updated.2) "published_at" = VTime Sample.evening /\
 Sample.noon <> Sample.evening).
Proof.
intros bare created payload updated.
repeat apply conj; try (vm_compute; reflexivity).
vm_compute. discriminate.
Defined.

(* ===================================================================== *)
(** ** Partial updates: what they touch and what they leave alone *)
(* ===================================================================== *)

Section Updates.
Context `{External}.

Lemma set_fields_not_cleared T validate d obj r f :
(forall k v v', is_not_None v = true -> validate k v = Return v' ->
   is_not_None v' = true) ->
Crud.set_fields T validate d obj = Return r ->
is_not_None (getattr obj f) = true ->
is_not_None (getattr r f) = true.
Proof.
intros Hval Hset Hf. unfold getattr in *.
rewrite (set_fields_lookup _ _ _ _ _ f Hset). unfold field_after.
destruct (d !! f) as [v|]; [|done].
destruct (is_not_None v) eqn:Hv; simpl; [|done].
destruct (mem f (t_columns T)); [|done].
destruct (validate f v) as [v'|e] eqn:Hvf; [|done].
simpl. by eapply Hval.
Qed.

Lemma no_validator_keeps_value k v v' :
is_not_None v = true -> no_validator k v = Return v' -> is_not_None v' = true.
Proof. by intros ? [= <-]. Qed.

Lemma validate_User_keeps_value k v v' :
is_not_None v = true -> validate_User k v = Return v' -> is_not_None v' = true.
Proof.
unfold validate_User. intros Hv.
destruct (bool_decide (k = "email")).
- destruct v; try discriminate. destruct (email_validator s); [|discriminate].
  by intros [= <-].
- destruct (bool_decide (k = "login")).
  + destruct (len v) as [n|]; [|discriminate].
    destruct (n <? 3)%nat; [discriminate|].
    destruct (50 <? n)%nat; [discriminate|]. by intros [= <-].
  + by intros [= <-].
Qed.

(** The object that [get_post] loads has the id it was asked for, and
    the UPDATE of that id replaces it by the object returned. *)
Lemma first_by_id_Some t i r :
first_by_id t i = Some r -> r ∈ t /\ getattr r "id" = VInt i.
Proof.
unfold first_by_id. intros Hfind. apply find_some in Hfind as [Hin Hid].
split; [by apply list_elem_of_In|].
unfold id_is in Hid. by apply bool_decide_eq_true in Hid.
Qed.

Lemma replaced_is_stored (t : list row) old new :
old ∈ t ->
new ∈ ((fun r => if id_is (getattr old "id") r then new else r) <$> t).
Proof.
intros Hin. apply list_elem_of_fmap. exists old. split; [|done].
unfold id_is. by rewrite bool_decide_eq_true_2.
Qed.

Lemma with_password_hash_inv d d' :
with_password_hash d = Return d' ->
(truthy (dict_get d "password") = false /\ d' = d) \/
(exists s, truthy (dict_get d "password") = true /\
           dict_get d "password" = VStr s /\
           d' = <["password_hash" := VStr (get_password_hash s)]>
                  (delete "password" d)).
Proof.
unfold with_password_hash, dict_mem.
destruct (truthy (dict_get d "password")) eqn:Ht.
- destruct (bool_decide _) eqn:Hm; simpl.
  + unfold Crud.hash_value. destruct (dict_get d "password"); try discriminate.
    unfold_result. intros [= <-]. right. eauto.
  + apply bool_decide_eq_false in Hm. unfold dict_get in Ht.
    destruct (d !! "password") eqn:Hp; [|discriminate].
    exfalso. apply Hm. eauto.
- rewrite andb_false_r. intros [= <-]. by left.
Qed.

(** What a call of [update_user] can have done. *)
Lemma update_user_inv db user_id d now db' res :
Crud.update_user db user_id d now = (db', res) ->
match res with
| Raise _ => db' = db
| Return None => db' = db /\ Crud.get_user db user_id = None
| Return (Some u') =>
  exists u d' r0,
    Crud.get_user db user_id = Some u /\
    with_password_hash d = Return d' /\
    Crud.set_fields User validate_User d' u = Return r0 /\
    u' = <["updated_at" := VTime now]> r0 /\
    check_update User db u u' = None /\
    users db' = (fun r => if id_is (getattr u "id") r then u' else r) <$> users db /\
    posts db' = posts db /\ comments db' = comments db /\
    favorites db' = favorites db /\ subscriptions db' = subscriptions db
end.
Proof.
unfold Crud.update_user. fold (with_password_hash d).
destruct (Crud.get_user db user_id) as [u|] eqn:Hget.
2:{ by intros [= <- <-]. }
destruct (with_password_hash d) as [d'|e]; unfold_result.
2:{ by intros [= <- <-]. }
destruct (Crud.set_fields User validate_User d' u) as [r0|e] eqn:Hset.
2:{ by intros [= <- <-]. }
unfold update.
destruct (check_update User db u (<["updated_at" := VTime now]> r0)) eqn:Hchk.
{ by intros [= <- <-]. }
intros [= <- <-]. exists u, d', r0. simpl. done.
Qed.

(** What a call of [update_category] can have done. *)
Lemma update_category_inv db category_id d db' res :
Crud.update_category db category_id d = (db', res) ->
match res with
| Raise _ => db' = db
| Return None => db' = db /\ Crud.get_category db category_id = None
| Return (Some c') =>
  exists c,
    Crud.get_category db category_id = Some c /\
    Crud.set_fields Category no_validator d c = Return c' /\
    categories db' = (fun r => if id_is (getattr c "id") r then c' else r)
                       <$> categories db
end.
Proof.
unfold Crud.update_category.
destruct (Crud.get_category db category_id) as [c|] eqn:Hget.
2:{ by intros [= <- <-]. }
destruct (Crud.set_fields Category no_validator d c) as [r0|e] eqn:Hset;
  unfold_result.
2:{ by intros [= <- <-]. }
unfold update. destruct (check_update Category db c r0) eqn:Hchk.
{ by intros [= <- <-]. }
intros [= <- <-]. exists c. simpl. done.
Qed.

Lemma popped_get_None d f : dict_get d f = VNone -> dict_get (popped d) f = VNone.
Proof.
unfold dict_get, popped. intros Hf.
destruct (decide (f = "category_ids")) as [->|?]; [by rewrite lookup_delete_eq|].
rewrite lookup_delete_ne by done.
destruct (decide (f = "categories")) as [->|?]; [by rewrite lookup_delete_eq|].
by rewrite lookup_delete_ne.
Qed.

Lemma updated_post_other d t_upd t_pub r0 f :
f <> "updated_at" -> f <> "published_at" ->
getattr (updated_post d t_upd t_pub r0) f = getattr r0 f.
Proof.
intros. unfold updated_post.
destruct (truthy (dict_get (popped d) "is_published") && _);
  rewrite !getattr_insert_ne by done; done.
Qed.

Lemma updated_post_not_cleared d t_upd t_pub r0 f :
is_not_None (getattr r0 f) = true ->
is_not_None (getattr (updated_post d t_upd t_pub r0) f) = true.
Proof.
intros Hf. unfold updated_post.
assert (Hupd : is_not_None (getattr (<["updated_at" := VTime t_upd]> r0) f) = true).
{ destruct (decide ("updated_at" = f)) as [<-|?].
  - by rewrite getattr_insert_eq.
  - by rewrite getattr_insert_ne. }
destruct (truthy (dict_get (popped d) "is_published") && _); [|done].
destruct (decide ("published_at" = f)) as [<-|?].
- by rewrite getattr_insert_eq.
- by rewrite getattr_insert_ne.
Qed.

(** The frame of [update_post]. *)
Lemma update_post_frame db post_id d t_upd t_pub now db' p p' :
Crud.get_post db post_id = Some p ->
Crud.update_post db post_id d t_upd t_pub now = (db', Return (Some p')) ->
(forall f, dict_get d f = VNone -> f <> "updated_at" -> f <> "published_at" ->
   getattr p' f = getattr p f) /\
(forall f, is_not_None (getattr p f) = true -> is_not_None (getattr p' f) = true) /\
(truthy (dict_get_default d "category_ids" (VList [])) = false ->
   post_categories db' = post_categories db) /\
p' ∈ posts db' /\
users db' = users db /\ categories db' = categories db /\
comments db' = comments db /\ favorites db' = favorites db /\
subscriptions db' = subscriptions db.
Proof.
intros Hget Hupd. apply update_post_inv in Hupd.
destruct Hupd as (p0 & r0 & Hget' & Hset & -> & _ & Hposts & ? & ? & ? & ? & ? & Hcat).
rewrite Hget in Hget'. injection Hget' as <-.
repeat split; try done.
- intros f Hf ? ?. rewrite updated_post_other by done.
  apply (set_fields_keeps_absent _ _ _ _ _ _ Hset). by apply popped_get_None.
- intros f Hf. apply updated_post_not_cleared.
  apply (set_fields_not_cleared _ _ _ _ _ _ no_validator_keeps_value Hset Hf).
- intros Hc. simpl in Hcat. by rewrite Hc in Hcat.
- rewrite Hposts. apply replaced_is_stored.
  by apply first_by_id_Some in Hget as [? _].
Qed.

(** The frame of [update_user]. *)
Lemma update_user_frame db user_id d now db' u u' :
Crud.get_user db user_id = Some u ->
Crud.update_user db user_id d now = (db', Return (Some u')) ->
(forall f, dict_get d f = VNone -> f <> "updated_at" ->
   (f = "password_hash" -> truthy (dict_get d "password") = false) ->
   getattr u' f = getattr u f) /\
(forall f, is_not_None (getattr u f) = true -> is_not_None (getattr u' f) = true) /\
u' ∈ users db' /\
posts db' = posts db /\ comments db' = comments db /\
favorites db' = favorites db /\ subscriptions db' = subscriptions db.
Proof.
intros Hget Hupd. apply update_user_inv in Hupd.
destruct Hupd as (u0 & d' & r0 & Hget' & Hpw & Hset & -> & _ & Husers & ? & ? & ? & ?).
rewrite Hget in Hget'. injection Hget' as <-.
repeat split; try done.
- intros f Hf ? Hhash. rewrite getattr_insert_ne by done.
  apply (set_fields_keeps_absent _ _ _ _ _ _ Hset).
  apply with_password_hash_inv in Hpw as [[_ ->]|(s & Ht & Hs & ->)]; [done|].
  destruct (decide (f = "password_hash")) as [->|?].
  { specialize (Hhash eq_refl). congruence. }
  unfold dict_get in *.
  rewrite lookup_insert_ne by done.
  destruct (decide (f = "password")) as [->|?]; [by rewrite lookup_delete_eq|].
  by rewrite lookup_delete_ne.
- intros f Hf.
  destruct (decide ("updated_at" = f)) as [<-|?].
  + by rewrite getattr_insert_eq.
  + rewrite getattr_insert_ne by done.
    apply (set_fields_not_cleared _ _ _ _ _ _ validate_User_keeps_value Hset Hf).
- rewrite Husers. apply replaced_is_stored.
  by apply first_by_id_Some in Hget as [? _].
Qed.

Lemma find_all_false {A} (f : A -> bool) (l : list A) :
(forall x, x ∈ l -> f x = false) -> List.find f l = None.
Proof.
induction l as [|a l IH]; simpl; [done|]. intros Hall.
rewrite (Hall a) by apply list_elem_of_here.
apply IH. intros x Hx. apply Hall. by apply list_elem_of_further.
Qed.

Lemma changed_false old new c :
getattr new c = getattr old c -> changed old new c = false.
Proof. intros Heq. unfold changed. by rewrite bool_decide_eq_true_2. Qed.

(** An UPDATE that leaves the key columns alone and writes no NULL into
    a mandatory column violates no constraint. *)
Lemma check_update_passes T db old new :
(forall c, c ∈ "id" :: t_not_null T ->
   changed old new c = false \/ is_not_None (getattr new c) = true) ->
changed old new "id" = false ->
(forall c, c ∈ t_unique T -> changed old new c = false) ->
(forall ct, ct ∈ t_foreign_keys T -> changed old new ct.1 = false) ->
check_update T db old new = None.
Proof.
intros Hnn Hid Huq Hfk. unfold check_update.
rewrite find_all_false.
2:{ intros c Hc. destruct (Hnn c Hc) as [->| ->]; [done|]. by rewrite andb_false_r. }
rewrite Hid. simpl.
rewrite find_all_false.
2:{ intros c Hc. by rewrite (Huq c Hc). }
rewrite find_all_false; [done|].
intros ct Hct. by rewrite (Hfk ct Hct).
Qed.

(** Updating only the title: the call succeeds, and the stored post
    differs from the old one in [title] and [updated_at] alone. *)
Lemma update_post_title_only db post_id title t_upd t_pub now p :
Crud.get_post db post_id = Some p ->
exists db',
  Crud.update_post db post_id {[ "title" := VStr title ]} t_upd t_pub now =
    (db', Return (Some (<["updated_at" := VTime t_upd]> (<["title" := VStr title]> p))))
  /\ posts db' = (fun r => if id_is (getattr p "id") r
                           then <["updated_at" := VTime t_upd]> (<["title" := VStr title]> p)
                           else r) <$> posts db
  /\ post_categories db' = post_categories db
  /\ users db' = users db /\ comments db' = comments db.
Proof.
intros Hget. unfold Crud.update_post. rewrite Hget.
assert (Hpop : delete "category_ids" (delete "categories" ({[ "title" := VStr title ]} : dict))
               = {[ "title" := VStr title ]}).
{ by rewrite !delete_singleton_ne. }
rewrite Hpop.
unfold Crud.set_fields. rewrite map_fold_singleton. unfold_result. simpl.
unfold dict_get_default, dict_get.
rewrite !lookup_singleton_ne by done. simpl.
set (p' := <["updated_at" := VTime t_upd]> (<["title" := VStr title]> p)).
unfold update. rewrite check_update_passes.
- eexists. split; [reflexivity|]. simpl. done.
- intros c Hc. simpl in Hc.
  destruct (decide (c = "title")) as [->|?].
  + right. unfold p'. rewrite getattr_insert_ne by done.
    by rewrite getattr_insert_eq.
  + left. apply changed_false. unfold p'.
    repeat (apply elem_of_cons in Hc as [->|Hc];
            [rewrite !getattr_insert_ne by done; done|]).
    by apply elem_of_nil in Hc.
- apply changed_false. unfold p'. by rewrite !getattr_insert_ne.
- intros c Hc. simpl in Hc. apply changed_false. unfold p'.
  repeat (apply elem_of_cons in Hc as [->|Hc];
          [rewrite !getattr_insert_ne by done; done|]).
  by apply elem_of_nil in Hc.
- intros ct Hct. simpl in Hct. apply changed_false. unfold p'.
  repeat (apply elem_of_cons in Hct as [->|Hct];
          [simpl; rewrite !getattr_insert_ne by done; done|]).
  by apply elem_of_nil in Hct.
Qed.

(** The frame of [update_category]. *)
Lemma update_category_frame db category_id d db' c c' :
Crud.get_category db category_id = Some c ->
Crud.update_category db category_id d = (db', Return (Some c')) ->
(forall f, dict_get d f = VNone -> getattr c' f = getattr c f) /\
(forall f, is_not_None (getattr c f) = true -> is_not_None (getattr c' f) = true).
Proof.
intros Hget Hupd. apply update_category_inv in Hupd.
destruct Hupd as (c0 & Hget' & Hset & _).
rewrite Hget in Hget'. injection Hget' as <-. split.
- intros f Hf. by apply (set_fields_keeps_absent _ _ _ _ _ _ Hset).
- intros f Hf.
  apply (set_fields_not_cleared _ _ _ _ _ _ no_validator_keeps_value Hset Hf).
Qed.

(** The prototype: [Store.update_post] and [Store.update_user] rebuild
    the record from the fields supplied and the stored ones. *)
Lemma Store_update_post_frame s post_id data t s' p' :
Storage.update_post s post_id data t = (s', Return p') ->
exists p,
  Storage.posts s !! post_id = Some p /\
  Storage.posts s' = <[post_id := p']> (Storage.posts s) /\
  Storage.users s' = Storage.users s /\
  Storage.pr_id p' = Storage.pr_id p /\
  Storage.pr_createdAt p' = Storage.pr_createdAt p /\
  Storage.pr_updatedAt p' = t /\
  Storage.pr_authorId p' = default (Storage.pr_authorId p) (Storage.pu_authorId data) /\
  Storage.pr_title p' = default (Storage.pr_title p) (Storage.pu_title data) /\
  Storage.pr_content p' = default (Storage.pr_content p) (Storage.pu_content data).
Proof.
unfold Storage.update_post.
destruct (Storage.posts s !! post_id) as [p|]; [|discriminate].
destruct (Storage.users s !! _); [|discriminate].
intros [= <- <-]. exists p. simpl.
by destruct (Storage.pu_authorId data), (Storage.pu_title data),
            (Storage.pu_content data).
Qed.

Lemma Store_update_user_frame s user_id data t s' u' :
Storage.update_user s user_id data t = (s', Return u') ->
exists u,
  Storage.users s !! user_id = Some u /\
  Storage.users s' = <[user_id := u']> (Storage.users s) /\
  Storage.posts s' = Storage.posts s /\
  Storage.ur_id u' = Storage.ur_id u /\
  Storage.ur_createdAt u' = Storage.ur_createdAt u /\
  Storage.ur_updatedAt u' = t /\
  Storage.ur_email u' = default (Storage.ur_email u) (Storage.uu_email data) /\
  Storage.ur_login u' = default (Storage.ur_login u) (Storage.uu_login data).
Proof.
unfold Storage.update_user.
destruct (Storage.users s !! user_id) as [u|]; [|discriminate].
destruct (match Storage.uu_email data with Some _ => _ | None => false end);
  [discriminate|].
destruct (match Storage.uu_login data with Some _ => _ | None => false end);
  [discriminate|].
intros [= <- <-]. exists u. simpl.
by destruct (Storage.uu_email data), (Storage.uu_login data).
Qed.

(** C7. A partial update leaves alone what its payload does not
    mention.  For [update_post], [update_user] and [update_category] of
    [crud.py], an attribute whose key is absent from the payload keeps
    its stored value; the exceptions are the attributes the command
    derives itself: [updated_at], the publication stamp (set only when
    the payload publishes the post) and the hash of a supplied password.
    Updating only the title of a stored post always succeeds and stores
    the old post with [title] and [updated_at] replaced and nothing
    else, its categories included.  [Store.update_post] and
    [Store.update_user] of the prototype keep every field that is not
    supplied, the modification time apart. *)
Theorem partial_update_keeps_absent_fields :
(forall db post_id d t_upd t_pub now db' p p',
   Crud.get_post db post_id = Some p ->
   Crud.update_post db post_id d t_upd t_pub now = (db', Return (Some p')) ->
   (forall f, d !! f = None -> f <> "updated_at" -> f <> "published_at" ->
      getattr p' f = getattr p f) /\
   (d !! "published_at" = None -> d !! "is_published" = None ->
      getattr p' "published_at" = getattr p "published_at") /\
   (d !! "category_ids" = None -> post_categories db' = post_categories db)) /\
(forall db post_id title t_upd t_pub now p,
   Crud.get_post db post_id = Some p ->
   exists db',
     Crud.update_post db post_id {[ "title" := VStr title ]} t_upd t_pub now =
       (db', Return (Some (<["updated_at" := VTime t_upd]>
                             (<["title" := VStr title]> p)))) /\
     posts db' = (fun r => if id_is (getattr p "id") r
                           then <["updated_at" := VTime t_upd]>
                                  (<["title" := VStr title]> p)
                           else r) <$> posts db /\
     post_categories db' = post_categories db) /\
(forall db user_id d now db' u u',
   Crud.get_user db user_id = Some u ->
   Crud.update_user db user_id d now = (db', Return (Some u')) ->
   forall f, d !! f = None -> f <> "updated_at" ->
     (f = "password_hash" -> truthy (dict_get d "password") = false) ->
     getattr u' f = getattr u f) /\
(forall db category_id d db' c c',
   Crud.get_category db category_id = Some c ->
   Crud.update_category db category_id d = (db', Return (Some c')) ->
   forall f, d !! f = None -> getattr c' f = getattr c f) /\
(forall s post_id data t s' p',
   Storage.update_post s post_id data t = (s', Return p') ->
   exists p,
     Storage.posts s !! post_id = Some p /\
     Storage.posts s' = <[post_id := p']> (Storage.posts s) /\
     Storage.pr_id p' = Storage.pr_id p /\
     Storage.pr_createdAt p' = Storage.pr_createdAt p /\
     (Storage.pu_authorId data = None -> Storage.pr_authorId p' = Storage.pr_authorId p) /\
     (Storage.pu_title data = None -> Storage.pr_title p' = Storage.pr_title p) /\
     (Storage.pu_content data = None -> Storage.pr_content p' = Storage.pr_content p)) /\
(forall s user_id data t s' u',
   Storage.update_user s user_id data t = (s', Return u') ->
   exists u,
     Storage.users s !! user_id = Some u /\
     Storage.users s' = <[user_id := u']> (Storage.users s) /\
     Storage.ur_id u' = Storage.ur_id u /\
     Storage.ur_createdAt u' = Storage.ur_createdAt u /\
     (Storage.uu_email data = None -> Storage.ur_email u' = Storage.ur_email u) /\
     (Storage.uu_login data = None -> Storage.ur_login u' = Storage.ur_login u)).
Proof.
repeat apply conj.
- intros * Hget Hupd.
  destruct (update_post_frame _ _ _ _ _ _ _ _ _ Hget Hupd) as (Hf & _ & Hc & _).
  repeat split.
  + intros f Hd. apply Hf. unfold dict_get. by rewrite Hd.
  + intros Hpa Hpub.
    destruct (decide (getattr p' "published_at" = getattr p "published_at"))
      as [|Hne]; [done|].
    assert (Hd : dict_get d "published_at" = VNone)
      by (unfold dict_get; by rewrite Hpa).
    destruct (update_post_published_at _ _ _ _ _ _ _ _ _ Hd Hget Hupd)
      as (_ & Hst & _).
    destruct (Hst Hne) as (_ & Ht & _).
    unfold dict_get in Ht. by rewrite Hpub in Ht.
  + intros Hd. apply Hc. unfold dict_get_default. by rewrite Hd.
- intros * Hget.
  destruct (update_post_title_only db post_id title t_upd t_pub now p Hget)
    as (db' & ? & ? & ? & _). eauto.
- intros * Hget Hupd f Hd.
  destruct (update_user_frame _ _ _ _ _ _ _ Hget Hupd) as (Hf & _).
  apply Hf. unfold dict_get. by rewrite Hd.
- intros * Hget Hupd f Hd.
  destruct (update_category_frame _ _ _ _ _ _ Hget Hupd) as (Hf & _).
  apply Hf. unfold dict_get. by rewrite Hd.
- intros * Hupd.
  apply Store_update_post_frame in Hupd
    as (p & ? & ? & _ & ? & ? & _ & Ha & Ht & Hc).
  exists p. repeat split; try done.
  + intros Hn. by rewrite Ha, Hn.
  + intros Hn. by rewrite Ht, Hn.
  + intros Hn. by rewrite Hc, Hn.
- intros * Hupd.
  apply Store_update_user_frame in Hupd as (u & ? & ? & _ & ? & ? & _ & He & Hl).
  exists u. repeat split; try done.
  + intros Hn. by rewrite He, Hn.
  + intros Hn. by rewrite Hl, Hn.
Qed.

(** C10. A payload value that is [None] is skipped.  For [update_post]
    and [update_user], an attribute sent as [null] keeps its stored
    value (the attributes the command derives itself apart: [updated_at],
    the publication stamp, and [password_hash] when a password is
    supplied), [category_ids] sent as [null] leaves the categories of the
    post as they are, and no attribute that holds a value is ever left
    at [None], whatever the payload. *)
Theorem null_fields_are_ignored :
(forall db post_id d t_upd t_pub now db' p p',
   Crud.get_post db post_id = Some p ->
   Crud.update_post db post_id d t_upd t_pub now = (db', Return (Some p')) ->
   (forall f, d !! f = Some VNone -> f <> "updated_at" -> f <> "published_at" ->
      getattr p' f = getattr p f) /\
   (d !! "category_ids" = Some VNone -> post_categories db' = post_categories db) /\
   (forall f, is_not_None (getattr p f) = true ->
      is_not_None (getattr p' f) = true) /\
   p' ∈ posts db') /\
(forall db user_id d now db' u u',
   Crud.get_user db user_id = Some u ->
   Crud.update_user db user_id d now = (db', Return (Some u')) ->
   (forall f, d !! f = Some VNone -> f <> "updated_at" ->
      (f = "password_hash" -> truthy (dict_get d "password") = false) ->
      getattr u' f = getattr u f) /\
   (forall f, is_not_None (getattr u f) = true ->
      is_not_None (getattr u' f) = true) /\
   u' ∈ users db').
Proof.
split.
- intros * Hget Hupd.
  destruct (update_post_frame _ _ _ _ _ _ _ _ _ Hget Hupd) as (Hf & Hn & Hc & Hin & _).
  repeat split; try done.
  + intros f Hd. apply Hf. unfold dict_get. by rewrite Hd.
  + intros Hd. apply Hc. unfold dict_get_default. by rewrite Hd.
- intros * Hget Hupd.
  destruct (update_user_frame _ _ _ _ _ _ _ Hget Hupd) as (Hf & Hn & Hin & _).
  repeat split; try done.
  intros f Hd. apply Hf. unfold dict_get. by rewrite Hd.
Qed.

End Updates.

(** C7 at work: retitling the second post of the sample blog leaves its
    content as it was. *)
Lemma partial_update_keeps_absent_fields_witness :
let payload : dict := {[ "title" := VStr "Hello again" ]} in
let updated := @Crud.update_post Sample.environment Sample.blog 2 payload
                 Sample.evening Sample.evening Sample.evening in
getattr (Sample.returned_row updated.2) "title" = VStr "Hello again" /\
getattr (Sample.returned_row updated.2) "content" = VStr "Lorem ipsum".
Proof.
intros payload updated.
assert (Hget : Sample.is_found (Crud.get_post Sample.blog 2) = true)
  by (vm_compute; reflexivity).
assert (Hret : Sample.returns_row updated.2 = true) by (vm_compute; reflexivity).
destruct (proj1 (@partial_update_keeps_absent_fields Sample.environment)
            Sample.blog 2 payload Sample.evening Sample.evening Sample.evening
            updated.1 (Sample.found (Crud.get_post Sample.blog 2))
            (Sample.returned_row updated.2)
            (found_eq _ Hget) (returns_row_eq updated Hret))
  as (Hframe & _).
split; [vm_compute; reflexivity|].
rewrite (Hframe "content"); [vm_compute; reflexivity | | |]; done.
Defined.

(** C10 at work: a payload that sends [title] and [summary] as [null]
    along with a new content changes the content only. *)
Lemma null_fields_are_ignored_witness :
let payload : dict := {[ "title" := VNone; "summary" := VNone;
                         "content" := VStr "Rewritten" ]} in
let updated := @Crud.update_post Sample.environment Sample.blog 2 payload
                 Sample.evening Sample.evening Sample.evening in
getattr (Sample.returned_row updated.2) "title" = VStr "Hello" /\
getattr (Sample.returned_row updated.2) "content" = VStr "Rewritten".
Proof.
intros payload updated.
assert (Hget : Sample.is_found (Crud.get_post Sample.blog 2) = true)
  by (vm_compute; reflexivity).
assert (Hret : Sample.returns_row updated.2 = true) by (vm_compute; reflexivity).
destruct (proj1 (@null_fields_are_ignored Sample.environment)
            Sample.blog 2 payload Sample.evening Sample.evening Sample.evening
            updated.1 (Sample.found (Crud.get_post Sample.blog 2))
            (Sample.returned_row updated.2)
            (found_eq _ Hget) (returns_row_eq updated Hret))
  as (Hnull & _).
split; [|vm_compute; reflexivity].
rewrite (Hnull "title"); [vm_compute; reflexivity | | |]; done.
Defined.

(* ===================================================================== *)
(** ** The categories of a post *)
(* ===================================================================== *)

Section Categories.
Context `{External}.

Lemma assign_categories_inv db old new cats now pcs :
assign_categories db old new cats now = Return pcs ->
exists pid cids,
  new = VInt pid /\
  Forall2 (fun c cid => getattr c "id" = VInt cid) cats cids /\
  pcs = List.filter (fun g => negb (bool_decide (VInt (pcat_post_id g) = old)))
                    (post_categories db)
        ++ (category_row pid now <$> cids).
Proof.
unfold assign_categories. destruct new as [| |pid| | |]; try discriminate.
unfold_result. simpl.
generalize (List.filter (fun g => negb (bool_decide (VInt (pcat_post_id g) = old)))
                        (post_categories db)).
intros acc Hfold. exists pid.
enough (Hgen : exists cids,
           Forall2 (fun c cid => getattr c "id" = VInt cid) cats cids /\
           pcs = acc ++ (category_row pid now <$> cids))
  by (destruct Hgen as (cids & ? & ?); by exists cids).
revert acc Hfold. induction cats as [|c cats IH]; intros acc Hfold; simpl in Hfold.
- injection Hfold as <-. exists []. split; [constructor|]. by rewrite app_nil_r.
- destruct (getattr c "id") as [| |cid| | |] eqn:Hc; simpl in Hfold;
    try (exfalso; clear -Hfold; induction cats; simpl in *; [discriminate|auto]).
  destruct (existsb _ acc); simpl in Hfold;
    [exfalso; clear -Hfold; induction cats; simpl in *; [discriminate|auto]|].
  apply IH in Hfold as (cids & Hall & ->).
  exists (cid :: cids). split; [by constructor|].
  by rewrite <- app_assoc.
Qed.

Lemma existsb_false_all {A} (f : A -> bool) (l : list A) :
(forall x, x ∈ l -> f x = false) -> existsb f l = false.
Proof.
induction l as [|a l IH]; simpl; [done|]. intros Hall.
rewrite (Hall a) by apply list_elem_of_here. simpl.
apply IH. intros x Hx. apply Hall. by apply list_elem_of_further.
Qed.

(** After [post.categories = cats] the categories of the post are the
    rows of [cats]. *)
Lemma categories_of_assigned db db' pid ids now :
categories db' = categories db ->
assign_categories db (VInt pid) (VInt pid)
  (List.filter (id_in ids) (categories db)) now = Return (post_categories db') ->
Crud.categories_of db' (VInt pid) = List.filter (id_in ids) (categories db).
Proof.
intros Hcat Hasg. unfold Crud.categories_of. rewrite Hcat.
apply assign_categories_inv in Hasg as (pid' & cids & [= <-] & Hids & ->).
apply filter_ext_in. intros c Hc. apply eq_true_iff_eq.
rewrite existsb_app, orb_true_iff.
rewrite existsb_false_all.
2:{ intros g Hg. apply list_elem_of_In, filter_In in Hg as [_ Hg].
    apply negb_true_iff, bool_decide_eq_false in Hg.
    destruct (bool_decide (VInt (pcat_post_id g) = VInt pid)) eqn:Hb; [|done].
    by apply bool_decide_eq_true in Hb. }
split.
- intros [|Hex]; [done|].
  apply existsb_exists in Hex as (g & Hg & Hgc).
  apply list_elem_of_In, list_elem_of_fmap in Hg as (cid & -> & Hcid).
  simpl in Hgc. apply andb_true_iff in Hgc as [_ Hgc].
  apply bool_decide_eq_true in Hgc.
  apply list_elem_of_lookup in Hcid as [i Hi].
  destruct (Forall2_lookup_r _ _ _ _ _ Hids Hi) as (c' & Hc' & Hc'id).
  apply list_elem_of_lookup_2, list_elem_of_In, filter_In in Hc' as [_ Hc'].
  unfold id_in in *. rewrite <- Hgc. by rewrite Hc'id in Hc'.
- intros Hin. right.
  assert (Hc' : c ∈ List.filter (id_in ids) (categories db)).
  { apply list_elem_of_In, filter_In. split; [done|exact Hin]. }
  apply list_elem_of_lookup in Hc' as [i Hi].
  destruct (Forall2_lookup_l _ _ _ _ _ Hids Hi) as (cid & Hcid & Hcidc).
  apply existsb_exists. exists (category_row pid now cid). split.
  + apply list_elem_of_In, list_elem_of_fmap. exists cid. split; [done|].
    by eapply list_elem_of_lookup_2.
  + simpl. rewrite bool_decide_eq_true_2 by done. simpl.
    by rewrite bool_decide_eq_true_2.
Qed.

(** The rows of the other posts are not touched by the assignment. *)
Lemma assign_categories_other db pid cats now pcs g :
assign_categories db (VInt pid) (VInt pid) cats now = Return pcs ->
pcat_post_id g <> pid ->
g ∈ pcs <-> g ∈ post_categories db.
Proof.
intros (pid' & cids & [= <-] & _ & ->)%assign_categories_inv Hne.
rewrite elem_of_app. split.
- intros [Hg|Hg].
  + by apply list_elem_of_In, filter_In in Hg as [Hg%list_elem_of_In _].
  + apply list_elem_of_fmap in Hg as (cid & -> & _). done.
- intros Hg. left. apply list_elem_of_In, filter_In. split.
  + by apply list_elem_of_In.
  + apply negb_true_iff, bool_decide_eq_false. by intros [=].
Qed.

(** C6, as the code has it.  When [category_ids] is supplied as a list
    that is not empty, [update_post] replaces the categories of the post
    by exactly the stored categories whose id is in the list, and leaves
    the categories of every other post alone.  When [category_ids] is
    omitted, [null] or the empty list, the categories of the post stay
    as they are. *)
Theorem category_ids_replace_the_set :
forall db post_id d t_upd t_pub now db' p p',
  Crud.get_post db post_id = Some p ->
  dict_get d "id" = VNone ->
  Crud.update_post db post_id d t_upd t_pub now = (db', Return (Some p')) ->
  (forall ids, d !! "category_ids" = Some (VList ids) -> ids <> [] ->
     Crud.categories_of db' (VInt post_id) = List.filter (id_in ids) (categories db) /\
     forall g, pcat_post_id g <> post_id ->
       g ∈ post_categories db' <-> g ∈ post_categories db) /\
  (d !! "category_ids" = None \/ d !! "category_ids" = Some VNone \/
   d !! "category_ids" = Some (VList []) ->
     post_categories db' = post_categories db /\
     Crud.categories_of db' (VInt post_id) = Crud.categories_of db (VInt post_id)).
Proof.
intros * Hget Hid Hupd.
destruct (update_post_frame _ _ _ _ _ _ _ _ _ Hget Hupd)
  as (Hframe & _ & Hkeep & _ & _ & Hcats & _).
assert (Hpid : getattr p "id" = VInt post_id)
  by (by apply first_by_id_Some in Hget as [_ ?]).
assert (Hpid' : getattr p' "id" = VInt post_id)
  by (rewrite Hframe; done).
apply update_post_inv in Hupd.
destruct Hupd as (p0 & r0 & Hget' & _ & _ & _ & _ & _ & _ & _ & _ & _ & Hasg).
rewrite Hget in Hget'. injection Hget' as <-. simpl in Hasg.
split.
- intros ids Hd Hne. unfold dict_get_default in Hasg. rewrite Hd in Hasg.
  simpl in Hasg. rewrite bool_decide_eq_false_2 in Hasg by done. simpl in Hasg.
  destruct Hasg as (ids' & [= <-] & Hasg). rewrite Hpid, Hpid' in Hasg. split.
  + by apply (categories_of_assigned db db' post_id ids now).
  + intros g Hg. by eapply assign_categories_other.
- intros Hd.
  assert (Hpc : post_categories db' = post_categories db).
  { apply Hkeep. unfold dict_get_default.
    destruct Hd as [-> | [-> | ->]]; done. }
  split; [done|]. unfold Crud.categories_of. by rewrite Hpc, Hcats.
Qed.

End Categories.

(** C6 as stated fails: the first post of the sample blog is filed under
    one category, and an update that supplies the empty list of
    category ids succeeds and leaves it filed there. *)
Lemma empty_category_ids_do_not_clear :
let payload : dict := {[ "category_ids" := VList [] ]} in
let updated := @Crud.update_post Sample.environment Sample.blog 1 payload
                 Sample.evening Sample.evening Sample.evening in
Sample.returns_row updated.2 = true /\
(fun c => getattr c "name") <$> Crud.categories_of Sample.blog (VInt 1)
  = [VStr "news"] /\
Crud.categories_of updated.1 (VInt 1) <> [].
Proof.
intros payload updated. split; [vm_compute; reflexivity|].
split; [vm_compute; reflexivity|].
intros Hempty. apply (f_equal length) in Hempty.
vm_compute in Hempty. discriminate.
Defined.

(** C6 as amended, at work: supplying the ids [[2]] refiles the first
    post of the sample blog under the second category alone. *)
Lemma category_ids_replace_the_set_witness :
let payload : dict := {[ "category_ids" := VList [2] ]} in
let updated := @Crud.update_post Sample.environment Sample.blog 1 payload
                 Sample.evening Sample.evening Sample.evening in
(fun c => getattr c "name") <$> Crud.categories_of updated.1 (VInt 1)
  = [VStr "tech"].
Proof.
intros payload updated.
assert (Hget : Sample.is_found (Crud.get_post Sample.blog 1) = true)
  by (vm_compute; reflexivity).
assert (Hret : Sample.returns_row updated.2 = true) by (vm_compute; reflexivity).
destruct (@category_ids_replace_the_set Sample.environment
            Sample.blog 1 payload Sample.evening Sample.evening Sample.evening
            updated.1 (Sample.found (Crud.get_post Sample.blog 1))
            (Sample.returned_row updated.2)
            (found_eq _ Hget) eq_refl (returns_row_eq updated Hret))
  as (Hreplace & _).
destruct (Hreplace [2]) as [-> _]; [done | done |].
vm_compute. reflexivity.
Defined.

(* ===================================================================== *)
(** ** Slugs *)
(* ===================================================================== *)

(** The suffix of a slug has the resolution of one second. *)
Lemma slug_suffix_has_one_second_resolution :
Sample.noon <> Sample.noon_later /\
strftime_YmdHMS Sample.noon = strftime_YmdHMS Sample.noon_later.
Proof. split; [discriminate|reflexivity]. Qed.

(** C5 at the failing input: two posts with the same title created 250
    microseconds apart.  The first is stored under a slug that ends in
    the second of its creation; the second computes the same slug, the
    engine refuses it on the unique constraint of [posts.slug], and
    [create_post], which does not catch the error, raises it. *)
Theorem slug_collides_within_one_second :
let post_dict : dict :=
  <["author_id" := VInt 1]>
    (Schemas.PostCreate_model_dump
       {| Schemas.pc_title := "Release notes"; Schemas.pc_content := "Text";
          Schemas.pc_summary := None; Schemas.pc_is_published := true;
          Schemas.pc_category_ids := None |}) in
let first := @Crud.create_post Sample.environment Sample.blog post_dict
               Sample.noon Sample.noon Sample.noon in
let second := @Crud.create_post Sample.environment first.1 post_dict
                Sample.noon_later Sample.noon_later Sample.noon_later in
Sample.creates_row first.2 = true /\
getattr (Sample.created_row first.2) "slug" = VStr "Release notes-20240517120000" /\
(exists text, second.2 = Raise (IntegrityError (Unique "posts" "slug") text)) /\
length (posts second.1) = length (posts first.1).
Proof.
intros post_dict first second.
split; [vm_compute; reflexivity|].
split; [vm_compute; reflexivity|].
split; [eexists; vm_compute; reflexivity|].
vm_compute. reflexivity.
Qed.

(* ===================================================================== *)
(** ** Creating users: duplicates *)
(* ===================================================================== *)

Section CreateUser.
Context `{External}.

(** A [create_user] that raises stores nothing; one that returns has
    appended the new row. *)
Lemma create_user_inv db d now db' res :
Crud.create_user db d now = (db', res) ->
match res with
| Raise _ => db' = db
| Return u => users db' = users db ++ [u] /\ posts db' = posts db
end.
Proof.
unfold Crud.create_user.
destruct (_ ≫= construct User validate_User) as [r|e]; [|by intros [= <- <-]].
destruct (insert User db (users_id_seq db) now r) as [[u seq]|e].
- by intros [= <- <-].
- destruct e; try (by intros [= <- <-]).
  destruct (contains "email" text); [by intros [= <- <-]|].
  destruct (contains "login" text); by intros [= <- <-].
Qed.

(** The translation of an [IntegrityError] looks at the text of the
    error and nowhere else, and looks for [email] first: whatever
    constraint fired, a text in which [email] occurs is reported as a
    duplicate email. *)
Lemma create_user_reports_by_text db d now r c text :
(if dict_mem "password" d
 then h ← Crud.hash_value (dict_get d "password");
      Return (<["password_hash" := h]> (delete "password" d))
 else Return d) ≫= construct User validate_User = Return r ->
insert User db (users_id_seq db) now r = Raise (IntegrityError c text) ->
Crud.create_user db d now =
  (db, Raise (if contains "email" text then ValueError "Email already registered"
              else if contains "login" text then ValueError "Login already taken"
              else IntegrityError c text)).
Proof.
intros Hr Hins. unfold Crud.create_user. rewrite Hr, Hins.
destruct (contains "email" text); [done|].
by destruct (contains "login" text).
Qed.

End CreateUser.

(** The prototype: [Store.create_user] checks the email, then the login,
    names the one that collided and stores nothing. *)
Lemma Store_create_user_conflict s data t1 t2 :
(Storage.any_user (fun u => bool_decide (Storage.ur_email u = Storage.uc_email data)) s = true ->
   Storage.create_user s data t1 t2 = (s, Raise (ValueError "email already in use"))) /\
(Storage.any_user (fun u => bool_decide (Storage.ur_email u = Storage.uc_email data)) s = false ->
 Storage.any_user (fun u => bool_decide (Storage.ur_login u = Storage.uc_login data)) s = true ->
   Storage.create_user s data t1 t2 = (s, Raise (ValueError "login already in use"))).
Proof.
unfold Storage.create_user. split.
- by intros ->.
- by intros -> ->.
Qed.

(** C8 at the failing input.  The sample blog has a user with the login
    [email_fan]; a new user asks for the same login under an address
    that nobody has.  The constraint that fires is the unique constraint
    of [users.login], its report quotes the offending key, the word
    [email] occurs in it, and [create_user] raises "Email already
    registered". *)
Theorem login_collision_reported_as_email :
let user_data : dict := {[ "email" := VStr "carol@example.com";
                           "login" := VStr "email_fan";
                           "password" := VStr "secret123" ]} in
let attempt := @Crud.create_user Sample.environment Sample.blog user_data
                 Sample.noon in
Sample.is_found (Crud.get_user_by_email Sample.blog "carol@example.com") = false /\
Sample.is_found (Crud.get_user_by_login Sample.blog "email_fan") = true /\
Sample.violated
  (@insert Sample.environment User Sample.blog 2 Sample.noon
     (Sample.created_row
        (@construct User (@validate_User Sample.environment)
           (<["password_hash" := VStr "hashed:secret123"]>
              (delete "password" user_data)))))
  = Some (Unique "users" "login") /\
attempt.2 = Raise (ValueError "Email already registered").
Proof.
intros user_data attempt.
split; [vm_compute; reflexivity|].
split; [vm_compute; reflexivity|].
split; [vm_compute; reflexivity|].
vm_compute. reflexivity.
Qed.

(* ===================================================================== *)
(** ** Pagination *)
(* ===================================================================== *)

Section Pagination.
Context `{External}.

(** One page of [get_posts] is a window of the query. *)
Lemma get_posts_window db skip limit author_id category_id is_published search
  order_by order listing :
Crud.posts_query db author_id category_id is_published search order_by order
  = Return listing ->
0 <= skip -> 0 <= limit ->
Crud.get_posts db skip limit author_id category_id is_published search
  order_by order = Return (take (Z.to_nat limit) (drop (Z.to_nat skip) listing)).
Proof.
intros Hq Hs Hl. unfold Crud.get_posts. rewrite Hq. unfold_result.
destruct (skip <? 0) eqn:E1; [lia|]. destruct (limit <? 0) eqn:E2; [lia|]. done.
Qed.

Lemma three_pages_of_45 {A} (l : list A) :
length l = 45%nat ->
take 20 (drop 0 l) ++ take 20 (drop 20 l) ++ take 20 (drop 40 l) = l.
Proof.
intros Hlen. rewrite drop_0.
rewrite <- (take_drop 20 l) at 4. f_equal.
rewrite <- (take_drop 20 (drop 20 l)) at 2. f_equal.
rewrite drop_drop. simpl. apply take_ge. rewrite length_drop. lia.
Qed.

(** C9. Over a listing of 45 items, pages 1, 2 and 3 of size 20 are
    accepted by [get_pagination_params], which turns them into the
    offsets 0, 20 and 40; [get_posts] returns 20, 20 and 5 items for
    them, and the three pages, one after the other, are the listing
    itself: nothing is left out, and an item that occurs once in the
    listing occurs on one page only. *)
Theorem pagination_45_by_20 :
forall db author_id category_id is_published search order_by order listing,
  Crud.posts_query db author_id category_id is_published search order_by order
    = Return listing ->
  length listing = 45%nat ->
  exists page1 page2 page3,
    Dependencies.get_pagination_params 1 20
      = Ok 200 {| Dependencies.skip := 0; Dependencies.limit := 20 |} /\
    Dependencies.get_pagination_params 2 20
      = Ok 200 {| Dependencies.skip := 20; Dependencies.limit := 20 |} /\
    Dependencies.get_pagination_params 3 20
      = Ok 200 {| Dependencies.skip := 40; Dependencies.limit := 20 |} /\
    Crud.get_posts db 0 20 author_id category_id is_published search
      order_by order = Return page1 /\
    Crud.get_posts db 20 20 author_id category_id is_published search
      order_by order = Return page2 /\
    Crud.get_posts db 40 20 author_id category_id is_published search
      order_by order = Return page3 /\
    length page1 = 20%nat /\ length page2 = 20%nat /\ length page3 = 5%nat /\
    page1 ++ page2 ++ page3 = listing /\
    (NoDup listing ->
       (forall x, x ∈ page1 -> (x ∉ page2) /\ (x ∉ page3)) /\
       (forall x, x ∈ page2 -> x ∉ page3)).
Proof.
intros * Hq Hlen.
exists (take 20 (drop 0 listing)), (take 20 (drop 20 listing)),
       (take 20 (drop 40 listing)).
pose proof (three_pages_of_45 listing Hlen) as Hcat.
repeat apply conj; try reflexivity; try exact Hcat.
- by rewrite (get_posts_window _ _ _ _ _ _ _ _ _ _ Hq).
- by rewrite (get_posts_window _ _ _ _ _ _ _ _ _ _ Hq).
- by rewrite (get_posts_window _ _ _ _ _ _ _ _ _ _ Hq).
- rewrite length_take, length_drop. lia.
- rewrite length_take, length_drop. lia.
- rewrite length_take, length_drop. lia.
- intros Hnd. rewrite <- Hcat in Hnd.
  apply NoDup_app in Hnd as (_ & Hdisj1 & Hnd).
  apply NoDup_app in Hnd as (_ & Hdisj2 & _). split.
  + intros x Hx. specialize (Hdisj1 x Hx). rewrite elem_of_app in Hdisj1. tauto.
  + intros x Hx. by apply Hdisj2.
Qed.

End Pagination.

Lemma lists_eq r : Sample.lists r = true -> r = Return (Sample.listed r).
Proof. by destruct r. Qed.

(** C9 at work: the third page of the 45 published posts of the sample
    archive, newest first, has five posts. *)
Lemma pagination_45_by_20_witness :
exists page3,
  @Crud.get_posts Sample.environment Sample.archive 40 20 VNone VNone
    (VBool true) VNone "created_at" "desc" = Return page3 /\
  length page3 = 5%nat.
Proof.
assert (Hq : Sample.lists (@Crud.posts_query Sample.environment Sample.archive
                             VNone VNone (VBool true) VNone "created_at" "desc")
             = true) by (vm_compute; reflexivity).
destruct (@pagination_45_by_20 Sample.environment Sample.archive
            VNone VNone (VBool true) VNone "created_at" "desc" _
            (lists_eq _ Hq))
  as (page1 & page2 & page3 & _ & _ & _ & _ & _ & H3 & _ & _ & Hlen & _).
{ vm_compute. reflexivity. }
exists page3. split; [exact H3 | exact Hlen].
Defined.

(* ===================================================================== *)
(** ** Favorites and follows *)
(* ===================================================================== *)

Section Rows.
Context {A : Type}.
Implicit Types (f : A -> bool) (l : list A).

Lemma find_existsb f l :
existsb f l = match List.find f l with Some _ => true | None => false end.
Proof. induction l as [|a l IH]; simpl; [done|]. by destruct (f a). Qed.

Lemma rowcount_find f l :
(0 <? length (List.filter f l))%nat =
match List.find f l with Some _ => true | None => false end.
Proof. induction l as [|a l IH]; simpl; [done|]. by destruct (f a). Qed.

Lemma filter_none f l : List.find f l = None -> List.filter f l = [].
Proof.
induction l as [|a l IH]; simpl; [done|]. destruct (f a); [done|]. exact IH.
Qed.

Lemma filter_negb_none f l :
List.find f l = None -> List.filter (fun x => negb (f x)) l = l.
Proof.
induction l as [|a l IH]; simpl; [done|]. destruct (f a); [done|].
simpl. intros Hl. by rewrite IH.
Qed.

Lemma filter_negb_gone f l : List.find f (List.filter (fun x => negb (f x)) l) = None.
Proof.
induction l as [|a l IH]; simpl; [done|].
destruct (f a) eqn:Hfa; simpl; [done|]. by rewrite Hfa.
Qed.

Lemma filter_split_length f l :
(length (List.filter f l) + length (List.filter (fun x => negb (f x)) l)
 = length l)%nat.
Proof.
induction l as [|a l IH]; simpl; [done|]. destruct (f a); simpl; lia.
Qed.

Lemma filter_In_elem f l x : x ∈ List.filter f l <-> x ∈ l /\ f x = true.
Proof. rewrite !list_elem_of_In. apply filter_In. Qed.

(** Filtering keeps a key. *)
Lemma NoDup_fmap_filter {B} (key : A -> B) f l :
NoDup (key <$> l) -> NoDup (key <$> List.filter f l).
Proof.
induction l as [|a l IH]; simpl; [done|].
rewrite NoDup_cons. intros [Hnotin Hnd].
destruct (f a); simpl; [|by apply IH].
apply NoDup_cons. split; [|by apply IH].
intros (x & Hx & Hin)%list_elem_of_fmap. apply Hnotin.
apply list_elem_of_fmap. exists x. split; [done|].
by apply filter_In_elem in Hin as [? _].
Qed.

(** Under a key, at most one row has a given key. *)
Lemma NoDup_key_count {B} `{EqDecision B} (key : A -> B) f l k :
(forall x, f x = true <-> key x = k) ->
NoDup (key <$> l) -> (length (List.filter f l) <= 1)%nat.
Proof.
intros Hf. induction l as [|a l IH]; simpl; [lia|].
rewrite NoDup_cons. intros [Hnotin Hnd].
destruct (f a) eqn:Hfa; simpl; [|by apply IH].
enough (List.filter f l = []) as -> by (simpl; lia).
destruct (List.filter f l) as [|x l'] eqn:Hfl; [done|].
exfalso. apply Hnotin.
assert (Hx : x ∈ List.filter f l) by (rewrite Hfl; apply list_elem_of_here).
apply filter_In_elem in Hx as [Hx Hfx].
apply list_elem_of_fmap. exists x. split; [|done].
apply Hf in Hfa, Hfx. congruence.
Qed.

Lemma find_app_none f l1 l2 :
List.find f l1 = None -> List.find f (l1 ++ l2) = List.find f l2.
Proof.
induction l1 as [|a l IH]; simpl; [done|]. destruct (f a); [done|]. exact IH.
Qed.

End Rows.

Section Follows.
Context `{External}.

Lemma is_following_find db a b :
Crud.is_following db a b =
match List.find (Crud.subscription_is a b) (subscriptions db) with
| Some _ => true | None => false end.
Proof. reflexivity. Qed.

Lemma subscription_is_key a b s :
Crud.subscription_is a b s = true <->
(sub_follower_id s, sub_following_id s) = (a, b).
Proof.
unfold Crud.subscription_is. rewrite andb_true_iff, !bool_decide_eq_true.
split; [by intros [-> ->]|by intros [= -> ->]].
Qed.

(** [follow_user]: a self-follow and a repeated follow both return
    [False] and leave the table alone. *)
Lemma follow_user_self db a now : Crud.follow_user db a a now = (db, Return false).
Proof.
unfold Crud.follow_user.
by rewrite (bool_decide_eq_true_2 (a = a)), orb_true_r.
Qed.

Lemma follow_user_again db a b now :
Crud.is_following db a b = true ->
Crud.follow_user db a b now = (db, Return false).
Proof.
rewrite is_following_find. unfold Crud.follow_user.
destruct (List.find _ _); [|discriminate]. intros _.
by rewrite bool_decide_eq_true_2 by eauto.
Qed.

(** [follow_user] between two stored users who are not yet linked
    inserts the row. *)
Lemma follow_user_new db a b now :
a <> b -> Crud.is_following db a b = false ->
has_id (users db) (VInt a) = true -> has_id (users db) (VInt b) = true ->
Crud.follow_user db a b now =
  (set_subscriptions db
     (subscriptions db ++ [{| sub_follower_id := a; sub_following_id := b;
                              sub_created_at := now |}]),
   Return true).
Proof.
intros Hab Hnot Ha Hb. rewrite is_following_find in Hnot.
unfold Crud.follow_user.
destruct (List.find _ _) eqn:Hfind; [discriminate|].
rewrite bool_decide_eq_false_2 by (by intros [? ?]).
rewrite bool_decide_eq_false_2 by done. simpl.
unfold insert_subscription. simpl.
change (existsb _ (subscriptions db))
  with (existsb (Crud.subscription_is a b) (subscriptions db)).
rewrite find_existsb, Hfind.
rewrite bool_decide_eq_false_2 by done. by rewrite Ha, Hb.
Qed.

(** [unfollow_user] deletes the matching rows and reports whether there
    was one. *)
Lemma unfollow_user_spec db a b :
Crud.unfollow_user db a b =
  (set_subscriptions db
     (List.filter (fun s => negb (Crud.subscription_is a b s)) (subscriptions db)),
   Return (Crud.is_following db a b)).
Proof.
unfold Crud.unfollow_user. by rewrite rowcount_find, is_following_find.
Qed.

(** Every outcome of [follow_user] and [unfollow_user] keeps the primary
    key of [subscriptions] and [check_no_self_follow]. *)
Lemma follow_user_keeps_key db a b now :
subscriptions_key (subscriptions db) -> no_self_follow (subscriptions db) ->
subscriptions_key (subscriptions (Crud.follow_user db a b now).1) /\
no_self_follow (subscriptions (Crud.follow_user db a b now).1).
Proof.
intros Hkey Hself. unfold Crud.follow_user.
destruct (bool_decide (is_Some _) || bool_decide (a = b)) eqn:Hguard; [done|].
apply orb_false_iff in Hguard as [Hex Hab].
apply bool_decide_eq_false in Hex, Hab.
unfold insert_subscription. simpl.
change (existsb _ (subscriptions db))
  with (existsb (Crud.subscription_is a b) (subscriptions db)).
rewrite find_existsb.
destruct (List.find _ _) eqn:Hfind; [exfalso; eauto|].
rewrite bool_decide_eq_false_2 by done.
destruct (negb (has_id (users db) (VInt a))); [done|].
destruct (negb (has_id (users db) (VInt b))); [done|]. simpl. split.
- unfold subscriptions_key. rewrite fmap_app. simpl.
  apply NoDup_app. split; [done|]. split; [|apply NoDup_singleton].
  intros k Hk ->%list_elem_of_singleton.
  apply list_elem_of_fmap in Hk as (s & Hs & Hin).
  apply list_elem_of_In in Hin.
  pose proof (find_none _ _ Hfind s Hin) as Hno.
  symmetry in Hs. apply subscription_is_key in Hs. congruence.
- unfold no_self_follow. apply Forall_app. split; [done|].
  by apply Forall_singleton.
Qed.

Lemma unfollow_user_keeps_key db a b :
subscriptions_key (subscriptions db) -> no_self_follow (subscriptions db) ->
subscriptions_key (subscriptions (Crud.unfollow_user db a b).1) /\
no_self_follow (subscriptions (Crud.unfollow_user db a b).1).
Proof.
intros Hkey Hself. rewrite unfollow_user_spec. simpl. split.
- by apply NoDup_fmap_filter.
- unfold no_self_follow in *. rewrite Forall_forall in *.
  intros s Hs. apply Hself. by apply filter_In_elem in Hs as [? _].
Qed.

(** Following twice: whatever the first call did, the second is refused
    and exactly one row links the two users. *)
Lemma follow_user_twice db a b t1 t2 :
subscriptions_key (subscriptions db) ->
a <> b ->
has_id (users db) (VInt a) = true -> has_id (users db) (VInt b) = true ->
let once := Crud.follow_user db a b t1 in
let twice := Crud.follow_user once.1 a b t2 in
twice = (once.1, Return false) /\
length (List.filter (Crud.subscription_is a b) (subscriptions twice.1)) = 1%nat.
Proof.
intros Hkey Hab Ha Hb once twice.
assert (Hone : Crud.is_following once.1 a b = true /\
        length (List.filter (Crud.subscription_is a b) (subscriptions once.1)) = 1%nat).
{ unfold once. destruct (Crud.is_following db a b) eqn:Hf.
  - rewrite follow_user_again by done. simpl. split; [done|].
    pose proof (NoDup_key_count
                  (fun s => (sub_follower_id s, sub_following_id s))
                  (Crud.subscription_is a b) (subscriptions db) (a, b)
                  (subscription_is_key a b) Hkey) as Hle.
    rewrite is_following_find in Hf.
    pose proof (rowcount_find (Crud.subscription_is a b) (subscriptions db)) as Hrc.
    destruct (List.find _ _); [|discriminate].
    apply Nat.ltb_lt in Hrc. lia.
  - rewrite follow_user_new by done. simpl.
    rewrite is_following_find in *. simpl.
    destruct (List.find _ (subscriptions db)) eqn:Hfind; [discriminate|].
    rewrite List.filter_app, (filter_none _ _ Hfind). simpl.
    rewrite find_app_none by done. simpl.
    unfold Crud.subscription_is. simpl.
    by rewrite !bool_decide_eq_true_2. }
destruct Hone as [Hf Hcount]. unfold twice.
rewrite follow_user_again by done. done.
Qed.

End Follows.

Section FollowRoutes.
Context `{External}.

Lemma route_follow_self db user_id current_user now u :
Crud.get_user db user_id = Some u ->
getattr current_user "id" = VInt user_id ->
Routes.follow_user db user_id current_user now
  = (db, HTTPException 400 "Cannot follow yourself").
Proof.
intros Hu Hid. unfold Routes.follow_user. rewrite Hu, Hid.
by rewrite bool_decide_eq_true_2.
Qed.

Lemma route_follow_again db user_id me current_user now u :
Crud.get_user db user_id = Some u ->
getattr current_user "id" = VInt me ->
me <> user_id ->
Crud.is_following db me user_id = true ->
Routes.follow_user db user_id current_user now
  = (db, HTTPException 400 "Already following this user").
Proof.
intros Hu Hid Hne Hf. unfold Routes.follow_user. rewrite Hu, Hid.
rewrite bool_decide_eq_false_2 by (intros [=]; congruence). simpl.
by rewrite follow_user_again.
Qed.

(** C3. The handler of [POST /users/{user_id}/follow] refuses a
    self-follow and a repeated follow with two different answers
    ("Cannot follow yourself", "Already following this user") and
    changes nothing; [crud.follow_user] itself returns [False] in both
    cases.  Following a user twice leaves exactly one row for the pair.
    [unfollow_user] returns [True] exactly when it removed a row, after
    it the pair is not linked, and when it returns [False] the table is
    as before. *)
Theorem follow_rejects_self_and_duplicate :
(forall db user_id current_user now u,
   Crud.get_user db user_id = Some u ->
   getattr current_user "id" = VInt user_id ->
   Routes.follow_user db user_id current_user now
     = (db, HTTPException 400 "Cannot follow yourself")) /\
(forall db user_id me current_user now u,
   Crud.get_user db user_id = Some u ->
   getattr current_user "id" = VInt me ->
   me <> user_id ->
   Crud.is_following db me user_id = true ->
   Routes.follow_user db user_id current_user now
     = (db, HTTPException 400 "Already following this user")) /\
(@HTTPException string 400 "Cannot follow yourself"
   <> HTTPException 400 "Already following this user") /\
(forall db a now, Crud.follow_user db a a now = (db, Return false)) /\
(forall db a b now,
   Crud.is_following db a b = true ->
   Crud.follow_user db a b now = (db, Return false)) /\
(forall db a b t1 t2,
   subscriptions_key (subscriptions db) ->
   a <> b ->
   has_id (users db) (VInt a) = true -> has_id (users db) (VInt b) = true ->
   let once := Crud.follow_user db a b t1 in
   let twice := Crud.follow_user once.1 a b t2 in
   twice = (once.1, Return false) /\
   length (List.filter (Crud.subscription_is a b) (subscriptions twice.1)) = 1%nat) /\
(forall db a b db' r,
   Crud.unfollow_user db a b = (db', r) ->
   exists removed : bool,
     r = Return removed /\
     (removed = true <->
        (length (subscriptions db') < length (subscriptions db))%nat) /\
     (removed = false -> subscriptions db' = subscriptions db) /\
     Crud.is_following db' a b = false).
Proof.
repeat apply conj.
- intros. by eapply route_follow_self.
- intros. by eapply route_follow_again.
- discriminate.
- intros. apply follow_user_self.
- intros. by apply follow_user_again.
- intros. by apply follow_user_twice.
- intros db a b db' r. rewrite unfollow_user_spec. intros [= <- <-].
  exists (Crud.is_following db a b). simpl.
  pose proof (filter_split_length (Crud.subscription_is a b) (subscriptions db)) as Hlen.
  pose proof (rowcount_find (Crud.subscription_is a b) (subscriptions db)) as Hrc.
  rewrite !is_following_find. simpl. rewrite filter_negb_gone.
  destruct (List.find (Crud.subscription_is a b) (subscriptions db)) eqn:Hfind.
  + apply Nat.ltb_lt in Hrc. repeat split; try done. lia.
  + apply Nat.ltb_ge in Hrc. repeat split; try done.
    * intros ?. lia.
    * intros _. by apply filter_negb_none.
Qed.

End FollowRoutes.

(** C3 at work: in the sample blog the second user follows the first;
    asking again is answered "Already following this user". *)
Lemma follow_rejects_self_and_duplicate_witness :
(@Routes.follow_user Sample.environment Sample.blog 1
   (Sample.user 2 "bob@example.com" "bobby") Sample.evening).2
= HTTPException 400 "Already following this user".
Proof.
assert (Hget : Sample.is_found (Crud.get_user Sample.blog 1) = true)
  by (vm_compute; reflexivity).
rewrite (proj1 (proj2 (@follow_rejects_self_and_duplicate Sample.environment))
           Sample.blog 1 2 (Sample.user 2 "bob@example.com" "bobby")
           Sample.evening _ (found_eq _ Hget)).
- reflexivity.
- vm_compute. reflexivity.
- done.
- vm_compute. reflexivity.
Defined.

Section Favorites.
Context `{External}.

Lemma is_favorited_find db u p :
Crud.is_favorited db u p =
match List.find (Crud.favorite_is u p) (favorites db) with
| Some _ => true | None => false end.
Proof. reflexivity. Qed.

Lemma favorite_is_key u p f :
Crud.favorite_is u p f = true <-> (fav_user_id f, fav_post_id f) = (u, p).
Proof.
unfold Crud.favorite_is. rewrite andb_true_iff, !bool_decide_eq_true.
split; [by intros [-> ->]|by intros [= -> ->]].
Qed.

(** [add_favorite] on a pair that is already there returns [False] and
    inserts nothing. *)
Lemma add_favorite_again db u p now :
Crud.is_favorited db u p = true ->
Crud.add_favorite db u p now = (db, Return false).
Proof.
rewrite is_favorited_find. unfold Crud.add_favorite.
by destruct (List.find _ _).
Qed.

(** [add_favorite] of a stored user and a stored post that are not yet
    linked inserts the row. *)
Lemma add_favorite_new db u p now :
Crud.is_favorited db u p = false ->
has_id (users db) (VInt u) = true -> has_id (posts db) (VInt p) = true ->
Crud.add_favorite db u p now =
  (set_favorites db
     (favorites db ++ [{| fav_user_id := u; fav_post_id := p;
                          fav_created_at := now |}]),
   Return true).
Proof.
intros Hnot Hu Hp. rewrite is_favorited_find in Hnot.
unfold Crud.add_favorite.
destruct (List.find _ _) eqn:Hfind; [discriminate|].
unfold insert_favorite. simpl.
change (existsb _ (favorites db))
  with (existsb (Crud.favorite_is u p) (favorites db)).
by rewrite find_existsb, Hfind, Hu, Hp.
Qed.

(** [remove_favorite] deletes the matching rows and reports whether
    there was one. *)
Lemma remove_favorite_spec db u p :
Crud.remove_favorite db u p =
  (set_favorites db
     (List.filter (fun f => negb (Crud.favorite_is u p f)) (favorites db)),
   Return (Crud.is_favorited db u p)).
Proof.
unfold Crud.remove_favorite. by rewrite rowcount_find, is_favorited_find.
Qed.

(** Every outcome of [add_favorite] and [remove_favorite] keeps the
    primary key of [favorites]. *)
Lemma add_favorite_keeps_key db u p now :
favorites_key (favorites db) ->
favorites_key (favorites (Crud.add_favorite db u p now).1).
Proof.
intros Hkey. unfold Crud.add_favorite.
destruct (List.find _ _) eqn:Hfind; [done|].
unfold insert_favorite. simpl.
change (existsb _ (favorites db))
  with (existsb (Crud.favorite_is u p) (favorites db)).
rewrite find_existsb, Hfind.
destruct (negb (has_id (users db) (VInt u))); [done|].
destruct (negb (has_id (posts db) (VInt p))); [done|]. simpl.
unfold favorites_key. rewrite fmap_app. simpl.
apply NoDup_app. split; [done|]. split; [|apply NoDup_singleton].
intros k Hk ->%list_elem_of_singleton.
apply list_elem_of_fmap in Hk as (f & Hf & Hin).
apply list_elem_of_In in Hin.
pose proof (find_none _ _ Hfind f Hin) as Hno.
symmetry in Hf. apply favorite_is_key in Hf. congruence.
Qed.

Lemma remove_favorite_keeps_key db u p :
favorites_key (favorites db) ->
favorites_key (favorites (Crud.remove_favorite db u p).1).
Proof.
intros Hkey. rewrite remove_favorite_spec. simpl. by apply NoDup_fmap_filter.
Qed.

(** Cascading deletes only remove rows of [favorites] and
    [subscriptions]. *)
Lemma delete_cascade_keeps_keys user0 post0 comment0 now db :
(favorites_key (favorites db) ->
   favorites_key (favorites (delete_cascade user0 post0 comment0 now db))) /\
(subscriptions_key (subscriptions db) ->
   subscriptions_key (subscriptions (delete_cascade user0 post0 comment0 now db))) /\
(no_self_follow (subscriptions db) ->
   no_self_follow (subscriptions (delete_cascade user0 post0 comment0 now db))).
Proof.
simpl. repeat split.
- by apply NoDup_fmap_filter.
- by apply NoDup_fmap_filter.
- unfold no_self_follow. rewrite !Forall_forall.
  intros Hall s Hs. apply Hall. by apply filter_In_elem in Hs as [? _].
Qed.

End Favorites.

(* ===================================================================== *)
(** ** The association tables along a history *)
(* ===================================================================== *)

Section Histories.
Context `{External}.

Lemma create_user_tables db d now :
favorites (Crud.create_user db d now).1 = favorites db /\
subscriptions (Crud.create_user db d now).1 = subscriptions db.
Proof.
unfold Crud.create_user.
destruct (_ ≫= construct User validate_User) as [r|e]; [|done].
destruct (insert User db (users_id_seq db) now r) as [[u seq]|e]; [done|].
destruct e; try done.
destruct (contains "email" text); [done|].
by destruct (contains "login" text).
Qed.

Lemma create_post_tables db d t_slug t_pub now :
favorites (Crud.create_post db d t_slug t_pub now).1 = favorites db /\
subscriptions (Crud.create_post db d t_slug t_pub now).1 = subscriptions db.
Proof.
destruct (Crud.create_post db d t_slug t_pub now) as [db' [p|e]] eqn:Hc.
- apply create_post_inv in Hc as (? & ? & _ & _ & _ & _ & _ & ? & ?). done.
- simpl. revert Hc. unfold Crud.create_post.
  destruct (_ ≫= _) as [[[? ?] ?]|?]; by intros [= <- _].
Qed.

Lemma update_post_tables db i d t_upd t_pub now :
favorites (Crud.update_post db i d t_upd t_pub now).1 = favorites db /\
subscriptions (Crud.update_post db i d t_upd t_pub now).1 = subscriptions db.
Proof.
destruct (Crud.update_post db i d t_upd t_pub now) as [db' res] eqn:Hu.
apply update_post_inv in Hu. simpl. destruct res as [[p'|]|e].
- by destruct Hu as (? & ? & _ & _ & _ & _ & _ & _ & _ & _ & ? & ? & _).
- by destruct Hu as [-> _].
- by subst.
Qed.

Lemma update_user_tables db i d now :
favorites (Crud.update_user db i d now).1 = favorites db /\
subscriptions (Crud.update_user db i d now).1 = subscriptions db.
Proof.
destruct (Crud.update_user db i d now) as [db' res] eqn:Hu.
apply update_user_inv in Hu. simpl. destruct res as [[u'|]|e].
- by destruct Hu as (? & ? & ? & _ & _ & _ & _ & _ & _ & _ & _ & ? & ?).
- by destruct Hu as [-> _].
- by subst.
Qed.

Lemma update_category_tables db i d :
favorites (Crud.update_category db i d).1 = favorites db /\
subscriptions (Crud.update_category db i d).1 = subscriptions db.
Proof.
unfold Crud.update_category.
destruct (Crud.get_category db i); [|done].
by destruct (_ ≫= _) as [[? ?]|?].
Qed.

Lemma add_favorite_subscriptions db u p now :
subscriptions (Crud.add_favorite db u p now).1 = subscriptions db.
Proof.
unfold Crud.add_favorite. destruct (List.find _ _); [done|].
by destruct (insert_favorite _ _).
Qed.

Lemma follow_user_favorites db a b now :
favorites (Crud.follow_user db a b now).1 = favorites db.
Proof.
unfold Crud.follow_user. destruct (_ || _); [done|].
by destruct (insert_subscription _ _).
Qed.

(** Every command keeps the keys of the two association tables and the
    ban on self-follows. *)
Lemma run_keeps_keys db c :
favorites_key (favorites db) /\ subscriptions_key (subscriptions db) /\
no_self_follow (subscriptions db) ->
favorites_key (favorites (run db c)) /\
subscriptions_key (subscriptions (run db c)) /\
no_self_follow (subscriptions (run db c)).
Proof.
intros (Hf & Hs & Hn). destruct c; cbn [run].
- by destruct (create_user_tables db user_data now) as [-> ->].
- by destruct (update_user_tables db user_id user_data now) as [-> ->].
- unfold Crud.delete_user. destruct (Crud.get_user db user_id); [|done].
  destruct (delete_cascade_keeps_keys (id_is (VInt user_id)) nobody nobody now db)
    as (? & ? & ?). simpl fst. auto.
- by destruct (create_post_tables db post_data t_slug t_pub now) as [-> ->].
- by destruct (update_post_tables db post_id post_data t_upd t_pub now) as [-> ->].
- unfold Crud.delete_post. destruct (Crud.get_post db post_id); [|done].
  destruct (delete_cascade_keeps_keys nobody (id_is (VInt post_id)) nobody now db)
    as (? & ? & ?). simpl fst. auto.
- by destruct (update_category_tables db category_id category_data) as [-> ->].
- rewrite add_favorite_subscriptions. split; [|done].
  by apply add_favorite_keeps_key.
- rewrite remove_favorite_spec. simpl. split; [|done].
  by apply NoDup_fmap_filter.
- rewrite follow_user_favorites. split; [done|].
  by apply follow_user_keeps_key.
- destruct (unfollow_user_keeps_key db follower_id following_id Hs Hn).
  rewrite unfollow_user_spec in *. simpl in *. done.
Qed.

Lemma history_keeps_keys (cs : list command) :
favorites_key (favorites (foldl run empty_database cs)) /\
subscriptions_key (subscriptions (foldl run empty_database cs)) /\
no_self_follow (subscriptions (foldl run empty_database cs)).
Proof.
induction cs as [|c cs IH] using rev_ind.
- simpl. repeat split; constructor.
- rewrite foldl_app. simpl. by apply run_keeps_keys.
Qed.

End Histories.

Section FavoriteRoutes.
Context `{External}.

Lemma route_favorite_again db post_id me current_user now post :
Crud.get_post db post_id = Some post ->
truthy (getattr post "is_published") = true ->
getattr current_user "id" = VInt me ->
Crud.is_favorited db me post_id = true ->
Routes.add_to_favorites db post_id current_user now
  = (db, HTTPException 400 "Post already in favorites").
Proof.
intros Hp Hpub Hid Hfav. unfold Routes.add_to_favorites, Dependencies.get_post_or_404.
rewrite Hp, Hpub, Hid. unfold as_int. cbn [negb].
by rewrite add_favorite_again.
Qed.

Lemma route_unfavorite_missing db post_id me current_user :
getattr current_user "id" = VInt me ->
Crud.is_favorited db me post_id = false ->
exists db',
  Routes.remove_from_favorites db post_id current_user
    = (db', HTTPException 404 "Post not found in favorites") /\
  favorites db' = favorites db.
Proof.
intros Hid Hfav. unfold Routes.remove_from_favorites. rewrite Hid.
unfold as_int. rewrite remove_favorite_spec, Hfav. eexists. split; [reflexivity|]. simpl.
rewrite is_favorited_find in Hfav.
destruct (List.find _ _) eqn:Hfind; [discriminate|].
by apply filter_negb_none.
Qed.

(** C4. [add_favorite] on a pair that is already a favorite returns
    [False], raises nothing and leaves the table as it is, so that a
    second add after a successful one is a no-op; [remove_favorite] on a
    pair that is not a favorite returns [False] and leaves the table as
    it is.  The handlers answer 400 "Post already in favorites" and 404
    "Post not found in favorites".  Along every history of commands run
    from the empty database, no pair occurs twice in [favorites]. *)
Theorem favorites_report_without_duplicates :
(forall db u p now,
   Crud.is_favorited db u p = true ->
   Crud.add_favorite db u p now = (db, Return false)) /\
(forall db u p t1 t2 db1,
   Crud.add_favorite db u p t1 = (db1, Return true) ->
   Crud.add_favorite db1 u p t2 = (db1, Return false) /\
   length (List.filter (Crud.favorite_is u p) (favorites db1)) = 1%nat) /\
(forall db u p,
   Crud.is_favorited db u p = false ->
   exists db', Crud.remove_favorite db u p = (db', Return false) /\
               favorites db' = favorites db) /\
(forall db post_id me current_user now post,
   Crud.get_post db post_id = Some post ->
   truthy (getattr post "is_published") = true ->
   getattr current_user "id" = VInt me ->
   Crud.is_favorited db me post_id = true ->
   Routes.add_to_favorites db post_id current_user now
     = (db, HTTPException 400 "Post already in favorites")) /\
(forall db post_id me current_user,
   getattr current_user "id" = VInt me ->
   Crud.is_favorited db me post_id = false ->
   exists db',
     Routes.remove_from_favorites db post_id current_user
       = (db', HTTPException 404 "Post not found in favorites") /\
     favorites db' = favorites db) /\
(forall cs : list command,
   favorites_key (favorites (foldl run empty_database cs))).
Proof.
repeat apply conj.
- intros. by apply add_favorite_again.
- intros db u p t1 t2 db1 Hadd.
  assert (Hnew : Crud.is_favorited db u p = false /\
                 favorites db1 = favorites db ++
                   [{| fav_user_id := u; fav_post_id := p; fav_created_at := t1 |}]).
  { revert Hadd. unfold Crud.add_favorite. rewrite is_favorited_find.
    destruct (List.find _ _); [discriminate|].
    unfold insert_favorite.
    destruct (existsb _ _); [discriminate|].
    destruct (negb (has_id (users db) _)); [discriminate|].
    destruct (negb (has_id (posts db) _)); [discriminate|].
    by intros [= <-]. }
  destruct Hnew as [Hnot Hfav]. rewrite is_favorited_find in Hnot.
  destruct (List.find _ (favorites db)) eqn:Hfind; [discriminate|].
  assert (Hone : Crud.favorite_is u p
                   {| fav_user_id := u; fav_post_id := p; fav_created_at := t1 |}
                 = true).
  { unfold Crud.favorite_is. simpl. by rewrite !bool_decide_eq_true_2. }
  split.
  + apply add_favorite_again. rewrite is_favorited_find, Hfav.
    rewrite find_app_none by done. simpl. by rewrite Hone.
  + rewrite Hfav, List.filter_app, (filter_none _ _ Hfind). simpl.
    by rewrite Hone.
- intros db u p Hnot. rewrite remove_favorite_spec, Hnot.
  eexists. split; [reflexivity|]. simpl.
  rewrite is_favorited_find in Hnot.
  destruct (List.find _ _) eqn:Hfind; [discriminate|].
  by apply filter_negb_none.
- intros. by eapply route_favorite_again.
- intros. by eapply route_unfavorite_missing.
- intros cs. apply history_keeps_keys.
Qed.

End FavoriteRoutes.

(** C4 at work: the second user of the sample blog has the second post
    among the favorites; adding it again returns [False]. *)
Lemma favorites_report_without_duplicates_witness :
(@Crud.add_favorite Sample.environment Sample.blog 2 2 Sample.evening).2
= Return false.
Proof.
rewrite (proj1 (@favorites_report_without_duplicates Sample.environment)
           Sample.blog 2 2 Sample.evening).
- reflexivity.
- vm_compute. reflexivity.
Defined.

(* ===================================================================== *)
(** ** Cascading deletes *)
(* ===================================================================== *)

Section Cascade.
Variables user0 post0 comment0 : row -> bool.
Variable now : datetime.
Variable db : Database.

Let db' := delete_cascade user0 post0 comment0 now db.

Lemma existsb_true_intro {A} (f : A -> bool) (l : list A) x :
x ∈ l -> f x = true -> existsb f l = true.
Proof. intros Hx Hf. apply existsb_exists. exists x. by rewrite <- list_elem_of_In. Qed.

Lemma has_id_elem (t : list row) v :
has_id t v = true <-> exists r, r ∈ t /\ getattr r "id" = v.
Proof.
unfold has_id. rewrite existsb_exists. split.
- intros (r & Hr & Hid). exists r. rewrite list_elem_of_In.
  unfold id_is in Hid. by apply bool_decide_eq_true in Hid.
- intros (r & Hr & Hid). exists r. rewrite <- list_elem_of_In.
  unfold id_is. by rewrite bool_decide_eq_true.
Qed.

(** A user that is referenced and not deleted is still stored. *)
Lemma surviving_user v :
has_id (users db) v = true -> dead_user user0 db v = false ->
has_id (users db') v = true.
Proof.
intros (u & Hu & Hid)%has_id_elem Hdead. apply has_id_elem. exists u.
split; [|done]. simpl. apply filter_In_elem. split; [done|].
destruct (user0 u) eqn:H0; [|done]. exfalso.
unfold dead_user in Hdead.
rewrite (existsb_true_intro _ _ u) in Hdead; [done|done|].
rewrite H0. unfold id_is. by rewrite bool_decide_eq_true_2.
Qed.

Lemma surviving_post v :
has_id (posts db) v = true -> dead_post_id user0 post0 db v = false ->
has_id (posts db') v = true.
Proof.
intros (p & Hp & Hid)%has_id_elem Hdead. apply has_id_elem. exists p.
split; [|done]. simpl. apply filter_In_elem. split; [done|].
destruct (dead_post user0 post0 db p) eqn:H0; [|done]. exfalso.
unfold dead_post_id in Hdead.
rewrite (existsb_true_intro _ _ p) in Hdead; [done|done|].
rewrite H0. unfold id_is. by rewrite bool_decide_eq_true_2.
Qed.

(** The rows of [comments] after the delete: the survivors, a reply to
    a deleted comment with its [parent_id] set to NULL and its
    [updated_at] set by the statement. *)
Lemma surviving_comment_inv c' :
c' ∈ comments db' ->
exists c, c ∈ comments db /\ dead_comment user0 post0 comment0 db c = false /\
  (forall f, f <> "parent_id" -> f <> "updated_at" ->
     getattr c' f = getattr c f) /\
  (is_not_None (getattr c' "parent_id") = true ->
     getattr c' "parent_id" = getattr c "parent_id" /\
     dead_comment_id user0 post0 comment0 db (getattr c "parent_id") = false).
Proof.
simpl. intros (c & -> & Hc)%list_elem_of_fmap.
apply filter_In_elem in Hc as [Hc Hdead]. apply negb_true_iff in Hdead.
exists c. split; [done|]. split; [done|].
destruct (is_not_None (getattr c "parent_id") && _) eqn:Hnull.
- split.
  + intros f Hf Hf'. by rewrite !getattr_insert_ne.
  + rewrite getattr_insert_ne by done. rewrite getattr_insert_eq. discriminate.
- split; [done|]. intros Hnn. split; [done|].
  rewrite Hnn in Hnull. exact Hnull.
Qed.

Lemma surviving_comment v :
has_id (comments db) v = true ->
dead_comment_id user0 post0 comment0 db v = false ->
has_id (comments db') v = true.
Proof.
intros (c & Hc & Hid)%has_id_elem Hdead. apply has_id_elem.
destruct (dead_comment user0 post0 comment0 db c) eqn:H0.
{ exfalso. unfold dead_comment_id in Hdead.
  rewrite (existsb_true_intro _ _ c) in Hdead; [done|done|].
  rewrite H0. unfold id_is. by rewrite bool_decide_eq_true_2. }
eexists. split.
- simpl. apply list_elem_of_fmap. exists c. split; [reflexivity|].
  apply filter_In_elem. split; [done|]. by rewrite H0.
- destruct (_ && _); [|done]. by rewrite !getattr_insert_ne.
Qed.

(** Whatever is deleted, every reference that is left points at a row
    that is left. *)
Lemma delete_cascade_keeps_integrity :
referential_integrity db -> referential_integrity db'.
Proof.
intros [Hpa Hcp Hcu Hcc Hfav Hsub Hpc].
unfold foreign_key in *.
rewrite Forall_forall in Hpa. rewrite Forall_forall in Hcp.
rewrite Forall_forall in Hcu. rewrite Forall_forall in Hcc.
rewrite Forall_forall in Hfav. rewrite Forall_forall in Hsub.
rewrite Forall_forall in Hpc.
split; unfold foreign_key; rewrite Forall_forall.
- intros p Hp Hnn. simpl in Hp. apply filter_In_elem in Hp as [Hp Hdead].
  apply negb_true_iff in Hdead. unfold dead_post in Hdead.
  apply orb_false_iff in Hdead as [_ Hdead].
  apply surviving_user; auto.
- intros c' Hc' Hnn.
  destruct (surviving_comment_inv c' Hc') as (c & Hc & Hdead & Hsame & _).
  rewrite Hsame in * by done.
  unfold dead_comment in Hdead.
  apply orb_false_iff in Hdead as [Hdead Hpost].
  apply surviving_post; auto.
- intros c' Hc' Hnn.
  destruct (surviving_comment_inv c' Hc') as (c & Hc & Hdead & Hsame & _).
  rewrite Hsame in * by done.
  unfold dead_comment in Hdead.
  apply orb_false_iff in Hdead as [Hdead _].
  apply orb_false_iff in Hdead as [_ Hdead].
  apply surviving_user; auto.
- intros c' Hc' Hnn.
  destruct (surviving_comment_inv c' Hc') as (c & Hc & _ & _ & Hparent).
  destruct (Hparent Hnn) as [Heq Halive]. rewrite Heq in *.
  apply surviving_comment; auto.
- intros f Hf. simpl in Hf. apply filter_In_elem in Hf as [Hf Halive].
  apply andb_true_iff in Halive as [Hu Hp]. apply negb_true_iff in Hu, Hp.
  destruct (Hfav f Hf). split; [by apply surviving_user|by apply surviving_post].
- intros s Hs. simpl in Hs. apply filter_In_elem in Hs as [Hs Halive].
  apply andb_true_iff in Halive as [Ha Hb]. apply negb_true_iff in Ha, Hb.
  destruct (Hsub s Hs). split; by apply surviving_user.
- intros g Hg. simpl in Hg. apply filter_In_elem in Hg as [Hg Halive].
  apply negb_true_iff in Halive. apply surviving_post; auto.
Qed.

End Cascade.

Section DeleteUser.
Context `{External}.

Lemma key_identifies {A B} (key : A -> B) (l : list A) x y :
NoDup (key <$> l) -> x ∈ l -> y ∈ l -> key x = key y -> x = y.
Proof.
induction l as [|a l IH]; simpl; [by intros _ ?%elem_of_nil|].
rewrite NoDup_cons. intros [Hnotin Hnd] Hx Hy Hk.
apply elem_of_cons in Hx as [->|Hx]; apply elem_of_cons in Hy as [->|Hy].
- done.
- exfalso. apply Hnotin. rewrite Hk. by apply list_elem_of_fmap_2.
- exfalso. apply Hnotin. rewrite <- Hk. by apply list_elem_of_fmap_2.
- by apply IH.
Qed.

Lemma first_by_id_None t i :
(forall r, r ∈ t -> getattr r "id" <> VInt i) -> first_by_id t i = None.
Proof.
intros Hall. apply find_all_false. intros r Hr.
unfold id_is. apply bool_decide_eq_false. by apply Hall.
Qed.

(** The user found by [get_user] makes its id a deleted one. *)
Lemma found_user_is_dead db user_id u :
Crud.get_user db user_id = Some u ->
dead_user (id_is (VInt user_id)) db (VInt user_id) = true.
Proof.
intros [Hu Hid]%first_by_id_Some. unfold dead_user.
apply (existsb_true_intro _ _ u); [done|].
unfold id_is. by rewrite Hid, bool_decide_eq_true_2.
Qed.

(** What [delete_user] leaves of a stored user. *)
Lemma delete_user_removes db user_id now u :
Crud.get_user db user_id = Some u ->
exists db',
  Crud.delete_user db user_id now = (db', Return true) /\
  Crud.get_user db' user_id = None /\
  (forall p, p ∈ posts db' -> getattr p "author_id" <> VInt user_id) /\
  (forall c, c ∈ comments db' -> getattr c "user_id" <> VInt user_id) /\
  (forall f, f ∈ favorites db' -> fav_user_id f <> user_id) /\
  (forall s, s ∈ subscriptions db' ->
     sub_follower_id s <> user_id /\ sub_following_id s <> user_id) /\
  (primary_key (posts db) ->
   forall p post_id, p ∈ posts db -> getattr p "author_id" = VInt user_id ->
     getattr p "id" = VInt post_id ->
     Crud.get_post db' post_id = None /\
     Dependencies.get_post_or_404 db' post_id = HTTPException 404 "Post not found") /\
  (primary_key (comments db) ->
   forall c comment_id, c ∈ comments db -> getattr c "user_id" = VInt user_id ->
     getattr c "id" = VInt comment_id ->
     Crud.get_comment db' comment_id = None /\
     Dependencies.get_comment_or_404 db' comment_id
       = HTTPException 404 "Comment not found") /\
  (referential_integrity db -> referential_integrity db').
Proof.
intros Hget. pose proof (found_user_is_dead _ _ _ Hget) as Hdead.
unfold Crud.delete_user. rewrite Hget. eexists. split; [reflexivity|].
set (user0 := id_is (VInt user_id)).
repeat apply conj.
- apply first_by_id_None. simpl. intros r Hr Hid.
  apply filter_In_elem in Hr as [_ Hr]. unfold user0, id_is in Hr.
  by rewrite Hid, bool_decide_eq_true_2 in Hr.
- simpl. intros p Hp Ha. apply filter_In_elem in Hp as [_ Hp].
  unfold dead_post in Hp. rewrite Ha in Hp. fold user0 in Hdead.
  by rewrite Hdead, orb_true_r in Hp.
- intros c' Hc' Hu.
  destruct (surviving_comment_inv _ _ _ _ _ c' Hc') as (c & _ & Hc & Hsame & _).
  rewrite Hsame in Hu by done. unfold dead_comment in Hc. rewrite Hu in Hc.
  fold user0 in Hdead. by rewrite Hdead, orb_true_r in Hc.
- simpl. intros f Hf Hu. apply filter_In_elem in Hf as [_ Hf].
  rewrite Hu in Hf. fold user0 in Hdead. by rewrite Hdead in Hf.
- simpl. intros s Hs. apply filter_In_elem in Hs as [_ Hs].
  apply andb_true_iff in Hs as [Ha Hb]. fold user0 in Hdead.
  split; intros Hu; rewrite Hu in *; by rewrite Hdead in *.
- intros Hkey p post_id Hp Ha Hid.
  assert (Hnone : Crud.get_post (delete_cascade user0 nobody nobody now db) post_id = None).
  { apply first_by_id_None. simpl. intros q Hq Hqid.
    apply filter_In_elem in Hq as [Hq Halive].
    assert (q = p) as -> by (eapply (key_identifies _ _ _ _ Hkey); congruence).
    unfold dead_post in Halive. rewrite Ha in Halive. fold user0 in Hdead.
    by rewrite Hdead, orb_true_r in Halive. }
  split; [done|]. unfold Dependencies.get_post_or_404. by rewrite Hnone.
- intros Hkey c comment_id Hc Hu Hid.
  assert (Hnone : Crud.get_comment (delete_cascade user0 nobody nobody now db) comment_id
                  = None).
  { apply first_by_id_None. intros q' Hq' Hqid.
    destruct (surviving_comment_inv _ _ _ _ _ q' Hq') as (q & Hq & Halive & Hsame & _).
    rewrite Hsame in Hqid by done.
    assert (q = c) as -> by (eapply (key_identifies _ _ _ _ Hkey); congruence).
    unfold dead_comment in Halive. rewrite Hu in Halive. fold user0 in Hdead.
    by rewrite Hdead, orb_true_r in Halive. }
  split; [done|]. unfold Dependencies.get_comment_or_404. by rewrite Hnone.
- apply delete_cascade_keeps_integrity.
Qed.

End DeleteUser.

(** The prototype: [Store.delete_user] removes the user and the posts
    of the user, and nothing else. *)
Lemma Store_delete_user_removes s user_id u :
Storage.users s !! user_id = Some u ->
exists s',
  Storage.delete_user s user_id = (s', Return tt) /\
  Storage.get_user s' user_id = None /\
  (forall pid p, Storage.posts s !! pid = Some p ->
     Storage.pr_authorId p = user_id ->
     Storage.get_post s' pid = None /\
     Storage.Routes.get_post s' pid = HTTPException 404 "post not found") /\
  (forall pid p, Storage.posts s' !! pid = Some p <->
     Storage.posts s !! pid = Some p /\ Storage.pr_authorId p <> user_id) /\
  (forall uid, uid <> user_id -> Storage.users s' !! uid = Storage.users s !! uid) /\
  (store_integrity s -> store_integrity s').
Proof.
intros Hu. unfold Storage.delete_user. rewrite Hu.
eexists. split; [reflexivity|].
assert (Hposts : forall pid p,
          filter (fun kp : Z * Storage.PostRead => Storage.pr_authorId kp.2 <> user_id)
                 (Storage.posts s) !! pid = Some p <->
          Storage.posts s !! pid = Some p /\ Storage.pr_authorId p <> user_id).
{ intros pid p. by rewrite map_lookup_filter_Some. }
repeat apply conj.
- unfold Storage.get_user. simpl. apply lookup_delete_eq.
- intros pid p Hp Ha.
  assert (Hnone : Storage.get_post
            {| Storage.users := delete user_id (Storage.users s);
               Storage.posts := filter (fun kp : Z * Storage.PostRead =>
                                          Storage.pr_authorId kp.2 <> user_id)
                                       (Storage.posts s);
               Storage._user_seq := Storage._user_seq s;
               Storage._post_seq := Storage._post_seq s |} pid = None).
  { unfold Storage.get_post. simpl.
    destruct (filter _ (Storage.posts s) !! pid) as [q|] eqn:Hq; [|done].
    apply Hposts in Hq as [Hq Hne]. congruence. }
  split; [done|]. unfold Storage.Routes.get_post. by rewrite Hnone.
- simpl. apply Hposts.
- simpl. intros uid Hne. by rewrite lookup_delete_ne.
- intros Hint pid p Hp. simpl in *. apply Hposts in Hp as [Hp Hne].
  rewrite lookup_delete_ne by done. by eapply Hint.
Qed.

(** C2. Deleting a stored user with [delete_user] of [crud.py] returns
    [True] and leaves no row of the user: no post and no comment the
    user wrote, no favorite and no follow in either direction that
    mentions the user.  Where ids are a primary key, looking up a post
    or a comment the user wrote finds nothing afterwards and the lookup
    helpers answer 404.  Every reference that is left points at a row
    that is left.  [Store.delete_user] of the prototype removes the user
    and the posts of the user, so that their lookup answers 404, and
    keeps the others. *)
Theorem delete_user_leaves_no_orphans `{External} :
(forall db user_id now u,
   Crud.get_user db user_id = Some u ->
   exists db',
     Crud.delete_user db user_id now = (db', Return true) /\
     Crud.get_user db' user_id = None /\
     (forall p, p ∈ posts db' -> getattr p "author_id" <> VInt user_id) /\
     (forall c, c ∈ comments db' -> getattr c "user_id" <> VInt user_id) /\
     (forall f, f ∈ favorites db' -> fav_user_id f <> user_id) /\
     (forall s, s ∈ subscriptions db' ->
        sub_follower_id s <> user_id /\ sub_following_id s <> user_id) /\
     (primary_key (posts db) ->
      forall p post_id, p ∈ posts db -> getattr p "author_id" = VInt user_id ->
        getattr p "id" = VInt post_id ->
        Crud.get_post db' post_id = None /\
        Dependencies.get_post_or_404 db' post_id
          = HTTPException 404 "Post not found") /\
     (primary_key (comments db) ->
      forall c comment_id, c ∈ comments db -> getattr c "user_id" = VInt user_id ->
        getattr c "id" = VInt comment_id ->
        Crud.get_comment db' comment_id = None /\
        Dependencies.get_comment_or_404 db' comment_id
          = HTTPException 404 "Comment not found") /\
     (referential_integrity db -> referential_integrity db')) /\
(forall s user_id u,
   Storage.users s !! user_id = Some u ->
   exists s',
     Storage.delete_user s user_id = (s', Return tt) /\
     Storage.get_user s' user_id = None /\
     (forall pid p, Storage.posts s !! pid = Some p ->
        Storage.pr_authorId p = user_id ->
        Storage.get_post s' pid = None /\
        Storage.Routes.get_post s' pid = HTTPException 404 "post not found") /\
     (forall pid p, Storage.posts s' !! pid = Some p <->
        Storage.posts s !! pid = Some p /\ Storage.pr_authorId p <> user_id) /\
     (forall uid, uid <> user_id ->
        Storage.users s' !! uid = Storage.users s !! uid) /\
     (store_integrity s -> store_integrity s')).
Proof.
split.
- intros db user_id now u Hget. by apply (delete_user_removes db user_id now u).
- intros s user_id u Hu. by apply (Store_delete_user_removes s user_id u).
Qed.

(** C2 at work: once the first user of the sample blog is deleted, the
    second post, which that user wrote, is answered 404. *)
Lemma delete_user_leaves_no_orphans_witness :
Dependencies.get_post_or_404 (Crud.delete_user Sample.blog 1 Sample.evening).1 2
= HTTPException 404 "Post not found".
Proof.
assert (Huser : Sample.is_found (Crud.get_user Sample.blog 1) = true)
  by (vm_compute; reflexivity).
assert (Hpost : Sample.is_found (Crud.get_post Sample.blog 2) = true)
  by (vm_compute; reflexivity).
destruct (proj1 (@delete_user_leaves_no_orphans Sample.environment)
            Sample.blog 1 Sample.evening _ (found_eq _ Huser))
  as (db' & Hdel & _ & _ & _ & _ & _ & Hposts & _).
rewrite Hdel. cbn [fst].
destruct (first_by_id_Some _ _ _ (found_eq _ Hpost)) as [Hin Hid].
assert (Hkey : primary_key (posts Sample.blog))
  by (unfold primary_key; apply (bool_decide_unpack (NoDup _));
      vm_compute; exact I).
destruct (Hposts Hkey (Sample.found (Crud.get_post Sample.blog 2)) 2 Hin)
  as [_ H404]; [vm_compute; reflexivity | exact Hid | exact H404].
Defined.

(* ===================================================================== *)
(** ** Creating and reading back *)
(* ===================================================================== *)

Section RoundTrips.
Context `{External}.

(** An INSERT that went through used an id that no stored row had, and
    the values of its unique columns were not taken. *)
Lemma check_insert_fresh_id T db p :
check_insert T db p = None ->
has_id (table db (t_name T)) (getattr p "id") = false.
Proof.
unfold check_insert. destruct (List.find _ (t_not_null T)); [discriminate|].
by destruct (has_id _ _).
Qed.

Lemma check_insert_unique T db p c :
check_insert T db p = None -> c ∈ t_unique T ->
is_not_None (getattr p c) = true ->
List.find (fun r => bool_decide (getattr r c = getattr p c)) (table db (t_name T))
= None.
Proof.
unfold check_insert. destruct (List.find _ (t_not_null T)); [discriminate|].
destruct (has_id _ _); [discriminate|].
destruct (List.find _ (t_unique T)) eqn:Huq; [discriminate|]. intros _ Hc Hnn.
apply list_elem_of_In in Hc. pose proof (find_none _ _ Huq c Hc) as Hfalse.
simpl in Hfalse. rewrite Hnn in Hfalse. simpl in Hfalse.
rewrite find_existsb in Hfalse. by destruct (List.find _ (table _ _)).
Qed.

Lemma check_insert_not_null T db p c :
check_insert T db p = None -> c ∈ t_not_null T ->
is_not_None (getattr p c) = true.
Proof.
unfold check_insert.
destruct (List.find _ (t_not_null T)) eqn:Hnn; [discriminate|]. intros _ Hc.
apply list_elem_of_In in Hc. pose proof (find_none _ _ Hnn c Hc) as Hfalse.
by apply negb_false_iff in Hfalse.
Qed.

Lemma check_insert_foreign_key T db p c target :
check_insert T db p = None -> (c, target) ∈ t_foreign_keys T ->
is_not_None (getattr p c) = true ->
has_id (table db target) (getattr p c) = true.
Proof.
unfold check_insert. destruct (List.find _ (t_not_null T)); [discriminate|].
destruct (has_id _ _); [discriminate|].
destruct (List.find _ (t_unique T)); [discriminate|].
destruct (List.find _ (t_foreign_keys T)) eqn:Hfk; [discriminate|].
intros _ Hc Hnn. apply list_elem_of_In in Hc.
pose proof (find_none _ _ Hfk _ Hc) as Hfalse. simpl in Hfalse.
rewrite Hnn in Hfalse. simpl in Hfalse. by apply negb_false_iff in Hfalse.
Qed.

Lemma first_by_id_appended t p i :
has_id t (VInt i) = false -> getattr p "id" = VInt i ->
first_by_id (t ++ [p]) i = Some p.
Proof.
intros Hfresh Hid. unfold first_by_id, has_id in *.
rewrite find_existsb in Hfresh.
destruct (List.find (id_is (VInt i)) t) eqn:Hfind; [discriminate|].
rewrite find_app_none by done. simpl. unfold id_is.
by rewrite Hid, bool_decide_eq_true_2.
Qed.

(** What a successful [create_user] has done. *)
Lemma create_user_Return db d now db' u :
Crud.create_user db d now = (db', Return u) ->
exists r,
  (if dict_mem "password" d
   then h ← Crud.hash_value (dict_get d "password");
        Return (<["password_hash" := h]> (delete "password" d))
   else Return d) ≫= construct User validate_User = Return r /\
  u = with_defaults User now
        (if is_not_None (getattr r "id") then r
         else <["id" := VInt (users_id_seq db + 1)]> r) /\
  check_insert User db u = None /\
  users db' = users db ++ [u] /\ posts db' = posts db /\
  comments db' = comments db /\ categories db' = categories db.
Proof.
unfold Crud.create_user.
destruct (_ ≫= construct User validate_User) as [r|e]; [|by intros [= <- <-]].
destruct (insert User db (users_id_seq db) now r) as [[u0 seq]|e] eqn:Hins.
- intros [= <- <-]. apply insert_inv in Hins as [-> Hchk].
  exists r. simpl. done.
- destruct e; try (by intros [=]).
  destruct (contains "email" text); [by intros [=]|].
  destruct (contains "login" text); by intros [=].
Qed.

(** The validator of [email] only lets strings through. *)
Lemma construct_User_email d r :
construct User validate_User d = Return r ->
(exists email, getattr r "email" = VStr email) \/ getattr r "email" = VNone.
Proof.
unfold construct. revert r.
apply (map_fold_weak_ind
         (fun acc (m : dict) => forall r, acc = Return r ->
            (exists email, getattr r "email" = VStr email) \/
            getattr r "email" = VNone)).
- intros r [= <-]. by right.
- intros i x m acc Hi IH r Hacc. unfold_result.
  destruct acc as [r0|e]; [|discriminate].
  destruct (mem i (t_columns User)) eqn:Hcol; [|discriminate].
  unfold setattr in Hacc. unfold_result. rewrite Hcol in Hacc.
  destruct (validate_User i x) as [v'|e] eqn:Hval; [|discriminate].
  injection Hacc as <-.
  destruct (decide (i = "email")) as [->|Hne].
  + rewrite getattr_insert_eq. unfold validate_User in Hval. simpl in Hval.
    destruct x; try discriminate.
    destruct (email_validator s); [|discriminate].
    injection Hval as <-. eauto.
  + rewrite getattr_insert_ne by done. by apply IH.
Qed.

(** A user that [create_user] returned is found by id, email and login. *)
Lemma create_user_found db d now db' u :
Crud.create_user db d now = (db', Return u) ->
(forall i, getattr u "id" = VInt i -> Crud.get_user db' i = Some u) /\
(exists email, getattr u "email" = VStr email /\
               Crud.get_user_by_email db' email = Some u) /\
(forall login, getattr u "login" = VStr login ->
               Crud.get_user_by_login db' login = Some u) /\
is_not_None (getattr u "password_hash") = true.
Proof.
intros (r & Hr & Hu & Hchk & Husers & _)%create_user_Return.
pose proof (check_insert_fresh_id _ _ _ Hchk) as Hfresh. simpl in Hfresh.
assert (Hnn : forall c, c ∈ ["email"; "login"; "password_hash"] ->
                is_not_None (getattr u c) = true)
  by (intros c Hc; by apply (check_insert_not_null User db u c)).
assert (Huq : forall c, c ∈ ["email"; "login"] ->
          List.find (fun r => bool_decide (getattr r c = getattr u c)) (users db) = None).
{ intros c Hc. apply (check_insert_unique User db u c Hchk); [done|].
  apply Hnn. clear -Hc. apply elem_of_cons in Hc as [->|Hc]; [elem_tac|].
  apply elem_of_cons in Hc as [->|Hc]; [elem_tac|]. by apply elem_of_nil in Hc. }
assert (Hemail : exists email, getattr u "email" = VStr email).
{ assert (Hre : (exists email, getattr r "email" = VStr email) \/
                getattr r "email" = VNone).
  { destruct (if dict_mem "password" d then _ else Return d) as [d'|e];
      [|discriminate].
    by apply (construct_User_email d'). }
  assert (Hur : getattr u "email" = getattr r "email").
  { rewrite Hu, with_defaults_other by not_elem_tac.
    destruct (is_not_None (getattr r "id")); [done|].
    by rewrite getattr_insert_ne. }
  destruct Hre as [[email Hre]|Hre].
  - exists email. by rewrite Hur.
  - specialize (Hnn "email" ltac:(elem_tac)). rewrite Hur, Hre in Hnn. done. }
repeat apply conj.
- intros i Hi. unfold Crud.get_user. rewrite Husers.
  apply first_by_id_appended; [|done]. by rewrite <- Hi.
- destruct Hemail as [email Hemail]. exists email. split; [done|].
  unfold Crud.get_user_by_email. rewrite Husers.
  specialize (Huq "email" ltac:(elem_tac)). rewrite Hemail in Huq. simpl in Huq.
  rewrite find_app_none by done. simpl. by rewrite Hemail, bool_decide_eq_true_2.
- intros login Hlogin. unfold Crud.get_user_by_login. rewrite Husers.
  specialize (Huq "login" ltac:(elem_tac)). rewrite Hlogin in Huq. simpl in Huq.
  rewrite find_app_none by done. simpl. by rewrite Hlogin, bool_decide_eq_true_2.
- apply Hnn. elem_tac.
Qed.

(** X1. A user that [create_user] returned is found again: by its id,
    by its email and by its login. *)
Theorem create_user_then_lookup db d now db' u :
Crud.create_user db d now = (db', Return u) ->
(forall i, getattr u "id" = VInt i -> Crud.get_user db' i = Some u) /\
(exists email, getattr u "email" = VStr email /\
               Crud.get_user_by_email db' email = Some u) /\
(forall login, getattr u "login" = VStr login ->
               Crud.get_user_by_login db' login = Some u) /\
is_not_None (getattr u "password_hash") = true.
Proof. apply create_user_found. Qed.

End RoundTrips.

(** X1 at work: a third user registers with the sample blog and is
    found by login. *)
Lemma create_user_then_lookup_witness :
let user_data : dict := {[ "email" := VStr "carol@example.com";
                           "login" := VStr "carol";
                           "password" := VStr "secret123" ]} in
let created := @Crud.create_user Sample.environment Sample.blog user_data
                 Sample.evening in
Sample.is_found (Crud.get_user_by_login created.1 "carol") = true.
Proof.
intros user_data created.
assert (Hret : Sample.creates_row created.2 = true) by (vm_compute; reflexivity).
destruct (@create_user_then_lookup Sample.environment Sample.blog user_data
            Sample.evening created.1 (Sample.created_row created.2)
            (creates_row_eq created Hret)) as (_ & _ & Hlogin & _).
rewrite (Hlogin "carol"); [reflexivity|]. vm_compute. reflexivity.
Defined.

Section PostRoundTrip.
Context `{External}.

(** X2. A post created through [POST /posts] carries the title and the
    content of the request and the id of the acting user as its author,
    and reading it by its id, with [get_post] or [get_post_or_404],
    gives the post that was returned. *)
Theorem create_post_then_read db (m : Schemas.PostCreate) current_user
  t_slug t_pub now db' p :
Routes.create_post db m current_user t_slug t_pub now = (db', Ok 201 p) ->
getattr p "title" = VStr (Schemas.pc_title m) /\
getattr p "content" = VStr (Schemas.pc_content m) /\
getattr p "author_id" = getattr current_user "id" /\
has_id (users db) (getattr current_user "id") = true /\
(forall i, getattr p "id" = VInt i ->
   Crud.get_post db' i = Some p /\
   Dependencies.get_post_or_404 db' i = Ok 200 p).
Proof.
unfold Routes.create_post.
set (d := <["author_id" := getattr current_user "id"]>
            (Schemas.PostCreate_model_dump m)).
destruct (Crud.create_post db d t_slug t_pub now) as [db1 [p1|e]] eqn:Hc.
2:{ destruct e; intros [=]. }
intros [= <- <-].
apply create_post_inv in Hc as (title & seq & _ & Hins & Hposts & _).
simpl in Hins. apply insert_inv in Hins as [Hp Hchk].
set (d1 := <["slug" := _]> (popped d)) in *.
set (d2 := if truthy (dict_get d1 "is_published") then _ else d1) in *.
set (d3 := if is_not_None (getattr d2 "id") then d2 else _) in *.
assert (Hd : forall c v, d !! c = Some v -> c <> "id" -> c <> "slug" ->
               c <> "published_at" -> c <> "category_ids" -> c <> "categories" ->
               c ∉ (t_defaults Post).*1 -> c ∉ t_server_now Post ->
               getattr p1 c = v).
{ intros c v Hv ? ? ? ? ? ? ?. rewrite Hp, with_defaults_other by done.
  assert (getattr d3 c = getattr d2 c) as ->.
  { unfold d3. destruct (is_not_None _); [done|]. by rewrite getattr_insert_ne. }
  assert (getattr d2 c = getattr d1 c) as ->.
  { unfold d2. destruct (truthy _); [|done]. by rewrite getattr_insert_ne. }
  unfold d1. rewrite getattr_insert_ne by done.
  unfold getattr. by rewrite popped_lookup, Hv. }
assert (Hnotin : forall c, c ∈ ["title"; "content"; "author_id"] ->
                   c ∉ (t_defaults Post).*1 /\ c ∉ t_server_now Post).
{ intros c Hc.
  repeat (apply elem_of_cons in Hc as [->|Hc]; [split; not_elem_tac|]).
  by apply elem_of_nil in Hc. }
assert (Hauthor : getattr p1 "author_id" = getattr current_user "id").
{ apply Hd; try done; try (apply Hnotin; elem_tac);
    unfold d; by rewrite lookup_insert_eq. }
repeat apply conj.
- apply Hd; try done; try (apply Hnotin; elem_tac);
    unfold d, Schemas.PostCreate_model_dump; by simplify_map_eq.
- apply Hd; try done; try (apply Hnotin; elem_tac);
    unfold d, Schemas.PostCreate_model_dump; by simplify_map_eq.
- done.
- rewrite <- Hauthor.
  apply (check_insert_foreign_key Post db p1 "author_id" "users" Hchk).
  + elem_tac.
  + apply (check_insert_not_null Post db p1 "author_id" Hchk). elem_tac.
- intros i Hi.
  assert (Hget : Crud.get_post db1 i = Some p1).
  { unfold Crud.get_post. rewrite Hposts. apply first_by_id_appended; [|done].
    rewrite <- Hi. apply (check_insert_fresh_id Post db p1 Hchk). }
  split; [done|]. unfold Dependencies.get_post_or_404. by rewrite Hget.
Qed.

End PostRoundTrip.

Lemma status_ok_eq {A} (x : A * response row) st :
st <> 0 -> Sample.status_ok x.2 = st -> x = (x.1, Ok st (Sample.body_row x.2)).
Proof. destruct x as [a [st' r|st' msg]]; simpl; [by intros _ ->|congruence]. Qed.

(** X2 at work: the second user of the sample blog posts "Fresh". *)
Lemma create_post_then_read_witness :
let request := {| Schemas.pc_title := "Fresh"; Schemas.pc_content := "Text";
                  Schemas.pc_summary := None; Schemas.pc_is_published := true;
                  Schemas.pc_category_ids := None |} in
let created := @Routes.create_post Sample.environment Sample.blog request
                 (Sample.user 2 "bob@example.com" "bobby")
                 Sample.evening Sample.evening Sample.evening in
getattr (Sample.body_row created.2) "title" = VStr "Fresh".
Proof.
intros request created.
assert (Hok : Sample.status_ok created.2 = 201) by (vm_compute; reflexivity).
destruct (@create_post_then_read Sample.environment Sample.blog request
            (Sample.user 2 "bob@example.com" "bobby")
            Sample.evening Sample.evening Sample.evening
            created.1 (Sample.body_row created.2)
            (status_ok_eq created 201 ltac:(done) Hok)) as (Htitle & _).
exact Htitle.
Defined.
(* ===================================================================== *)
(** ** The prototype store along a history *)
(* ===================================================================== *)

Lemma any_user_false pred s :
Storage.any_user pred s = false <->
forall k u, Storage.users s !! k = Some u -> pred u = false.
Proof.
unfold Storage.any_user. split.
- intros Hex k u Hu.
  destruct (pred u) eqn:Hp; [|done].
  rewrite <- Hex. symmetry. apply existsb_exists. exists u. split; [|done].
  apply list_elem_of_In, list_elem_of_fmap. exists (k, u). split; [done|].
  by apply elem_of_map_to_list.
- intros Hall. destruct (existsb _ _) eqn:Hex; [|done].
  apply existsb_exists in Hex as (u & Hin & Hp).
  apply list_elem_of_In, list_elem_of_fmap in Hin as ([k u'] & -> & Hin).
  apply elem_of_map_to_list in Hin. simpl in Hp. by rewrite (Hall k u' Hin) in Hp.
Qed.

(** What a successful [Store.create_user] has done. *)
Lemma Store_create_user_inv s data t1 t2 s' u :
Storage.create_user s data t1 t2 = (s', Return u) ->
(forall k u0, Storage.users s !! k = Some u0 ->
   Storage.ur_email u0 <> Storage.uc_email data /\
   Storage.ur_login u0 <> Storage.uc_login data) /\
u = {| Storage.ur_id := Storage._user_seq s + 1;
       Storage.ur_email := Storage.uc_email data;
       Storage.ur_login := Storage.uc_login data;
       Storage.ur_createdAt := t1; Storage.ur_updatedAt := t2 |} /\
Storage.users s' = <[Storage._user_seq s + 1 := u]> (Storage.users s) /\
Storage.posts s' = Storage.posts s /\
Storage._user_seq s' = Storage._user_seq s + 1 /\
Storage._post_seq s' = Storage._post_seq s.
Proof.
unfold Storage.create_user.
destruct (Storage.any_user _ s) eqn:He; [discriminate|].
destruct (Storage.any_user (fun u => bool_decide (Storage.ur_login u = _)) s)
  eqn:Hl; [discriminate|].
rewrite any_user_false in He. rewrite any_user_false in Hl.
intros [= <- <-]. simpl. repeat split; try done.
- specialize (He _ _ H). by apply bool_decide_eq_false in He.
- specialize (Hl _ _ H). by apply bool_decide_eq_false in Hl.
Qed.

(** What a successful [Store.update_user] has checked. *)
Lemma Store_update_user_inv s user_id data t s' u' :
Storage.update_user s user_id data t = (s', Return u') ->
exists u,
  Storage.users s !! user_id = Some u /\
  (forall k u0 e, Storage.uu_email data = Some e ->
     Storage.users s !! k = Some u0 -> Storage.ur_email u0 = e ->
     Storage.ur_id u0 = user_id) /\
  (forall k u0 l, Storage.uu_login data = Some l ->
     Storage.users s !! k = Some u0 -> Storage.ur_login u0 = l ->
     Storage.ur_id u0 = user_id) /\
  Storage._user_seq s' = Storage._user_seq s /\
  Storage._post_seq s' = Storage._post_seq s.
Proof.
unfold Storage.update_user.
destruct (Storage.users s !! user_id) as [u|]; [|discriminate].
destruct (match Storage.uu_email data with Some _ => _ | None => false end)
  eqn:He; [discriminate|].
destruct (match Storage.uu_login data with Some _ => _ | None => false end)
  eqn:Hl; [discriminate|].
intros [= <- <-]. exists u. simpl. repeat split; try done.
- intros k u0 e Hd Hu0 Hemail. rewrite Hd in He.
  rewrite any_user_false in He. specialize (He k u0 Hu0). simpl in He.
  rewrite bool_decide_eq_true_2 in He by done. simpl in He.
  apply negb_false_iff in He. by apply bool_decide_eq_true in He.
- intros k u0 l Hd Hu0 Hlogin. rewrite Hd in Hl.
  rewrite any_user_false in Hl. specialize (Hl k u0 Hu0). simpl in Hl.
  rewrite bool_decide_eq_true_2 in Hl by done. simpl in Hl.
  apply negb_false_iff in Hl. by apply bool_decide_eq_true in Hl.
Qed.

(** Each operation keeps the three invariants together: the check of
    [update_user] compares ids, so it needs the records to be filed
    under their ids, and a new id must not be in use. *)
Lemma store_run_keeps_invariants s c :
store_keys s /\ store_unique s /\ store_integrity s ->
store_keys (store_run s c) /\ store_unique (store_run s c) /\
store_integrity (store_run s c).
Proof.
intros (Hk & Huq & Hint). pose proof Hk as [Hku Hkp].
destruct c; cbn [store_run].
- (* create_user *)
  destruct (Storage.create_user s data t1 t2) as [s' [u|e]] eqn:Hc.
  2:{ revert Hc. unfold Storage.create_user.
      destruct (Storage.any_user _ s); [by intros [= <- _]|].
      destruct (Storage.any_user _ s); [by intros [= <- _]|]. discriminate. }
  apply Store_create_user_inv in Hc as (Hnew & Hu & Husers & Hposts & Hseq & Hpseq).
  cbn [fst].
  assert (Hfresh : Storage.users s !! (Storage._user_seq s + 1) = None).
  { destruct (Storage.users s !! _) as [u0|] eqn:Hu0; [|done].
    destruct (Hku _ _ Hu0). lia. }
  repeat apply conj.
  + intros k u0. rewrite Husers, Hseq, lookup_insert_Some.
    intros [[<- <-]|[Hne Hu0]].
    * split; [by rewrite Hu|lia].
    * destruct (Hku k u0 Hu0). split; [done|lia].
  + intros k p. rewrite Hposts, Hpseq. apply Hkp.
  + intros k1 k2 u1 u2. rewrite Husers, !lookup_insert_Some.
    intros [[<- <-]|[Hne1 Hu1]] [[<- <-]|[Hne2 Hu2]] Hsame; try done.
    * destruct (Hnew _ _ Hu2). rewrite Hu in Hsame. simpl in Hsame.
      destruct Hsame; congruence.
    * destruct (Hnew _ _ Hu1). rewrite Hu in Hsame. simpl in Hsame.
      destruct Hsame; congruence.
    * by eapply Huq.
  + intros pid p. rewrite Hposts, Husers. intros Hp.
    apply lookup_insert_is_Some'. right. by eapply Hint.
- (* update_user *)
  destruct (Storage.update_user s user_id data t) as [s' [u'|e]] eqn:Hc.
  2:{ revert Hc. unfold Storage.update_user.
      destruct (Storage.users s !! user_id); [|by intros [= <- _]].
      destruct (match Storage.uu_email data with Some _ => _ | None => false end);
        [by intros [= <- _]|].
      destruct (match Storage.uu_login data with Some _ => _ | None => false end);
        [by intros [= <- _]|]. discriminate. }
  pose proof (Store_update_user_inv _ _ _ _ _ _ Hc)
    as (u & Hu & Hemail & Hlogin & Hseq & Hpseq).
  apply Store_update_user_frame in Hc
    as (u0 & Hu0 & Husers & Hposts & Hid & _ & _ & He' & Hl').
  rewrite Hu in Hu0. injection Hu0 as <-.
  destruct (Hku _ _ Hu) as [Huid Hule].
  cbn [fst].
  assert (Hclash : forall k2 u2, k2 <> user_id -> Storage.users s !! k2 = Some u2 ->
            Storage.ur_email u' = Storage.ur_email u2 \/
            Storage.ur_login u' = Storage.ur_login u2 -> False).
  { intros k2 u2 Hne Hu2 [Hsame|Hsame].
    - rewrite He' in Hsame. destruct (Storage.uu_email data) as [e|] eqn:Hd;
        simpl in Hsame.
      + pose proof (Hemail k2 u2 e eq_refl Hu2 (eq_sym Hsame)) as Hid2.
        destruct (Hku _ _ Hu2). congruence.
      + apply Hne. symmetry. eapply Huq; eauto.
    - rewrite Hl' in Hsame. destruct (Storage.uu_login data) as [l|] eqn:Hd;
        simpl in Hsame.
      + pose proof (Hlogin k2 u2 l eq_refl Hu2 (eq_sym Hsame)) as Hid2.
        destruct (Hku _ _ Hu2). congruence.
      + apply Hne. symmetry. eapply Huq; eauto. }
  repeat apply conj.
  + intros k u0. rewrite Husers, Hseq, lookup_insert_Some.
    intros [[<- <-]|[Hne Hu0]].
    * split; [congruence|done].
    * by apply Hku.
  + intros k p. rewrite Hposts, Hpseq. apply Hkp.
  + intros k1 k2 u1 u2. rewrite Husers, !lookup_insert_Some.
    intros [[<- <-]|[Hne1 Hu1]] [[<- <-]|[Hne2 Hu2]] Hsame; try done.
    * exfalso. by eapply (Hclash k2 u2).
    * exfalso. eapply (Hclash k1 u1); [done|done|]. destruct Hsame; auto.
    * by eapply Huq.
  + intros pid p. rewrite Hposts, Husers. intros Hp.
    apply lookup_insert_is_Some'. right. by eapply Hint.
- (* delete_user *)
  unfold Storage.delete_user.
  destruct (Storage.users s !! user_id) as [u|] eqn:Hu; [|done].
  cbn [fst]. repeat apply conj; unfold store_unique, store_integrity; simpl.
  + intros k u0 [_ Hu0]%lookup_delete_Some. by apply Hku.
  + intros k p [Hp _]%map_lookup_filter_Some. by apply Hkp.
  + intros k1 k2 u1 u2 [_ Hu1]%lookup_delete_Some [_ Hu2]%lookup_delete_Some.
    by eapply Huq.
  + intros pid p [Hp Hne]%map_lookup_filter_Some. simpl in Hne.
    rewrite lookup_delete_ne by done. by eapply Hint.
- (* create_post *)
  unfold Storage.create_post.
  destruct (Storage.users s !! Storage.pc_authorId data) as [a|] eqn:Ha; [|done].
  cbn [fst]. repeat apply conj; unfold store_unique, store_integrity; simpl; try done.
  + intros k p. rewrite lookup_insert_Some.
    intros [[<- <-]|[Hne Hp]]; simpl.
    * split; [done|lia].
    * destruct (Hkp k p Hp). split; [done|lia].
  + intros pid p. rewrite lookup_insert_Some.
    intros [[<- <-]|[Hne Hp]]; simpl; [by rewrite Ha|by eapply Hint].
- (* update_post *)
  destruct (Storage.update_post s post_id data t) as [s' [p'|e]] eqn:Hc.
  2:{ revert Hc. unfold Storage.update_post.
      destruct (Storage.posts s !! post_id); [|by intros [= <- _]].
      destruct (Storage.users s !! _); [|by intros [= <- _]]. discriminate. }
  cbn [fst]. revert Hc. unfold Storage.update_post.
  destruct (Storage.posts s !! post_id) as [p|] eqn:Hp; [|discriminate].
  destruct (Storage.users s !! _) as [a|] eqn:Ha; [|discriminate].
  intros [= <- <-]. repeat apply conj; unfold store_unique, store_integrity; simpl; try done.
  + intros k q. rewrite lookup_insert_Some.
    intros [[<- <-]|[Hne Hq]]; simpl; [|by apply Hkp].
    by apply Hkp.
  + intros pid q. rewrite lookup_insert_Some.
    intros [[<- <-]|[Hne Hq]]; simpl; [by rewrite Ha|by eapply Hint].
- (* delete_post *)
  unfold Storage.delete_post.
  destruct (Storage.posts s !! post_id) as [p|] eqn:Hp; [|done].
  cbn [fst]. repeat apply conj; unfold store_unique, store_integrity; simpl; try done.
  + intros k q [_ Hq]%lookup_delete_Some. by apply Hkp.
  + intros pid q [_ Hq]%lookup_delete_Some. by eapply Hint.
Qed.

Lemma store_history_invariants (cs : list store_command) :
store_keys (foldl store_run empty_store cs) /\
store_unique (foldl store_run empty_store cs) /\
store_integrity (foldl store_run empty_store cs).
Proof.
induction cs as [|c cs IH] using rev_ind.
- unfold store_keys, store_unique, store_integrity, empty_store. simpl.
  repeat apply conj; intros *; by rewrite lookup_empty.
- rewrite foldl_app. simpl. by apply store_run_keeps_invariants.
Qed.

(** X3. In the prototype, whatever operations have run since the store
    was created, no two stored users share an email or a login. *)
Theorem store_history_keeps_users_unique (cs : list store_command) :
forall k1 k2 u1 u2,
  Storage.get_user (foldl store_run empty_store cs) k1 = Some u1 ->
  Storage.get_user (foldl store_run empty_store cs) k2 = Some u2 ->
  k1 <> k2 ->
  Storage.ur_email u1 <> Storage.ur_email u2 /\
  Storage.ur_login u1 <> Storage.ur_login u2.
Proof.
intros k1 k2 u1 u2 H1 H2 Hne.
destruct (store_history_invariants cs) as (_ & Huq & _).
split; intros Hsame; apply Hne; eapply Huq; eauto.
Qed.

(** X4. In the prototype, whatever operations have run since the store
    was created, every stored post has a stored author: [create_post]
    and [update_post] refuse an author that is not stored, and
    [delete_user] takes the posts of the user along. *)
Theorem store_history_has_no_orphans (cs : list store_command) :
forall pid p,
  Storage.get_post (foldl store_run empty_store cs) pid = Some p ->
  exists author,
    Storage.get_user (foldl store_run empty_store cs) (Storage.pr_authorId p)
    = Some author /\
    Storage.ur_id author = Storage.pr_authorId p /\ Storage.pr_id p = pid.
Proof.
intros pid p Hp.
destruct (store_history_invariants cs) as ([Hku Hkp] & _ & Hint).
destruct (Hint pid p Hp) as [author Ha]. exists author.
split; [done|]. split; [by apply Hku|by apply Hkp].
Qed.

(** X5. In the prototype, in any state reached since the store was
    created, a user that [create_user] returns gets an id that no stored
    user had, is read back by [get_user], and every user stored before
    is still read back unchanged. *)
Theorem Store_create_user_then_get (cs : list store_command) data t1 t2 s' u :
Storage.create_user (foldl store_run empty_store cs) data t1 t2 = (s', Return u) ->
Storage.get_user (foldl store_run empty_store cs) (Storage.ur_id u) = None /\
Storage.get_user s' (Storage.ur_id u) = Some u /\
Storage.ur_email u = Storage.uc_email data /\
Storage.ur_login u = Storage.uc_login data /\
(forall k u0, Storage.get_user (foldl store_run empty_store cs) k = Some u0 ->
   Storage.get_user s' k = Some u0).
Proof.
set (s := foldl store_run empty_store cs).
intros (_ & Hu & Husers & _)%Store_create_user_inv.
destruct (store_history_invariants cs) as ([Hku _] & _ & _). fold s in Hku.
assert (Hid : Storage.ur_id u = Storage._user_seq s + 1) by (by rewrite Hu).
assert (Hfresh : Storage.users s !! (Storage._user_seq s + 1) = None).
{ destruct (Storage.users s !! _) as [u0|] eqn:Hu0; [|done].
  destruct (Hku _ _ Hu0). lia. }
unfold Storage.get_user. rewrite Husers, Hid. repeat apply conj.
- done.
- by rewrite lookup_insert_eq.
- by rewrite Hu.
- by rewrite Hu.
- intros k u0 Hu0. rewrite lookup_insert_ne; [done|]. congruence.
Qed.
(** X3 at work: the two users of the sample history. *)
Lemma store_history_keeps_users_unique_witness :
exists u1 u2,
  Storage.get_user (foldl store_run empty_store Sample.prototype_history) 1 = Some u1 /\
  Storage.get_user (foldl store_run empty_store Sample.prototype_history) 2 = Some u2 /\
  Storage.ur_email u1 <> Storage.ur_email u2 /\
  Storage.ur_login u1 <> Storage.ur_login u2.
Proof.
eexists. eexists.
split; [vm_compute; reflexivity|]. split; [vm_compute; reflexivity|].
apply (store_history_keeps_users_unique Sample.prototype_history 1 2).
- vm_compute. reflexivity.
- vm_compute. reflexivity.
- done.
Defined.

(** X4 at work: the post of the sample history has its author. *)
Lemma store_history_has_no_orphans_witness :
exists p author,
  Storage.get_post (foldl store_run empty_store Sample.prototype_history) 1 = Some p /\
  Storage.get_user (foldl store_run empty_store Sample.prototype_history)
    (Storage.pr_authorId p) = Some author.
Proof.
eexists.
destruct (store_history_has_no_orphans Sample.prototype_history 1 _
            ltac:(vm_compute; reflexivity)) as (author & Ha & _).
exists author. split; [vm_compute; reflexivity|exact Ha].
Defined.

(** X5 at work: a third user registers after the sample history. *)
Lemma Store_create_user_then_get_witness :
let created := Storage.create_user
                 (foldl store_run empty_store Sample.prototype_history)
                 Sample.carol Sample.evening Sample.evening in
exists u, created.2 = Return u /\ Storage.get_user created.1 (Storage.ur_id u) = Some u.
Proof.
intros created. eexists. split; [vm_compute; reflexivity|].
apply (Store_create_user_then_get Sample.prototype_history Sample.carol
         Sample.evening Sample.evening created.1).
vm_compute. reflexivity.
Defined.
(* ===================================================================== *)
(** ** Following and unfollowing, adding and removing a favorite *)
(* ===================================================================== *)

Lemma set_subscriptions_same db : set_subscriptions db (subscriptions db) = db.
Proof. by destruct db. Qed.

Lemma set_favorites_same db : set_favorites db (favorites db) = db.
Proof. by destruct db. Qed.

Lemma filter_negb_appended {A} (f : A -> bool) l x :
List.find f l = None -> f x = true ->
List.filter (fun y => negb (f y)) (l ++ [x]) = l.
Proof.
intros Hnone Hx. rewrite List.filter_app, filter_negb_none by done.
simpl. rewrite Hx. simpl. apply app_nil_r.
Qed.

Lemma find_appended {A} (f : A -> bool) l x :
List.find f l = None -> f x = true -> List.find f (l ++ [x]) = Some x.
Proof. intros Hnone Hx. rewrite find_app_none by done. simpl. by rewrite Hx. Qed.

Section RoundTripsOfLinks.
Context `{External}.

(** A user is listed by [get_following] exactly when a row of
    [subscriptions] links the follower to the user. *)
Lemma elem_of_get_following db a u :
u ∈ Crud.get_following db a <->
u ∈ users db /\
exists s, s ∈ subscriptions db /\ sub_follower_id s = a /\
          VInt (sub_following_id s) = getattr u "id".
Proof.
unfold Crud.get_following. rewrite list_elem_of_In, in_flat_map. split.
- intros (u' & Hu' & Hin). apply in_flat_map in Hin as (s & Hs & Hin).
  destruct (bool_decide _ && bool_decide _) eqn:Hm; [|by destruct Hin].
  destruct Hin as [->|[]]. apply andb_true_iff in Hm as [H1 H2].
  apply bool_decide_eq_true in H1, H2.
  split; [by apply list_elem_of_In|]. exists s.
  split; [by apply list_elem_of_In|done].
- intros (Hu & s & Hs & Ha & Hb). exists u. split; [by apply list_elem_of_In|].
  apply in_flat_map. exists s. split; [by apply list_elem_of_In|].
  rewrite !bool_decide_eq_true_2 by done. simpl. by left.
Qed.

Lemma elem_of_get_followers db b u :
u ∈ Crud.get_followers db b <->
u ∈ users db /\
exists s, s ∈ subscriptions db /\ sub_following_id s = b /\
          VInt (sub_follower_id s) = getattr u "id".
Proof.
unfold Crud.get_followers. rewrite list_elem_of_In, in_flat_map. split.
- intros (u' & Hu' & Hin). apply in_flat_map in Hin as (s & Hs & Hin).
  destruct (bool_decide _ && bool_decide _) eqn:Hm; [|by destruct Hin].
  destruct Hin as [->|[]]. apply andb_true_iff in Hm as [H1 H2].
  apply bool_decide_eq_true in H1, H2.
  split; [by apply list_elem_of_In|]. exists s.
  split; [by apply list_elem_of_In|done].
- intros (Hu & s & Hs & Ha & Hb). exists u. split; [by apply list_elem_of_In|].
  apply in_flat_map. exists s. split; [by apply list_elem_of_In|].
  rewrite !bool_decide_eq_true_2 by done. simpl. by left.
Qed.

(** What a [follow_user] that returned [True] has done. *)
Lemma follow_user_true db a b now db1 :
Crud.follow_user db a b now = (db1, Return true) ->
a <> b /\
List.find (Crud.subscription_is a b) (subscriptions db) = None /\
has_id (users db) (VInt a) = true /\ has_id (users db) (VInt b) = true /\
db1 = set_subscriptions db
        (subscriptions db ++ [{| sub_follower_id := a; sub_following_id := b;
                                 sub_created_at := now |}]).
Proof.
unfold Crud.follow_user.
destruct (List.find _ _) eqn:Hfind.
{ rewrite bool_decide_eq_true_2 by eauto. discriminate. }
rewrite bool_decide_eq_false_2 by (by intros [? ?]).
destruct (bool_decide (a = b)) eqn:Hab; [discriminate|].
apply bool_decide_eq_false in Hab. simpl.
unfold insert_subscription. simpl.
destruct (existsb _ (subscriptions db)); [discriminate|].
rewrite bool_decide_eq_false_2 by done.
destruct (has_id (users db) (VInt a)); [|discriminate].
destruct (has_id (users db) (VInt b)); [|discriminate]. simpl.
by intros [= <-].
Qed.

(** X6. When [follow_user] returns [True], the two users are stored and
    distinct, [is_following] holds, the followed user is listed by
    [get_following] of the follower and the follower by [get_followers]
    of the followed user; [unfollow_user] then returns [True] and gives
    back the state from before the follow, in which neither listing
    shows the link. *)
Theorem follow_then_unfollow_restores db a b now db1 :
Crud.follow_user db a b now = (db1, Return true) ->
a <> b /\
Crud.is_following db1 a b = true /\
(exists u, u ∈ Crud.get_following db1 a /\ getattr u "id" = VInt b) /\
(exists u, u ∈ Crud.get_followers db1 b /\ getattr u "id" = VInt a) /\
Crud.unfollow_user db1 a b = (db, Return true) /\
Crud.is_following db a b = false /\
(forall u, u ∈ Crud.get_following db a -> getattr u "id" <> VInt b) /\
(forall u, u ∈ Crud.get_followers db b -> getattr u "id" <> VInt a).
Proof.
intros (Hab & Hfind & Ha & Hb & ->)%follow_user_true.
set (new := {| sub_follower_id := a; sub_following_id := b; sub_created_at := now |}).
assert (Hnew : Crud.subscription_is a b new = true).
{ unfold Crud.subscription_is. simpl. by rewrite !bool_decide_eq_true_2. }
assert (Hin : new ∈ subscriptions db ++ [new]).
{ apply elem_of_app. right. apply list_elem_of_here. }
assert (Hnone : forall s, s ∈ subscriptions db ->
                  ~ (sub_follower_id s = a /\ sub_following_id s = b)).
{ intros s Hs [Hsa Hsb]. apply list_elem_of_In in Hs.
  pose proof (find_none _ _ Hfind s Hs) as Hno.
  unfold Crud.subscription_is in Hno.
  by rewrite !bool_decide_eq_true_2 in Hno. }
repeat apply conj.
- done.
- rewrite is_following_find. simpl. by rewrite (find_appended _ _ new).
- apply has_id_elem in Hb as (u & Hu & Hid). exists u. split; [|done].
  apply elem_of_get_following. split; [done|]. exists new. simpl.
  by rewrite Hid.
- apply has_id_elem in Ha as (u & Hu & Hid). exists u. split; [|done].
  apply elem_of_get_followers. split; [done|]. exists new. simpl.
  by rewrite Hid.
- rewrite unfollow_user_spec. simpl.
  rewrite is_following_find. simpl. rewrite (find_appended _ _ new) by done.
  rewrite filter_negb_appended by done. by destruct db.
- rewrite is_following_find. by rewrite Hfind.
- intros u (_ & s & Hs & Hsa & Hsb)%elem_of_get_following Hid.
  apply (Hnone s Hs). split; [done|]. rewrite Hid in Hsb. by injection Hsb.
- intros u (_ & s & Hs & Hsb & Hsa)%elem_of_get_followers Hid.
  apply (Hnone s Hs). split; [|done]. rewrite Hid in Hsa. by injection Hsa.
Qed.

(** What an [add_favorite] that returned [True] has done. *)
Lemma add_favorite_true db u p now db1 :
Crud.add_favorite db u p now = (db1, Return true) ->
List.find (Crud.favorite_is u p) (favorites db) = None /\
has_id (users db) (VInt u) = true /\ has_id (posts db) (VInt p) = true /\
db1 = set_favorites db
        (favorites db ++ [{| fav_user_id := u; fav_post_id := p;
                             fav_created_at := now |}]).
Proof.
unfold Crud.add_favorite.
destruct (List.find _ _) eqn:Hfind; [discriminate|].
unfold insert_favorite. simpl.
destruct (existsb _ (favorites db)); [discriminate|].
destruct (has_id (users db) (VInt u)); [|discriminate].
destruct (has_id (posts db) (VInt p)); [|discriminate]. simpl.
by intros [= <-].
Qed.

(** X7. When [add_favorite] returns [True], the user and the post are
    stored, [is_favorited] holds and exactly one row of [favorites]
    links the two; [remove_favorite] then returns [True] and gives back
    the state from before, and a second [remove_favorite] returns
    [False] and changes nothing. *)
Theorem add_then_remove_favorite_restores db u p now db1 :
Crud.add_favorite db u p now = (db1, Return true) ->
has_id (users db) (VInt u) = true /\ has_id (posts db) (VInt p) = true /\
Crud.is_favorited db u p = false /\
Crud.is_favorited db1 u p = true /\
length (List.filter (Crud.favorite_is u p) (favorites db1)) = 1%nat /\
Crud.remove_favorite db1 u p = (db, Return true) /\
Crud.remove_favorite db u p = (db, Return false).
Proof.
intros (Hfind & Hu & Hp & ->)%add_favorite_true.
set (new := {| fav_user_id := u; fav_post_id := p; fav_created_at := now |}).
assert (Hnew : Crud.favorite_is u p new = true).
{ unfold Crud.favorite_is. simpl. by rewrite !bool_decide_eq_true_2. }
repeat apply conj; try done.
- rewrite is_favorited_find. by rewrite Hfind.
- rewrite is_favorited_find. simpl. by rewrite (find_appended _ _ new).
- simpl. rewrite List.filter_app, filter_none by done. simpl. by rewrite Hnew.
- rewrite remove_favorite_spec. simpl.
  rewrite is_favorited_find. simpl. rewrite (find_appended _ _ new) by done.
  rewrite filter_negb_appended by done. by destruct db.
- rewrite remove_favorite_spec, is_favorited_find, Hfind.
  rewrite filter_negb_none by done. by rewrite set_favorites_same.
Qed.

End RoundTripsOfLinks.

(** X6 at work: the first user of the sample blog follows the second and
    unfollows again. *)
Lemma follow_then_unfollow_restores_witness :
let followed := @Crud.follow_user Sample.environment Sample.blog 1 2 Sample.evening in
Crud.unfollow_user followed.1 1 2 = (Sample.blog, Return true).
Proof.
intros followed.
assert (Hret : followed.2 = Return true) by (vm_compute; reflexivity).
assert (Heq : followed = (followed.1, Return true))
  by (rewrite <- Hret; by destruct followed).
destruct (@follow_then_unfollow_restores Sample.environment Sample.blog 1 2
            Sample.evening followed.1 Heq) as (_ & _ & _ & _ & Hback & _).
exact Hback.
Defined.

(** X7 at work: the first user of the sample blog marks the second post
    and takes the mark back. *)
Lemma add_then_remove_favorite_restores_witness :
let added := @Crud.add_favorite Sample.environment Sample.blog 1 2 Sample.evening in
Crud.remove_favorite added.1 1 2 = (Sample.blog, Return true).
Proof.
intros added.
assert (Hret : added.2 = Return true) by (vm_compute; reflexivity).
assert (Heq : added = (added.1, Return true))
  by (rewrite <- Hret; by destruct added).
destruct (@add_then_remove_favorite_restores Sample.environment Sample.blog 1 2
            Sample.evening added.1 Heq) as (_ & _ & _ & _ & _ & Hback & _).
exact Hback.
Defined.
(* ===================================================================== *)
(** ** Deleting a post, a comment, a category *)
(* ===================================================================== *)

Lemma filter_all_true {A} (f : A -> bool) (l : list A) :
(forall x, x ∈ l -> f x = true) -> List.filter f l = l.
Proof.
induction l as [|a l IH]; simpl; [done|]. intros Hall.
rewrite (Hall a) by apply list_elem_of_here. f_equal.
apply IH. intros x Hx. apply Hall. by apply list_elem_of_further.
Qed.

Lemma dead_user_nobody db v : dead_user nobody db v = false.
Proof. unfold dead_user, nobody. by induction (users db). Qed.

Lemma dead_post_id_nobody db v : dead_post_id nobody nobody db v = false.
Proof.
unfold dead_post_id, dead_post, nobody.
induction (posts db) as [|p l IH]; simpl; [done|].
by rewrite dead_user_nobody.
Qed.

Section DeletePost.
Context `{External}.

(** The post found by [get_post] makes its id a deleted one, and only
    that id. *)
Lemma dead_post_id_of_post db post_id v :
dead_post_id nobody (id_is (VInt post_id)) db v = true ->
v = VInt post_id.
Proof.
unfold dead_post_id. intros (p & _ & Hp)%existsb_exists.
apply andb_true_iff in Hp as [Hdead Hid]. unfold dead_post in Hdead.
rewrite dead_user_nobody, orb_false_r in Hdead.
unfold id_is in *. apply bool_decide_eq_true in Hdead, Hid. congruence.
Qed.

Lemma found_post_is_dead db post_id p :
Crud.get_post db post_id = Some p ->
dead_post_id nobody (id_is (VInt post_id)) db (VInt post_id) = true.
Proof.
intros [Hp Hid]%first_by_id_Some. unfold dead_post_id.
apply (existsb_true_intro _ _ p); [done|].
unfold dead_post, id_is. by rewrite Hid, !bool_decide_eq_true_2.
Qed.

(** Filters and maps that agree on every row give the same table. *)
Lemma existsb_pointwise {A} (f g : A -> bool) (l : list A) :
(forall x, f x = g x) -> existsb f l = existsb g l.
Proof. intros Hfg. induction l as [|x l IH]; simpl; [done|]. by rewrite Hfg, IH. Qed.

Lemma fmap_filter_pointwise {A B} (f g : A -> B) (P Q : A -> bool) (l : list A) :
(forall x, f x = g x) -> (forall x, P x = Q x) ->
f <$> List.filter P l = g <$> List.filter Q l.
Proof.
intros Hfg HPQ. induction l as [|x l IH]; [done|].
cbn [List.filter]. rewrite HPQ. destruct (Q x); [|exact IH].
rewrite !fmap_cons, Hfg. f_equal. exact IH.
Qed.

(** X8. Deleting a stored post with [delete_post] returns [True] and
    removes exactly the post, the comments on it, the favorites that
    mark it and its category links.  The comments that are left are the
    comments on other posts, in their order, each as it was, but for a
    reply to a comment on the deleted post: that one has its
    [parent_id] set to [None] and its [updated_at] set to the time of
    the statement.  The other posts, the users, the categories and the
    follows stay, every reference that is left points at a row that is
    left, the post is answered 404 afterwards and a second
    [delete_post] returns [False]. *)
Theorem delete_post_removes_post_and_dependents db post_id now p :
Crud.get_post db post_id = Some p ->
exists db',
  Crud.delete_post db post_id now = (db', Return true) /\
  Crud.get_post db' post_id = None /\
  Dependencies.get_post_or_404 db' post_id = HTTPException 404 "Post not found" /\
  comments db'
  = (fun c =>
       if is_not_None (getattr c "parent_id") &&
          existsb (fun k => bool_decide (getattr k "post_id" = VInt post_id)
                            && id_is (getattr c "parent_id") k) (comments db)
       then <["updated_at" := VTime now]> (<["parent_id" := VNone]> c)
       else c)
    <$> List.filter (fun c => negb (bool_decide (getattr c "post_id" = VInt post_id)))
                    (comments db) /\
  (forall c', c' ∈ comments db' -> getattr c' "post_id" <> VInt post_id) /\
  (forall c, c ∈ comments db -> getattr c "post_id" <> VInt post_id ->
     exists c', c' ∈ comments db' /\
       (forall f, f <> "parent_id" -> f <> "updated_at" ->
          getattr c' f = getattr c f) /\
       (getattr c "parent_id" = VNone -> c' = c)) /\
  (forall f, f ∈ favorites db' <-> f ∈ favorites db /\ fav_post_id f <> post_id) /\
  (forall g, g ∈ post_categories db' <->
     g ∈ post_categories db /\ pcat_post_id g <> post_id) /\
  (forall q, q ∈ posts db' <-> q ∈ posts db /\ getattr q "id" <> VInt post_id) /\
  users db' = users db /\ categories db' = categories db /\
  subscriptions db' = subscriptions db /\
  (referential_integrity db -> referential_integrity db') /\
  Crud.delete_post db' post_id now = (db', Return false).
Proof.
intros Hget. pose proof (found_post_is_dead _ _ _ Hget) as Hdead.
unfold Crud.delete_post at 1. rewrite Hget. eexists. split; [reflexivity|].
set (db' := delete_cascade nobody (id_is (VInt post_id)) nobody now db).
assert (Hposts : forall q, q ∈ posts db' <->
                   q ∈ posts db /\ getattr q "id" <> VInt post_id).
{ intros q. simpl. rewrite filter_In_elem. unfold dead_post.
  rewrite dead_user_nobody, orb_false_r. unfold id_is.
  rewrite negb_true_iff, bool_decide_eq_false. done. }
assert (Hnone : Crud.get_post db' post_id = None).
{ apply first_by_id_None. intros q Hq. by apply Hposts in Hq as [_ ?]. }
assert (Hkill_value : forall v,
          dead_post_id nobody (id_is (VInt post_id)) db v
          = bool_decide (v = VInt post_id)).
{ intros v. destruct (dead_post_id nobody (id_is (VInt post_id)) db v) eqn:Hd.
  - apply dead_post_id_of_post in Hd. by rewrite bool_decide_eq_true_2.
  - destruct (decide (v = VInt post_id)) as [->|Hne]; [congruence|].
    by rewrite bool_decide_eq_false_2. }
assert (Hkill : forall i, dead_post_id nobody (id_is (VInt post_id)) db (VInt i) = false <->
                  i <> post_id).
{ intros i. rewrite Hkill_value, bool_decide_eq_false.
  split; intros Hne; congruence. }
assert (Hkill_comment : forall c,
          dead_comment nobody (id_is (VInt post_id)) nobody db c
          = bool_decide (getattr c "post_id" = VInt post_id)).
{ intros c. unfold dead_comment. by rewrite dead_user_nobody, Hkill_value. }
assert (Hcomments : comments db'
  = (fun c =>
       if is_not_None (getattr c "parent_id") &&
          existsb (fun k => bool_decide (getattr k "post_id" = VInt post_id)
                            && id_is (getattr c "parent_id") k) (comments db)
       then <["updated_at" := VTime now]> (<["parent_id" := VNone]> c)
       else c)
    <$> List.filter (fun c => negb (bool_decide (getattr c "post_id" = VInt post_id)))
                    (comments db)).
{ simpl. apply fmap_filter_pointwise.
  - intros c. unfold dead_comment_id.
    rewrite (existsb_pointwise _
               (fun k => bool_decide (getattr k "post_id" = VInt post_id)
                         && id_is (getattr c "parent_id") k)); [done|].
    intros k. by rewrite Hkill_comment.
  - intros c. by rewrite Hkill_comment. }
repeat apply conj.
- done.
- unfold Dependencies.get_post_or_404. by rewrite Hnone.
- exact Hcomments.
- intros c' Hc' Hp.
  destruct (surviving_comment_inv _ _ _ _ _ c' Hc') as (c & _ & Hc & Hsame & _).
  rewrite Hsame in Hp by done. unfold dead_comment in Hc. rewrite Hp in Hc.
  by rewrite Hdead, orb_true_r in Hc.
- intros c Hc Hp. rewrite Hcomments. eexists. split.
  + apply list_elem_of_fmap. exists c. split; [reflexivity|].
    apply filter_In_elem. split; [done|]. by rewrite bool_decide_eq_false_2.
  + split.
    * intros f Hf Hf'. destruct (_ && _); [|done]. by rewrite !getattr_insert_ne.
    * intros Hroot. by rewrite Hroot.
- intros f. simpl. rewrite filter_In_elem, dead_user_nobody. simpl.
  by rewrite negb_true_iff, Hkill.
- intros g. simpl. rewrite filter_In_elem.
  by rewrite negb_true_iff, Hkill.
- exact Hposts.
- simpl. by apply filter_all_true.
- done.
- simpl. apply filter_all_true. intros s _. by rewrite !dead_user_nobody.
- apply delete_cascade_keeps_integrity.
- unfold Crud.delete_post. by rewrite Hnone.
Qed.

(** What [delete_comment] kills: the comments with the id, and no user
    or post. *)
Lemma dead_comment_of_comment db comment_id c :
dead_comment nobody nobody (id_is (VInt comment_id)) db c = id_is (VInt comment_id) c.
Proof.
unfold dead_comment. by rewrite dead_user_nobody, dead_post_id_nobody, !orb_false_r.
Qed.

Lemma dead_comment_id_of_comment db comment_id v :
dead_comment_id nobody nobody (id_is (VInt comment_id)) db v = true ->
v = VInt comment_id.
Proof.
unfold dead_comment_id. intros (c & _ & Hc)%existsb_exists.
rewrite dead_comment_of_comment in Hc.
apply andb_true_iff in Hc as [Hdead Hid].
unfold id_is in *. apply bool_decide_eq_true in Hdead, Hid. congruence.
Qed.

Lemma found_comment_is_dead db comment_id c :
Crud.get_comment db comment_id = Some c ->
dead_comment_id nobody nobody (id_is (VInt comment_id)) db (VInt comment_id) = true.
Proof.
intros [Hc Hid]%first_by_id_Some. unfold dead_comment_id.
apply (existsb_true_intro _ _ c); [done|].
rewrite dead_comment_of_comment. unfold id_is.
by rewrite Hid, !bool_decide_eq_true_2.
Qed.

(** X9. Deleting a stored comment with [delete_comment] returns [True]
    and removes the comment alone.  The comments that are left are the
    others, in their order: a reply to the deleted comment stays, with
    its [parent_id] set to [None] and its [updated_at] set to the time
    of the statement, and every other comment stays as it is.  Users,
    posts, favorites and follows are untouched.  The comment is answered
    404 afterwards, every reference that is left points at a row that
    is left, and a second [delete_comment] returns [False]. *)
Theorem delete_comment_detaches_replies db comment_id now c :
Crud.get_comment db comment_id = Some c ->
exists db',
  Crud.delete_comment db comment_id now = (db', Return true) /\
  Crud.get_comment db' comment_id = None /\
  Dependencies.get_comment_or_404 db' comment_id
    = HTTPException 404 "Comment not found" /\
  comments db'
  = (fun r => if bool_decide (getattr r "parent_id" = VInt comment_id)
              then <["updated_at" := VTime now]> (<["parent_id" := VNone]> r)
              else r)
    <$> List.filter (fun r => negb (bool_decide (getattr r "id" = VInt comment_id)))
                    (comments db) /\
  (forall r, r ∈ comments db -> getattr r "id" <> VInt comment_id ->
     (if bool_decide (getattr r "parent_id" = VInt comment_id)
      then <["updated_at" := VTime now]> (<["parent_id" := VNone]> r)
      else r) ∈ comments db') /\
  (forall r', r' ∈ comments db' ->
     getattr r' "parent_id" <> VInt comment_id /\
     exists r, r ∈ comments db /\ getattr r "id" <> VInt comment_id /\
       r' = if bool_decide (getattr r "parent_id" = VInt comment_id)
            then <["updated_at" := VTime now]> (<["parent_id" := VNone]> r)
            else r) /\
  users db' = users db /\ posts db' = posts db /\
  favorites db' = favorites db /\ subscriptions db' = subscriptions db /\
  post_categories db' = post_categories db /\
  (referential_integrity db -> referential_integrity db') /\
  Crud.delete_comment db' comment_id now = (db', Return false).
Proof.
intros Hget. pose proof (found_comment_is_dead _ _ _ Hget) as Hdead.
unfold Crud.delete_comment at 1. rewrite Hget. eexists. split; [reflexivity|].
set (db' := delete_cascade nobody nobody (id_is (VInt comment_id)) now db).
assert (Hkill : forall v, dead_comment_id nobody nobody (id_is (VInt comment_id)) db v
                          = bool_decide (v = VInt comment_id)).
{ intros v. destruct (dead_comment_id _ _ _ _ v) eqn:Hd.
  - apply dead_comment_id_of_comment in Hd. by rewrite bool_decide_eq_true_2.
  - destruct (decide (v = VInt comment_id)) as [->|Hne]; [congruence|].
    by rewrite bool_decide_eq_false_2. }
assert (Hcomments : comments db'
  = (fun r => if bool_decide (getattr r "parent_id" = VInt comment_id)
              then <["updated_at" := VTime now]> (<["parent_id" := VNone]> r)
              else r)
    <$> List.filter (fun r => negb (bool_decide (getattr r "id" = VInt comment_id)))
                    (comments db)).
{ simpl. apply fmap_filter_pointwise.
  - intros r. rewrite Hkill.
    destruct (bool_decide (getattr r "parent_id" = VInt comment_id)) eqn:Hp.
    + apply bool_decide_eq_true in Hp. by rewrite Hp.
    + by rewrite andb_false_r.
  - intros r. by rewrite dead_comment_of_comment. }
assert (Hrows : forall r', r' ∈ comments db' ->
          exists r, r ∈ comments db /\ getattr r "id" <> VInt comment_id /\
            r' = if bool_decide (getattr r "parent_id" = VInt comment_id)
                 then <["updated_at" := VTime now]> (<["parent_id" := VNone]> r)
                 else r).
{ rewrite Hcomments. intros r' (r & -> & Hr)%list_elem_of_fmap.
  apply filter_In_elem in Hr as [Hr Halive].
  apply negb_true_iff in Halive. apply bool_decide_eq_false in Halive.
  exists r. done. }
assert (Hnone : Crud.get_comment db' comment_id = None).
{ apply first_by_id_None. intros r' (r & Hr & Hid & ->)%Hrows.
  destruct (bool_decide _); [by rewrite !getattr_insert_ne|done]. }
repeat apply conj.
- done.
- unfold Dependencies.get_comment_or_404. by rewrite Hnone.
- exact Hcomments.
- intros r Hr Hid. rewrite Hcomments. apply list_elem_of_fmap. exists r.
  split; [done|]. apply filter_In_elem. split; [done|].
  by rewrite bool_decide_eq_false_2.
- intros r' (r & Hr & Hid & ->)%Hrows. split.
  + destruct (bool_decide _) eqn:Hp.
    * rewrite getattr_insert_ne by done. by rewrite getattr_insert_eq.
    * by apply bool_decide_eq_false in Hp.
  + exists r. done.
- simpl. by apply filter_all_true.
- simpl. apply filter_all_true. intros q _. unfold dead_post, nobody.
  by rewrite dead_user_nobody.
- simpl. apply filter_all_true. intros f _.
  by rewrite dead_user_nobody, dead_post_id_nobody.
- simpl. apply filter_all_true. intros s _. by rewrite !dead_user_nobody.
- simpl. apply filter_all_true. intros g _. by rewrite dead_post_id_nobody.
- apply delete_cascade_keeps_integrity.
- unfold Crud.delete_comment. by rewrite Hnone.
Qed.

(** X10. Deleting a stored category with [delete_category] returns
    [True], removes the category and its links to posts and nothing
    else: no post is deleted, the other categories of every post are
    the ones it had, and a second [delete_category] returns [False]. *)
Theorem delete_category_unlinks_posts db category_id c :
Crud.get_category db category_id = Some c ->
exists db',
  Crud.delete_category db category_id = (db', Return true) /\
  Crud.get_category db' category_id = None /\
  Dependencies.get_category_or_404 db' category_id
    = HTTPException 404 "Category not found" /\
  posts db' = posts db /\ users db' = users db /\ comments db' = comments db /\
  (forall g, g ∈ post_categories db' <->
     g ∈ post_categories db /\ pcat_category_id g <> category_id) /\
  (forall pid k, k ∈ Crud.categories_of db' pid <->
     k ∈ Crud.categories_of db pid /\ getattr k "id" <> VInt category_id) /\
  Crud.delete_category db' category_id = (db', Return false).
Proof.
intros Hget. unfold Crud.delete_category at 1. rewrite Hget.
eexists. split; [reflexivity|].
set (db' := set_post_categories _ _).
assert (Hcats : forall k, k ∈ categories db' <->
                  k ∈ categories db /\ getattr k "id" <> VInt category_id).
{ intros k. simpl. rewrite filter_In_elem. unfold id_is.
  by rewrite negb_true_iff, bool_decide_eq_false. }
assert (Hlinks : forall g, g ∈ post_categories db' <->
                   g ∈ post_categories db /\ pcat_category_id g <> category_id).
{ intros g. simpl. rewrite filter_In_elem.
  by rewrite negb_true_iff, bool_decide_eq_false. }
assert (Hnone : Crud.get_category db' category_id = None).
{ apply first_by_id_None. intros k Hk. by apply Hcats in Hk as [_ ?]. }
repeat apply conj; try done.
- unfold Dependencies.get_category_or_404. by rewrite Hnone.
- intros pid k. unfold Crud.categories_of. rewrite !filter_In_elem, Hcats.
  split.
  + intros [[Hk Hid] Hex]. split; [|done]. split; [done|].
    apply existsb_exists in Hex as (g & Hg & Hm).
    apply list_elem_of_In, Hlinks in Hg as [Hg _].
    apply (existsb_true_intro _ _ g); done.
  + intros [[Hk Hex] Hid]. split; [done|].
    apply existsb_exists in Hex as (g & Hg & Hm).
    apply (existsb_true_intro _ _ g); [|done].
    apply Hlinks. split; [by apply list_elem_of_In|].
    apply andb_true_iff in Hm as [_ Hm]. apply bool_decide_eq_true in Hm.
    intros Heq. apply Hid. rewrite <- Hm. by rewrite Heq.
- unfold Crud.delete_category. by rewrite Hnone.
Qed.

End DeletePost.

(** X8 at work: the third post of the sample blog, which has comments
    and a favorite, is deleted. *)
Lemma delete_post_removes_post_and_dependents_witness :
Dependencies.get_post_or_404 (Crud.delete_post Sample.blog 3 Sample.evening).1 3
= HTTPException 404 "Post not found".
Proof.
assert (Hpost : Sample.is_found (Crud.get_post Sample.blog 3) = true)
  by (vm_compute; reflexivity).
destruct (delete_post_removes_post_and_dependents Sample.blog 3 Sample.evening _
            (found_eq _ Hpost)) as (db' & Hdel & _ & H404 & _).
rewrite Hdel. exact H404.
Defined.

(** X9 at work: the second comment of the sample blog, which has a
    reply, is deleted; the reply stays, detached and with the time of
    the statement. *)
Lemma delete_comment_detaches_replies_witness :
let db' := (Crud.delete_comment Sample.blog 2 Sample.evening).1 in
Dependencies.get_comment_or_404 db' 2 = HTTPException 404 "Comment not found" /\
<["updated_at" := VTime Sample.evening]>
  (<["parent_id" := VNone]> (Sample.comment 3 3 2 (VInt 2))) ∈ comments db'.
Proof.
assert (Hc : Sample.is_found (Crud.get_comment Sample.blog 2) = true)
  by (vm_compute; reflexivity).
destruct (delete_comment_detaches_replies Sample.blog 2 Sample.evening _
            (found_eq _ Hc)) as (db' & Hdel & _ & H404 & _ & Hreplies & _).
rewrite Hdel. split; [exact H404|].
assert (Hreply : Sample.comment 3 3 2 (VInt 2) ∈ comments Sample.blog).
{ unfold Sample.blog. cbn [comments].
  do 2 apply list_elem_of_further. apply list_elem_of_here. }
specialize (Hreplies _ Hreply ltac:(vm_compute; discriminate)).
rewrite bool_decide_eq_true_2 in Hreplies by (vm_compute; reflexivity).
exact Hreplies.
Defined.

(** X10 at work: the first category of the sample blog, which the first
    post is filed under, is deleted. *)
Lemma delete_category_unlinks_posts_witness :
Dependencies.get_category_or_404 (Crud.delete_category Sample.blog 1).1 1
= HTTPException 404 "Category not found".
Proof.
assert (Hc : Sample.is_found (Crud.get_category Sample.blog 1) = true)
  by (vm_compute; reflexivity).
destruct (delete_category_unlinks_posts Sample.blog 1 _
            (found_eq _ Hc)) as (db' & Hdel & _ & H404 & _).
rewrite Hdel. exact H404.
Defined.
(* ===================================================================== *)
(** ** Who may write *)
(* ===================================================================== *)

Section AccessControl.
Context `{External}.

Lemma may_write_decide owner_column obj current_user :
negb (bool_decide (getattr obj owner_column = getattr current_user "id"))
&& negb (truthy (getattr current_user "is_admin")) = false
<-> may_write owner_column obj current_user.
Proof.
unfold may_write. rewrite andb_false_iff, !negb_false_iff, bool_decide_eq_true.
done.
Qed.

Lemma verify_post_owner_stranger db post_id p current_user :
Crud.get_post db post_id = Some p ->
~ may_write "author_id" p current_user ->
Dependencies.verify_post_owner db post_id current_user
= HTTPException 403 "Not enough permissions".
Proof.
intros Hget Hno. unfold Dependencies.verify_post_owner, Dependencies.get_post_or_404.
rewrite Hget.
destruct (negb _ && negb _) eqn:Hd; [done|].
by apply may_write_decide in Hd.
Qed.

Lemma verify_post_owner_entitled db post_id p current_user :
Crud.get_post db post_id = Some p ->
may_write "author_id" p current_user ->
Dependencies.verify_post_owner db post_id current_user = Ok 200 p.
Proof.
intros Hget Hyes. unfold Dependencies.verify_post_owner, Dependencies.get_post_or_404.
rewrite Hget. apply may_write_decide in Hyes. by rewrite Hyes.
Qed.

Lemma verify_comment_owner_stranger db comment_id c current_user :
Crud.get_comment db comment_id = Some c ->
~ may_write "user_id" c current_user ->
Dependencies.verify_comment_owner db comment_id current_user
= HTTPException 403 "Not enough permissions".
Proof.
intros Hget Hno.
unfold Dependencies.verify_comment_owner, Dependencies.get_comment_or_404.
rewrite Hget.
destruct (negb _ && negb _) eqn:Hd; [done|].
by apply may_write_decide in Hd.
Qed.

Lemma verify_comment_owner_entitled db comment_id c current_user :
Crud.get_comment db comment_id = Some c ->
may_write "user_id" c current_user ->
Dependencies.verify_comment_owner db comment_id current_user = Ok 200 c.
Proof.
intros Hget Hyes.
unfold Dependencies.verify_comment_owner, Dependencies.get_comment_or_404.
rewrite Hget. apply may_write_decide in Hyes. by rewrite Hyes.
Qed.

(** X11. Only the owner or an administrator writes.  A user who is
    neither the author of a stored post nor an administrator is answered
    403 by [PUT] and [DELETE /posts/{post_id}], whatever the payload, and
    nothing is written; the same holds for a stored comment and
    [PUT] and [DELETE /comments/{comment_id}].  A post or comment that is
    not stored is answered 404.  The author and an administrator are let
    through: their [DELETE] answers 204 and leaves what [delete_post] or
    [delete_comment] leaves. *)
Theorem only_owner_or_admin_writes db current_user :
(forall post_id p,
   Crud.get_post db post_id = Some p ->
   ~ may_write "author_id" p current_user ->
   (forall m t_upd t_pub now,
      Routes.update_post db post_id m current_user t_upd t_pub now
      = (db, HTTPException 403 "Not enough permissions")) /\
   (forall now,
      Routes.delete_post db post_id current_user now
      = (db, HTTPException 403 "Not enough permissions"))) /\
(forall comment_id c,
   Crud.get_comment db comment_id = Some c ->
   ~ may_write "user_id" c current_user ->
   (forall m now,
      Routes.update_comment db comment_id m current_user now
      = (db, HTTPException 403 "Not enough permissions")) /\
   (forall now,
      Routes.delete_comment db comment_id current_user now
      = (db, HTTPException 403 "Not enough permissions"))) /\
(forall post_id,
   Crud.get_post db post_id = None ->
   (forall m t_upd t_pub now,
      Routes.update_post db post_id m current_user t_upd t_pub now
      = (db, HTTPException 404 "Post not found")) /\
   (forall now,
      Routes.delete_post db post_id current_user now
      = (db, HTTPException 404 "Post not found"))) /\
(forall comment_id,
   Crud.get_comment db comment_id = None ->
   (forall m now,
      Routes.update_comment db comment_id m current_user now
      = (db, HTTPException 404 "Comment not found")) /\
   (forall now,
      Routes.delete_comment db comment_id current_user now
      = (db, HTTPException 404 "Comment not found"))) /\
(forall post_id p now,
   Crud.get_post db post_id = Some p ->
   may_write "author_id" p current_user ->
   Routes.delete_post db post_id current_user now
   = ((Crud.delete_post db post_id now).1, Ok 204 "") /\
   Crud.get_post (Crud.delete_post db post_id now).1 post_id = None) /\
(forall comment_id c now,
   Crud.get_comment db comment_id = Some c ->
   may_write "user_id" c current_user ->
   Routes.delete_comment db comment_id current_user now
   = ((Crud.delete_comment db comment_id now).1, Ok 204 "") /\
   Crud.get_comment (Crud.delete_comment db comment_id now).1 comment_id = None).
Proof.
repeat apply conj.
- intros post_id p Hget Hno. split; [intros m t_upd t_pub now|intros now].
  + unfold Routes.update_post.
    by rewrite (verify_post_owner_stranger _ _ _ _ Hget Hno).
  + unfold Routes.delete_post.
    by rewrite (verify_post_owner_stranger _ _ _ _ Hget Hno).
- intros comment_id c Hget Hno. split; [intros m now|intros now].
  + unfold Routes.update_comment.
    by rewrite (verify_comment_owner_stranger _ _ _ _ Hget Hno).
  + unfold Routes.delete_comment.
    by rewrite (verify_comment_owner_stranger _ _ _ _ Hget Hno).
- intros post_id Hget. split; [intros m t_upd t_pub now|intros now].
  + unfold Routes.update_post, Dependencies.verify_post_owner,
      Dependencies.get_post_or_404. by rewrite Hget.
  + unfold Routes.delete_post, Dependencies.verify_post_owner,
      Dependencies.get_post_or_404. by rewrite Hget.
- intros comment_id Hget. split; [intros m now|intros now].
  + unfold Routes.update_comment, Dependencies.verify_comment_owner,
      Dependencies.get_comment_or_404. by rewrite Hget.
  + unfold Routes.delete_comment, Dependencies.verify_comment_owner,
      Dependencies.get_comment_or_404. by rewrite Hget.
- intros post_id p now Hget Hyes. unfold Routes.delete_post.
  rewrite (verify_post_owner_entitled _ _ _ _ Hget Hyes).
  unfold Crud.delete_post. rewrite Hget. simpl. split; [done|].
  apply first_by_id_None. intros q Hq Hid. simpl in Hq.
  apply filter_In_elem in Hq as [_ Hq]. unfold dead_post, id_is in Hq.
  by rewrite Hid, bool_decide_eq_true_2 in Hq.
- intros comment_id c now Hget Hyes. unfold Routes.delete_comment.
  rewrite (verify_comment_owner_entitled _ _ _ _ Hget Hyes).
  unfold Crud.delete_comment. rewrite Hget. simpl. split; [done|].
  apply first_by_id_None. intros q' Hq' Hid.
  destruct (surviving_comment_inv _ _ _ _ _ q' Hq') as (q & _ & Halive & Hsame & _).
  rewrite Hsame in Hid by done. unfold dead_comment, id_is in Halive.
  by rewrite Hid, bool_decide_eq_true_2 in Halive.
Qed.

End AccessControl.

(** X11 at work: the second user of the sample blog, who is no
    administrator, asks to delete the first post, which the first user
    wrote. *)
Lemma only_owner_or_admin_writes_witness :
Routes.delete_post Sample.blog 1 (Sample.user 2 "bob@example.com" "bobby")
  Sample.evening
= (Sample.blog, HTTPException 403 "Not enough permissions").
Proof.
assert (Hpost : Sample.is_found (Crud.get_post Sample.blog 1) = true)
  by (vm_compute; reflexivity).
destruct (@only_owner_or_admin_writes Sample.environment Sample.blog
            (Sample.user 2 "bob@example.com" "bobby")) as (Hposts & _).
destruct (Hposts 1 _ (found_eq _ Hpost)) as [_ Hdel]; [|exact (Hdel _)].
unfold may_write. intros [Hauthor|Hadmin].
- vm_compute in Hauthor. discriminate.
- vm_compute in Hadmin. discriminate.
Defined.
(* ===================================================================== *)
(** ** Listings: pages, drafts, the feed *)
(* ===================================================================== *)

Lemma pages_concat {A} (l : list A) (size n : nat) :
concat ((fun k => take size (drop (k * size) l)) <$> seq 0 n) = take (n * size) l.
Proof.
induction n as [|n IH]; [done|].
rewrite seq_S, fmap_app, concat_app, IH. simpl. rewrite app_nil_r.
rewrite take_take_drop. f_equal. lia.
Qed.

Section Listings.
Context `{External}.

(** The page that [page_of] cuts out of a listing. *)
Lemma page_of_window db author_id category_id is_published search
  order_by order listing size page :
Crud.posts_query db author_id category_id is_published search order_by order
  = Return listing ->
1 <= size <= 100 -> 1 <= page ->
page_of db author_id category_id is_published search order_by order size page
= take (Z.to_nat size) (drop (Z.to_nat (page - 1) * Z.to_nat size) listing).
Proof.
intros Hq Hsize Hpage. unfold page_of, Dependencies.get_pagination_params.
destruct (1 <=? page) eqn:E1; [|lia].
destruct (1 <=? size) eqn:E2; [|lia].
destruct (size <=? 100) eqn:E3; [|lia]. simpl.
rewrite (get_posts_window _ _ _ _ _ _ _ _ _ _ Hq) by nia.
by rewrite Z2Nat.inj_mul by lia.
Qed.

(** X12. Pages tile the listing.  For a page size from 1 to 100 and a
    page number from 1 on, [get_pagination_params] accepts the request
    and [get_posts] returns the window of the query that starts at
    [(page - 1) * page_size]; a page has at most [page_size] posts; the
    first [n] pages, one after the other, are the first
    [n * page_size] posts of the query, so that they are the whole
    listing once [n * page_size] reaches its length; and a page past the
    end is empty. *)
Theorem pages_tile_the_listing db author_id category_id is_published search
  order_by order listing size :
Crud.posts_query db author_id category_id is_published search order_by order
  = Return listing ->
1 <= size <= 100 ->
let page := page_of db author_id category_id is_published search order_by order
              size in
(forall k, 1 <= k ->
   Dependencies.get_pagination_params k size
   = Ok 200 {| Dependencies.skip := (k - 1) * size; Dependencies.limit := size |} /\
   Crud.get_posts db ((k - 1) * size) size author_id category_id is_published
     search order_by order = Return (page k) /\
   (length (page k) <= Z.to_nat size)%nat) /\
(forall n : nat,
   concat ((fun k : nat => page (Z.of_nat k)) <$> seq 1 n)
   = take (n * Z.to_nat size) listing) /\
(forall n : nat,
   (length listing <= n * Z.to_nat size)%nat ->
   concat ((fun k : nat => page (Z.of_nat k)) <$> seq 1 n) = listing) /\
(forall k, 1 <= k -> (length listing <= Z.to_nat (k - 1) * Z.to_nat size)%nat ->
   page k = []).
Proof.
intros Hq Hsize page.
assert (Hpage : forall k, 1 <= k ->
          page k = take (Z.to_nat size)
                     (drop (Z.to_nat (k - 1) * Z.to_nat size) listing)).
{ intros k Hk. by apply page_of_window. }
assert (Hcat : forall n : nat,
          concat ((fun k : nat => page (Z.of_nat k)) <$> seq 1 n)
          = take (n * Z.to_nat size) listing).
{ intros n. rewrite <- (pages_concat listing (Z.to_nat size) n).
  rewrite <- fmap_S_seq, <- list_fmap_compose. f_equal.
  apply list_fmap_ext. intros i k _. simpl.
  rewrite Hpage by lia. do 2 f_equal. lia. }
repeat apply conj.
- intros k Hk. repeat apply conj.
  + unfold Dependencies.get_pagination_params.
    destruct (1 <=? k) eqn:E1; [|lia].
    destruct (1 <=? size) eqn:E2; [|lia].
    by destruct (size <=? 100) eqn:E3; [|lia].
  + rewrite (get_posts_window _ _ _ _ _ _ _ _ _ _ Hq) by nia.
    rewrite Hpage by done. by rewrite Z2Nat.inj_mul by lia.
  + rewrite Hpage by done. rewrite length_take. lia.
- exact Hcat.
- intros n Hn. rewrite Hcat. by apply take_ge.
- intros k Hk Hpast. rewrite Hpage by done.
  rewrite drop_ge by done. by rewrite take_nil.
Qed.

(** Every row of the query of [get_posts] is a stored post, and a
    published one when the query asks for that, provided the ORDER BY of
    the engine only reorders rows. *)
Lemma posts_query_rows db author_id category_id is_published search
  order_by order listing :
(forall column ascending rows x,
   x ∈ order_by_column column ascending rows -> x ∈ rows) ->
Crud.posts_query db author_id category_id is_published search order_by order
  = Return listing ->
forall p, p ∈ listing ->
  p ∈ posts db /\
  (truthy is_published = true -> getattr p "is_published" = VBool true).
Proof.
intros Hsort. unfold Crud.posts_query.
set (q1 := if truthy is_published then _ else posts db).
set (q2 := if truthy author_id then _ else q1).
set (q3 := if truthy category_id then _ else q2).
assert (H1 : forall p, p ∈ q1 -> p ∈ posts db /\
               (truthy is_published = true -> getattr p "is_published" = VBool true)).
{ intros p. unfold q1. destruct (truthy is_published).
  - intros [Hp Hpub]%filter_In_elem. apply bool_decide_eq_true in Hpub. done.
  - done. }
assert (H2 : forall p, p ∈ q2 -> p ∈ q1).
{ intros p. unfold q2. destruct (truthy author_id); [|done].
  by intros [Hp _]%filter_In_elem. }
assert (H3 : forall p, p ∈ q3 -> p ∈ q2).
{ intros p. unfold q3. destruct (truthy category_id); [|done].
  by intros [Hp _]%filter_In_elem. }
unfold_result.
destruct (if truthy search then _ else Return q3) as [q4|e] eqn:Hs; [|discriminate].
assert (H4 : forall p, p ∈ q4 -> p ∈ q3).
{ intros p. destruct (truthy search).
  - destruct search; try discriminate. injection Hs as <-.
    by intros [Hp _]%filter_In_elem.
  - by injection Hs as <-. }
intros [= <-] p Hp%Hsort. auto.
Qed.

(** X13. Drafts are not listed.  Provided the ORDER BY of the engine
    only reorders rows, every entry that [GET /posts] lists to a visitor
    or to a user who is no administrator is a stored post with its two
    counts, and the post has [is_published] true, whatever the filters,
    the order and the page. *)
Theorem listings_hide_drafts db current_user author_id category_id search
  order_by order page page_size listed :
(forall column ascending rows x,
   x ∈ order_by_column column ascending rows -> x ∈ rows) ->
match current_user with
| Some u => truthy (getattr u "is_admin") = false
| None => True
end ->
Routes.list_posts db author_id category_id search order_by order page page_size
  current_user = Ok 200 listed ->
forall entry, entry ∈ listed ->
  exists p, entry = Routes.with_stats db p /\
            p ∈ posts db /\ getattr p "is_published" = VBool true.
Proof.
intros Hsort Hplain. unfold Routes.list_posts.
destruct (negb _ || negb _); [discriminate|].
destruct (Dependencies.get_pagination_params page page_size) as [st pg|]; [|discriminate].
assert (Hvis : match current_user with
               | Some u => if truthy (getattr u "is_admin") then VNone else VBool true
               | None => VBool true
               end = VBool true).
{ destruct current_user as [u|]; [|done]. by rewrite Hplain. }
rewrite Hvis. unfold Crud.get_posts. unfold_result.
destruct (Crud.posts_query _ _ _ _ _ _ _) as [q|e] eqn:Hq; [|discriminate].
destruct ((Dependencies.skip pg <? 0) || (Dependencies.limit pg <? 0));
  [discriminate|].
intros [= <-] entry (p & -> & Hp)%list_elem_of_fmap.
apply subseteq_take, subseteq_drop in Hp.
destruct (posts_query_rows _ _ _ _ _ _ _ _ Hsort Hq p Hp) as [Hin Hpub].
exists p. split; [done|]. split; [done|]. by apply Hpub.
Qed.

(** X14. The feed shows followed authors only.  Provided the ORDER BY of
    the engine only reorders rows, every entry of [GET /me/feed] is a
    stored post with its two counts, the post is published, and a row of
    [subscriptions] links the user to the author of the post.  A user
    who follows nobody gets the empty feed. *)
Theorem feed_shows_followed_authors_only db page page_size current_user feed :
(forall column ascending rows x,
   x ∈ order_by_column column ascending rows -> x ∈ rows) ->
Routes.get_feed db page page_size current_user = Ok 200 feed ->
exists me,
  getattr current_user "id" = VInt me /\
  (Crud.get_following db me = [] -> feed = []) /\
  forall entry, entry ∈ feed ->
    exists p s,
      entry = Routes.with_stats db p /\
      p ∈ posts db /\ getattr p "is_published" = VBool true /\
      s ∈ subscriptions db /\ sub_follower_id s = me /\
      getattr p "author_id" = VInt (sub_following_id s).
Proof.
intros Hsort. unfold Routes.get_feed.
destruct (Dependencies.get_pagination_params page page_size) as [st pg|]; [|discriminate].
unfold as_int.
destruct (getattr current_user "id") as [| |me| | |]; try discriminate.
intros Hfeed. exists me. split; [done|]. revert Hfeed.
assert (Hfol : forall v,
          v ∈ (fun user => getattr user "id") <$> Crud.get_following db me ->
          exists s, s ∈ subscriptions db /\ sub_follower_id s = me /\
                    v = VInt (sub_following_id s)).
{ intros v (u & -> & Hu)%list_elem_of_fmap.
  apply elem_of_get_following in Hu as (_ & s & Hs & Hsa & Hsb). eauto. }
revert Hfol.
destruct (Crud.get_following db me) as [|u0 following] eqn:Hf; simpl.
{ intros _ [= <-]. split; [done|]. by intros entry ?%elem_of_nil. }
intros Hfol.
unfold Crud.get_posts. unfold_result.
destruct (Crud.posts_query _ _ _ _ _ _ _) as [q|e] eqn:Hq; [|discriminate].
destruct ((Dependencies.skip pg <? 0) || (Dependencies.limit pg <? 0));
  [discriminate|].
intros [= <-]. split; [discriminate|].
intros entry (p & -> & Hp)%list_elem_of_fmap.
apply filter_In_elem in Hp as [Hp Hauthor].
apply bool_decide_eq_true in Hauthor.
apply subseteq_take, subseteq_drop in Hp.
destruct (posts_query_rows _ _ _ _ _ _ _ _ Hsort Hq p Hp) as [Hin Hpub].
apply Hfol in Hauthor as (s & Hs & Hsa & Hsb).
exists p, s. repeat split; try done. by apply Hpub.
Qed.

End Listings.

(** X12 at work: the third page of the 45 posts of the sample archive,
    in pages of 20. *)
Lemma pages_tile_the_listing_witness :
@Crud.get_posts Sample.environment Sample.archive ((3 - 1) * 20) 20 VNone VNone
  (VBool true) VNone "created_at" "desc"
= Return (@page_of Sample.environment Sample.archive VNone VNone (VBool true)
            VNone "created_at" "desc" 20 3).
Proof.
assert (Hq : Sample.lists (@Crud.posts_query Sample.environment Sample.archive
                             VNone VNone (VBool true) VNone "created_at" "desc")
             = true) by (vm_compute; reflexivity).
destruct (@pages_tile_the_listing Sample.environment Sample.archive
            VNone VNone (VBool true) VNone "created_at" "desc" _ 20
            (lists_eq _ Hq) ltac:(lia)) as (Hpages & _).
destruct (Hpages 3 ltac:(lia)) as (_ & Hpage & _). exact Hpage.
Defined.

(** X13 at work: a visitor lists the posts of the sample blog. *)
Lemma listings_hide_drafts_witness :
Forall (fun entry =>
          exists p, entry = Routes.with_stats Sample.blog p /\
                    p ∈ posts Sample.blog /\
                    getattr p "is_published" = VBool true)
  match @Routes.list_posts Sample.environment Sample.blog VNone VNone VNone
          "created_at" "desc" 1 20 None with
  | Ok _ listed => listed
  | HTTPException _ _ => []
  end.
Proof.
assert (Hok : Sample.status_ok
                (@Routes.list_posts Sample.environment Sample.blog VNone VNone
                   VNone "created_at" "desc" 1 20 None) = 200)
  by (vm_compute; reflexivity).
destruct (@Routes.list_posts Sample.environment Sample.blog VNone VNone VNone
            "created_at" "desc" 1 20 None) as [st listed|] eqn:Hlist;
  [|discriminate].
cbn [Sample.status_ok] in Hok. subst st. apply Forall_forall. intros entry Hentry.
by apply (@listings_hide_drafts Sample.environment Sample.blog None VNone VNone
            VNone "created_at" "desc" 1 20 listed ltac:(done) I Hlist).
Defined.

(** X14 at work: the feed of the second user of the sample blog, who
    follows the first. *)
Lemma feed_shows_followed_authors_only_witness :
Forall (fun entry =>
          exists p, entry = Routes.with_stats Sample.blog p /\
                    p ∈ posts Sample.blog /\
                    getattr p "is_published" = VBool true)
  match @Routes.get_feed Sample.environment Sample.blog 1 20
          (Sample.user 2 "bob@example.com" "bobby") with
  | Ok _ feed => feed
  | HTTPException _ _ => []
  end.
Proof.
assert (Hok : Sample.status_ok
                (@Routes.get_feed Sample.environment Sample.blog 1 20
                   (Sample.user 2 "bob@example.com" "bobby")) = 200)
  by (vm_compute; reflexivity).
destruct (@Routes.get_feed Sample.environment Sample.blog 1 20
            (Sample.user 2 "bob@example.com" "bobby")) as [st feed|] eqn:Hfeed;
  [|discriminate].
cbn [Sample.status_ok] in Hok. subst st.
apply Forall_forall. intros entry Hentry.
destruct (@feed_shows_followed_authors_only Sample.environment Sample.blog 1 20
            (Sample.user 2 "bob@example.com" "bobby") feed ltac:(done) Hfeed)
  as (me & _ & _ & Hall).
destruct (Hall entry Hentry) as (p & s & -> & Hp & Hpub & _). eauto.
Defined.
(* ===================================================================== *)
(** ** What is stored of a new user *)
(* ===================================================================== *)

Section Defaults.
Variable now : datetime.

Let step (cv : string * value) (r : row) : row :=
if is_not_None (getattr r cv.1) then r else <[cv.1 := cv.2]> r.

Lemma defaults_lookup_other (l : list (string * value)) (r : row) c :
c ∉ l.*1 -> foldr step r l !! c = r !! c.
Proof.
induction l as [|x l IH]; simpl; [done|].
intros [Hne Hc]%not_elem_of_cons. unfold step at 1.
destruct (is_not_None _); [by apply IH|].
rewrite lookup_insert_ne by done. by apply IH.
Qed.

Lemma defaults_fire (l : list (string * value)) (r : row) c v :
NoDup l.*1 -> (c, v) ∈ l -> getattr r c = VNone ->
getattr (foldr step r l) c = v.
Proof.
intros Hnd Hin Hr. induction l as [|x l IH]; simpl in *.
{ by apply elem_of_nil in Hin. }
apply NoDup_cons in Hnd as [Hx Hnd].
apply elem_of_cons in Hin as [<-|Hin]; unfold step at 1; simpl.
- assert (Hc : getattr (foldr step r l) c = VNone).
  { unfold getattr in *. by rewrite defaults_lookup_other. }
  rewrite Hc. simpl. by rewrite getattr_insert_eq.
- destruct (is_not_None _); [by apply IH|].
  rewrite getattr_insert_ne; [by apply IH|].
  intros Heq. apply Hx. rewrite Heq. by apply (list_elem_of_fmap_2 fst _ (c, v)).
Qed.

(** The defaults of [T] only write columns that have one, and a column
    left at [None] gets its default. *)
Lemma with_defaults_lookup_other T (r : row) c :
c ∉ (t_defaults T).*1 -> c ∉ t_server_now T ->
with_defaults T now r !! c = r !! c.
Proof.
intros H1 H2. unfold with_defaults. apply defaults_lookup_other.
rewrite fmap_app, fst_tagged. by intros [?|?]%elem_of_app.
Qed.

Lemma with_defaults_fires T (r : row) c v :
NoDup ((t_defaults T).*1 ++ t_server_now T) -> (c, v) ∈ t_defaults T ->
getattr r c = VNone -> getattr (with_defaults T now r) c = v.
Proof.
intros Hnd Hin Hr. unfold with_defaults. apply defaults_fire; [|by apply elem_of_app; left|done].
by rewrite fmap_app, fst_tagged.
Qed.

End Defaults.

Lemma User_defaults_NoDup : NoDup ((t_defaults User).*1 ++ t_server_now User).
Proof. apply (bool_decide_unpack _). by vm_compute. Qed.

(** What the constructor of a mapped class leaves in each attribute:
    the validated value of the keyword, or nothing. *)
Lemma construct_lookup T validate d r :
construct T validate d = Return r ->
forall f, match d !! f with
          | Some v => f ∈ t_columns T /\
                      exists v', validate f v = Return v' /\ r !! f = Some v'
          | None => r !! f = None
          end.
Proof.
unfold construct. revert r.
apply (map_fold_weak_ind
         (fun acc (m : dict) => forall r, acc = Return r ->
            forall f, match m !! f with
                      | Some v => f ∈ t_columns T /\
                                  exists v', validate f v = Return v' /\
                                             r !! f = Some v'
                      | None => r !! f = None
                      end)).
- intros r [= <-] f. by rewrite !lookup_empty.
- intros i x m acc Hi IH r Hacc f. unfold_result.
  destruct acc as [r0|e]; [|discriminate].
  destruct (mem i (t_columns T)) eqn:Hcol; [|discriminate].
  unfold setattr in Hacc. unfold_result. rewrite Hcol in Hacc.
  destruct (validate i x) as [v'|e] eqn:Hval; [|discriminate].
  injection Hacc as <-. apply mem_true in Hcol.
  destruct (decide (i = f)) as [->|Hne].
  + rewrite !lookup_insert_eq. eauto.
  + rewrite !lookup_insert_ne by done. by apply IH.
Qed.

Section NewUsers.
Context `{External}.

(** The payload that [create_user] hands to the constructor. *)
Lemma hashed_payload d d' :
(if dict_mem "password" d
 then h ← Crud.hash_value (dict_get d "password");
      Return (<["password_hash" := h]> (delete "password" d))
 else Return d) = Return d' ->
d' !! "password" = None /\
(forall f, f <> "password" -> f <> "password_hash" -> d' !! f = d !! f) /\
(forall pw, d !! "password" = Some (VStr pw) ->
   d' !! "password_hash" = Some (VStr (get_password_hash pw))).
Proof.
unfold dict_mem, dict_get.
destruct (bool_decide (is_Some (d !! "password"))) eqn:Hm.
- apply bool_decide_eq_true in Hm as [v Hv]. rewrite Hv. simpl.
  unfold Crud.hash_value. destruct v; try discriminate.
  unfold_result. intros [= <-]. repeat split.
  + rewrite lookup_insert_ne by done. by rewrite lookup_delete_eq.
  + intros f ? ?. rewrite lookup_insert_ne by done. by rewrite lookup_delete_ne.
  + intros pw [= ->]. by rewrite lookup_insert_eq.
- apply bool_decide_eq_false in Hm. intros [= <-].
  assert (Hnone : d !! "password" = None).
  { destruct (d !! "password") eqn:Hp; [|done]. exfalso. apply Hm. eauto. }
  repeat split; try done. intros pw Hpw. congruence.
Qed.

(** What [create_user] stores of a new user. *)
Lemma create_user_stored db d now db' u :
Crud.create_user db d now = (db', Return u) ->
(forall f, f ∉ t_columns User -> u !! f = None) /\
(forall pw, d !! "password" = Some (VStr pw) ->
   getattr u "password_hash" = VStr (get_password_hash pw)) /\
(exists address email,
   d !! "email" = Some (VStr address) /\ email_validator address = inl email /\
   getattr u "email" = VStr email) /\
(exists login n,
   d !! "login" = Some login /\ getattr u "login" = login /\
   len login = Some n /\ (3 <= n <= 50)%nat) /\
(d !! "is_admin" = None -> getattr u "is_admin" = VBool false) /\
(d !! "is_active" = None -> getattr u "is_active" = VBool true).
Proof.
intros (r & Hr & Hu & Hchk & _)%create_user_Return.
destruct (if dict_mem "password" d then _ else Return d) as [d'|e] eqn:Hd;
  [|discriminate].
apply hashed_payload in Hd as (Hpw & Hsame & Hhash).
pose proof (construct_lookup _ _ _ _ Hr) as Hlook.
assert (Hid : forall f, f <> "id" ->
          (if is_not_None (getattr r "id") then r
           else <["id" := VInt (users_id_seq db + 1)]> r) !! f = r !! f).
{ intros f Hf. destruct (is_not_None _); [done|]. by rewrite lookup_insert_ne. }
assert (Hur : forall f, f <> "id" -> f ∉ (t_defaults User).*1 ->
          f ∉ t_server_now User -> u !! f = r !! f).
{ intros f ? ? ?. rewrite Hu, with_defaults_lookup_other by done. by apply Hid. }
assert (Hnn : forall c, c ∈ t_not_null User -> is_not_None (getattr u c) = true)
  by (intros c Hc; by apply (check_insert_not_null User db u c)).
repeat apply conj.
- intros f Hf.
  assert (Hnot : f <> "id" /\ f ∉ (t_defaults User).*1 /\ f ∉ t_server_now User).
  { repeat split; intros Hin; apply Hf.
    - subst f. elem_tac.
    - simpl in Hin. repeat (apply elem_of_cons in Hin as [->|Hin]; [elem_tac|]).
      by apply elem_of_nil in Hin.
    - simpl in Hin. repeat (apply elem_of_cons in Hin as [->|Hin]; [elem_tac|]).
      by apply elem_of_nil in Hin. }
  destruct Hnot as (? & ? & ?). rewrite Hur by done.
  specialize (Hlook f). destruct (d' !! f); [|done]. by destruct Hlook.
- intros pw Hp. specialize (Hhash pw Hp). specialize (Hlook "password_hash").
  rewrite Hhash in Hlook. destruct Hlook as (_ & v' & Hv & Hrv).
  unfold validate_User in Hv. simpl in Hv. injection Hv as <-.
  unfold getattr. rewrite Hur; [by rewrite Hrv|done|not_elem_tac|not_elem_tac].
- specialize (Hnn "email" ltac:(elem_tac)). unfold getattr in Hnn.
  rewrite Hur in Hnn; [|done|not_elem_tac|not_elem_tac].
  specialize (Hlook "email"). rewrite Hsame in Hlook by done.
  destruct (d !! "email") as [v|]; [|by rewrite Hlook in Hnn].
  destruct Hlook as (_ & v' & Hv & Hrv).
  unfold validate_User in Hv. simpl in Hv.
  destruct v as [| | |address| |]; try discriminate.
  destruct (email_validator address) as [email|msg] eqn:He; [|discriminate].
  injection Hv as <-. exists address, email. repeat split; try done.
  unfold getattr. rewrite Hur; [by rewrite Hrv|done|not_elem_tac|not_elem_tac].
- specialize (Hnn "login" ltac:(elem_tac)). unfold getattr in Hnn.
  rewrite Hur in Hnn; [|done|not_elem_tac|not_elem_tac].
  specialize (Hlook "login"). rewrite Hsame in Hlook by done.
  destruct (d !! "login") as [v|]; [|by rewrite Hlook in Hnn].
  destruct Hlook as (_ & v' & Hv & Hrv).
  unfold validate_User in Hv. simpl in Hv.
  destruct (len v) as [n|] eqn:Hlen; [|discriminate].
  destruct (n <? 3)%nat eqn:H3; [discriminate|].
  destruct (50 <? n)%nat eqn:H50; [discriminate|].
  injection Hv as <-. exists v, n. repeat split; try done.
  + unfold getattr. rewrite Hur; [by rewrite Hrv|done|not_elem_tac|not_elem_tac].
  + by apply Nat.ltb_ge in H3.
  + by apply Nat.ltb_ge in H50.
- intros Had. rewrite Hu.
  apply with_defaults_fires; [apply User_defaults_NoDup|elem_tac|].
  unfold getattr. rewrite Hid by done.
  specialize (Hlook "is_admin"). rewrite Hsame, Had in Hlook by done.
  by rewrite Hlook.
- intros Hac. rewrite Hu.
  apply with_defaults_fires; [apply User_defaults_NoDup|elem_tac|].
  unfold getattr. rewrite Hid by done.
  specialize (Hlook "is_active"). rewrite Hsame, Hac in Hlook by done.
  by rewrite Hlook.
Qed.

(** X15. What [create_user] stores of a new user.  The stored row has
    column attributes only, so the clear password is not among them; a
    password given as a string is stored as its hash; the email is the
    normalised form that the validator returned for the address given;
    the login is the one given and has 3 to 50 characters; and a payload
    that does not say otherwise creates an active user who is no
    administrator. *)
Theorem create_user_stores_hash_not_password db d now db' u :
Crud.create_user db d now = (db', Return u) ->
(forall f, f ∉ t_columns User -> u !! f = None) /\
(forall pw, d !! "password" = Some (VStr pw) ->
   getattr u "password_hash" = VStr (get_password_hash pw)) /\
(exists address email,
   d !! "email" = Some (VStr address) /\ email_validator address = inl email /\
   getattr u "email" = VStr email) /\
(exists login n,
   d !! "login" = Some login /\ getattr u "login" = login /\
   len login = Some n /\ (3 <= n <= 50)%nat) /\
(d !! "is_admin" = None -> getattr u "is_admin" = VBool false) /\
(d !! "is_active" = None -> getattr u "is_active" = VBool true).
Proof. apply create_user_stored. Qed.

End NewUsers.

(** X15 at work: a third user joins the sample blog with a password. *)
Lemma create_user_stores_hash_not_password_witness :
let user_data : dict := {[ "email" := VStr "carol@example.com";
                           "login" := VStr "carol";
                           "password" := VStr "secret123" ]} in
let created := @Crud.create_user Sample.environment Sample.blog user_data
                 Sample.evening in
getattr (Sample.created_row created.2) "password_hash" = VStr "hashed:secret123" /\
Sample.created_row created.2 !! "password" = None.
Proof.
intros user_data created.
assert (Hret : Sample.creates_row created.2 = true) by (vm_compute; reflexivity).
destruct (@create_user_stores_hash_not_password Sample.environment Sample.blog
            user_data Sample.evening created.1 (Sample.created_row created.2)
            (creates_row_eq created Hret)) as (Hcols & Hhash & _).
split.
- apply (Hhash "secret123"). vm_compute. reflexivity.
- apply Hcols. not_elem_tac.
Defined.
(* ===================================================================== *)
(** ** Registration *)
(* ===================================================================== *)

Lemma UserCreate_dump_lookup (m : Schemas.UserCreate) :
let d := Schemas.UserCreate_model_dump m in
d !! "email" = Some (VStr (Schemas.uc_email m)) /\
d !! "login" = Some (VStr (Schemas.uc_login m)) /\
d !! "password" = Some (VStr (Schemas.uc_password m)) /\
d !! "is_admin" = None /\ d !! "is_active" = None.
Proof.
unfold Schemas.UserCreate_model_dump. simpl. repeat split; by simplify_map_eq.
Qed.

Section Registration.
Context `{External}.

(** X16. Registration.  When [POST /auth/register] answers 201, the
    email and the login of the request were free; the new user carries
    the normalised email, the login of the request and the hash of its
    password, is active and is no administrator, and is found by email
    and by login afterwards.  A later registration with the stored email
    is answered 400 "Email already registered", one with another, free
    email and the same login 400 "Login already taken", and neither
    writes anything. *)
Theorem register_then_register_again db (m : Schemas.UserCreate) now db' u :
Routes.register db m now = (db', Ok 201 u) ->
Crud.get_user_by_email db (Schemas.uc_email m) = None /\
Crud.get_user_by_login db (Schemas.uc_login m) = None /\
(exists email,
   email_validator (Schemas.uc_email m) = inl email /\
   getattr u "email" = VStr email /\
   Crud.get_user_by_email db' email = Some u) /\
getattr u "login" = VStr (Schemas.uc_login m) /\
Crud.get_user_by_login db' (Schemas.uc_login m) = Some u /\
getattr u "password_hash" = VStr (get_password_hash (Schemas.uc_password m)) /\
u !! "password" = None /\
getattr u "is_admin" = VBool false /\ getattr u "is_active" = VBool true /\
(forall m' now',
   getattr u "email" = VStr (Schemas.uc_email m') ->
   Routes.register db' m' now'
   = (db', HTTPException 400 "Email already registered")) /\
(forall m' now',
   Crud.get_user_by_email db' (Schemas.uc_email m') = None ->
   Schemas.uc_login m' = Schemas.uc_login m ->
   Routes.register db' m' now'
   = (db', HTTPException 400 "Login already taken")).
Proof.
unfold Routes.register at 1.
destruct (Crud.get_user_by_email db _) eqn:Hfree_email; [discriminate|].
destruct (Crud.get_user_by_login db _) eqn:Hfree_login; [discriminate|].
destruct (UserCreate_dump_lookup m) as (Hdemail & Hdlogin & Hdpw & Hdadmin & Hdactive).
set (d := Schemas.UserCreate_model_dump m) in *.
destruct (Crud.create_user db d now) as [db1 [u1|e]] eqn:Hc.
2:{ destruct e; discriminate. }
intros [= <- <-].
destruct (create_user_found _ _ _ _ _ Hc) as (_ & (email' & He' & Hby_email) & Hby_login & _).
destruct (create_user_stored _ _ _ _ _ Hc)
  as (Hcols & Hhash & (address & email & Hd & Hval & He) & (login & n & Hl & Hlogin & _)
      & Hadmin & Hactive).
assert (Haddr : address = Schemas.uc_email m) by congruence.
assert (Hlog : login = VStr (Schemas.uc_login m)) by congruence.
rewrite Haddr in Hval. rewrite Hlog in Hlogin.
assert (email' = email) as -> by congruence.
specialize (Hby_login _ Hlogin). clearbody d.
repeat apply conj; try done.
- exists email. done.
- by apply Hhash.
- apply Hcols. not_elem_tac.
- by apply Hadmin.
- by apply Hactive.
- intros m' now' Hsame. unfold Routes.register.
  assert (email = Schemas.uc_email m') as -> by congruence.
  by rewrite Hby_email.
- intros m' now' Hfree Hsame. unfold Routes.register.
  by rewrite Hfree, Hsame, Hby_login.
Qed.

End Registration.

(** X16 at work: Carol registers with the sample blog, and then once
    more. *)
Lemma register_then_register_again_witness :
let carol := {| Schemas.uc_email := "carol@example.com";
                Schemas.uc_login := "carol";
                Schemas.uc_full_name := Some "Carol";
                Schemas.uc_bio := None; Schemas.uc_avatar_url := None;
                Schemas.uc_password := "secret123" |} in
let registered := @Routes.register Sample.environment Sample.blog carol
                    Sample.evening in
@Routes.register Sample.environment registered.1 carol Sample.evening
= (registered.1, HTTPException 400 "Email already registered").
Proof.
intros carol registered.
assert (Hok : Sample.status_ok registered.2 = 201) by (vm_compute; reflexivity).
destruct (@register_then_register_again Sample.environment Sample.blog carol
            Sample.evening registered.1 (Sample.body_row registered.2)
            (status_ok_eq registered 201 ltac:(done) Hok))
  as (_ & _ & _ & _ & _ & _ & _ & _ & _ & Hagain & _).
apply Hagain. vm_compute. reflexivity.
Defined.
(* ===================================================================== *)
(** ** What an update cannot change *)
(* ===================================================================== *)

Lemma PostUpdate_dump_other (m : Schemas.PostUpdate) f :
f ∉ ["title"; "content"; "summary"; "is_published"; "category_ids"] ->
Schemas.PostUpdate_model_dump m !! f = None.
Proof.
intros Hf. unfold Schemas.PostUpdate_model_dump.
rewrite !dump_field_lookup_ne; [apply lookup_empty|..];
  intros <-; apply Hf; elem_tac.
Qed.

Lemma UserUpdate_dump_other (m : Schemas.UserUpdate) f :
f ∉ ["email"; "login"; "full_name"; "bio"; "avatar_url"; "password"] ->
Schemas.UserUpdate_model_dump m !! f = None.
Proof.
intros Hf. unfold Schemas.UserUpdate_model_dump.
rewrite !dump_field_lookup_ne; [apply lookup_empty|..];
  intros <-; apply Hf; elem_tac.
Qed.

(** The first row with a property is still found once rows are replaced
    by a row that has the property. *)
Lemma find_replaced {A} (f : A -> bool) (g : A -> A) (l : list A) x x' :
List.find f l = Some x -> g x = x' -> f x' = true ->
(forall y, g y = x' \/ g y = y) ->
List.find f (g <$> l) = Some x'.
Proof.
intros Hfind Hx Hx' Hg. induction l as [|y l IH]; simpl in *; [done|].
destruct (f y) eqn:Hy.
- injection Hfind as ->. by rewrite Hx, Hx'.
- destruct (Hg y) as [-> | ->].
  + by rewrite Hx'.
  + rewrite Hy. by apply IH.
Qed.

Section Identity.
Context `{External}.

(** X17. What [PUT /posts/{post_id}] cannot change.  Whatever the
    request, the post that is returned has the id, the author, the slug,
    the view count and the creation time of the stored post, so that a
    new title does not move the post to another slug and a post does not
    change hands; its [updated_at] is the time of the update; looking the
    post up by its id or by its slug afterwards gives the post returned;
    and the other posts, the users and the comments are as they were. *)
Theorem update_post_keeps_identity db post_id (m : Schemas.PostUpdate)
  current_user t_upd t_pub now db' p p' :
Crud.get_post db post_id = Some p ->
Routes.update_post db post_id m current_user t_upd t_pub now = (db', Ok 200 p') ->
(forall f, f ∈ ["id"; "author_id"; "slug"; "view_count"; "created_at"] ->
   getattr p' f = getattr p f) /\
getattr p' "updated_at" = VTime t_upd /\
may_write "author_id" p current_user /\
Crud.get_post db' post_id = Some p' /\
(forall slug, Crud.get_post_by_slug db slug = Some p ->
   Crud.get_post_by_slug db' slug = Some p') /\
(forall q, q ∈ posts db -> getattr q "id" <> VInt post_id -> q ∈ posts db') /\
users db' = users db /\ comments db' = comments db /\
favorites db' = favorites db /\ subscriptions db' = subscriptions db.
Proof.
intros Hget. unfold Routes.update_post.
destruct (Dependencies.verify_post_owner db post_id current_user)
  as [st0 p0|] eqn:Hver; [|discriminate].
assert (Hmay : may_write "author_id" p current_user).
{ revert Hver. unfold Dependencies.verify_post_owner, Dependencies.get_post_or_404.
  rewrite Hget. destruct (negb _ && negb _) eqn:Hd; [discriminate|].
  intros _. unfold may_write.
  apply andb_false_iff in Hd as [Hd|Hd]; apply negb_false_iff in Hd.
  - left. by apply bool_decide_eq_true in Hd.
  - by right. }
set (d := Schemas.PostUpdate_model_dump m).
destruct (Crud.update_post db post_id d t_upd t_pub now) as [db1 [[p1|]|e]] eqn:Hupd;
  [|discriminate|by destruct e].
intros [= <- <-].
assert (Hd : forall f, f ∈ ["id"; "author_id"; "slug"; "view_count"; "created_at"] ->
               dict_get d f = VNone).
{ intros f Hf. unfold dict_get, d. rewrite PostUpdate_dump_other; [done|].
  intros Hin. clear -Hf Hin.
  repeat (apply elem_of_cons in Hf as [->|Hf];
          [revert Hin; not_elem_tac|]).
  by apply elem_of_nil in Hf. }
clearbody d.
destruct (update_post_frame _ _ _ _ _ _ _ _ _ Hget Hupd)
  as (Hframe & _ & _ & _ & Husers & _ & Hcomments & Hfav & Hsub).
assert (Hsame : forall f, f ∈ ["id"; "author_id"; "slug"; "view_count"; "created_at"] ->
                  getattr p1 f = getattr p f).
{ intros f Hf. apply Hframe; [by apply Hd| |];
    intros ->; clear -Hf; revert Hf; not_elem_tac. }
apply update_post_inv in Hupd
  as (p2 & r0 & Hget' & _ & Hp1 & _ & Hposts & _).
rewrite Hget in Hget'. injection Hget' as <-.
destruct (first_by_id_Some _ _ _ Hget) as [Hin Hid].
assert (Hid' : getattr p1 "id" = VInt post_id).
{ rewrite Hsame; [done|elem_tac]. }
set (g := fun r => if id_is (getattr p "id") r then p1 else r) in *.
assert (Hgp : g p = p1).
{ unfold g, id_is. by rewrite bool_decide_eq_true_2. }
assert (Hg : forall y, g y = p1 \/ g y = y).
{ intros y. unfold g. destruct (id_is _ y); auto. }
repeat apply conj; try done.
- rewrite Hp1. unfold updated_post.
  destruct (truthy _ && negb _).
  + rewrite getattr_insert_ne by done. by rewrite getattr_insert_eq.
  + by rewrite getattr_insert_eq.
- unfold Crud.get_post, first_by_id. rewrite Hposts.
  apply (find_replaced _ g _ p); try done.
  unfold id_is. by rewrite Hid', bool_decide_eq_true_2.
- intros slug Hslug. unfold Crud.get_post_by_slug in *. rewrite Hposts.
  apply (find_replaced _ g _ p); try done.
  apply find_some in Hslug as [_ Hslug]. simpl in Hslug.
  apply bool_decide_eq_true in Hslug. apply bool_decide_eq_true.
  rewrite Hsame; [done|elem_tac].
- intros q Hq Hne. rewrite Hposts. apply list_elem_of_fmap. exists q.
  split; [|done]. unfold g, id_is. rewrite Hid.
  by rewrite bool_decide_eq_false_2.
Qed.

(** X18. What [PUT /auth/me] cannot change.  Whatever the request, the
    user that is returned has the id, the administrator flag, the active
    flag and the creation time of the stored user: nobody makes
    themselves an administrator through the profile; a request without
    a password keeps the stored hash and a request with one stores the
    hash of the new password; posts and comments are as they were. *)
Theorem update_current_user_keeps_privileges db (m : Schemas.UserUpdate)
  current_user me now db' u u' :
getattr current_user "id" = VInt me ->
Crud.get_user db me = Some u ->
Routes.update_current_user db m current_user now = (db', Ok 200 u') ->
(forall f, f ∈ ["id"; "is_admin"; "is_active"; "created_at"] ->
   getattr u' f = getattr u f) /\
getattr u' "updated_at" = VTime now /\
(Schemas.uu_password m = Schemas.Unset ->
   getattr u' "password_hash" = getattr u "password_hash") /\
(forall pw, Schemas.uu_password m = Schemas.Given pw -> pw <> "" ->
   getattr u' "password_hash" = VStr (get_password_hash pw)) /\
u' !! "password" = u !! "password" /\
u' ∈ users db' /\
posts db' = posts db /\ comments db' = comments db.
Proof.
intros Hme Hget. unfold Routes.update_current_user.
set (d := Schemas.UserUpdate_model_dump m).
destruct (match d !! "email" with Some _ => _ | None => false end); [discriminate|].
destruct (match d !! "login" with Some _ => _ | None => false end); [discriminate|].
rewrite Hme. simpl.
destruct (Crud.update_user db me d now) as [db1 [[u1|]|e]] eqn:Hupd;
  [|discriminate|by destruct e].
intros [= <- <-].
assert (Hd : forall f, f ∈ ["id"; "is_admin"; "is_active"; "created_at";
                            "password_hash"] ->
               dict_get d f = VNone).
{ intros f Hf. unfold dict_get, d. rewrite UserUpdate_dump_other; [done|].
  intros Hin. clear -Hf Hin.
  repeat (apply elem_of_cons in Hf as [->|Hf];
          [revert Hin; not_elem_tac|]).
  by apply elem_of_nil in Hf. }
assert (Hpw : d !! "password" =
              match Schemas.uu_password m with
              | Schemas.Unset => None
              | Schemas.Null => Some VNone
              | Schemas.Given pw => Some (VStr pw)
              end).
{ unfold d, Schemas.UserUpdate_model_dump.
  rewrite !dump_field_lookup_ne by done.
  destruct (Schemas.uu_password m); simpl;
    [apply lookup_empty|apply lookup_insert_eq|apply lookup_insert_eq]. }
clearbody d.
destruct (update_user_frame _ _ _ _ _ _ _ Hget Hupd)
  as (Hframe & _ & Hin & Hposts & Hcomments & _).
apply update_user_inv in Hupd
  as (u2 & d' & r0 & Hget' & Hhash & Hset & Hu1 & _).
rewrite Hget in Hget'. injection Hget' as <-.
repeat apply conj; try done.
- intros f Hf. apply Hframe.
  + apply Hd. clear -Hf.
    repeat (apply elem_of_cons in Hf as [->|Hf]; [elem_tac|]).
    by apply elem_of_nil in Hf.
  + intros ->. clear -Hf. revert Hf. not_elem_tac.
  + intros ->. clear -Hf. revert Hf. not_elem_tac.
- rewrite Hu1. by rewrite getattr_insert_eq.
- intros Hunset. apply Hframe; [apply Hd; elem_tac|done|].
  intros _. unfold dict_get. by rewrite Hpw, Hunset.
- intros pw Hgiven Hne. rewrite Hu1, getattr_insert_ne by done.
  apply with_password_hash_inv in Hhash as [[Ht _]|(s & _ & Hs & ->)].
  { unfold dict_get in Ht. rewrite Hpw, Hgiven in Ht. simpl in Ht.
    by destruct pw. }
  unfold dict_get in Hs. rewrite Hpw, Hgiven in Hs. simpl in Hs.
  injection Hs as <-.
  unfold getattr. rewrite (set_fields_lookup _ _ _ _ _ "password_hash" Hset).
  unfold field_after. rewrite lookup_insert_eq. simpl. done.
- rewrite Hu1, lookup_insert_ne by done.
  rewrite (set_fields_lookup _ _ _ _ _ "password" Hset).
  unfold field_after. destruct (d' !! "password") as [v|]; [|done].
  by destruct (is_not_None v).
Qed.

End Identity.

(** X17 at work: the first user of the sample blog gives the second post
    a new title; the slug stays. *)
Lemma update_post_keeps_identity_witness :
let request := {| Schemas.pu_title := Schemas.Given "Hello again";
                  Schemas.pu_content := Schemas.Unset;
                  Schemas.pu_summary := Schemas.Unset;
                  Schemas.pu_is_published := Schemas.Unset;
                  Schemas.pu_category_ids := Schemas.Unset |} in
let updated := @Routes.update_post Sample.environment Sample.blog 2 request
                 (Sample.user 1 "ann@example.com" "email_fan")
                 Sample.evening Sample.evening Sample.evening in
getattr (Sample.body_row updated.2) "slug" = VStr "hello-20240517120000".
Proof.
intros request updated.
assert (Hget : Sample.is_found (Crud.get_post Sample.blog 2) = true)
  by (vm_compute; reflexivity).
assert (Hok : Sample.status_ok updated.2 = 200) by (vm_compute; reflexivity).
destruct (@update_post_keeps_identity Sample.environment Sample.blog 2 request
            (Sample.user 1 "ann@example.com" "email_fan")
            Sample.evening Sample.evening Sample.evening updated.1
            (Sample.found (Crud.get_post Sample.blog 2))
            (Sample.body_row updated.2)
            (found_eq _ Hget) (status_ok_eq updated 200 ltac:(done) Hok))
  as (Hsame & _).
rewrite (Hsame "slug") by elem_tac. vm_compute. reflexivity.
Defined.

(** X18 at work: the second user of the sample blog changes the bio. *)
Lemma update_current_user_keeps_privileges_witness :
let request := {| Schemas.uu_email := Schemas.Unset;
                  Schemas.uu_login := Schemas.Unset;
                  Schemas.uu_full_name := Schemas.Unset;
                  Schemas.uu_bio := Schemas.Given "Writes about tea";
                  Schemas.uu_avatar_url := Schemas.Unset;
                  Schemas.uu_password := Schemas.Unset |} in
let updated := @Routes.update_current_user Sample.environment Sample.blog request
                 (Sample.user 2 "bob@example.com" "bobby") Sample.evening in
getattr (Sample.body_row updated.2) "is_admin" = VBool false.
Proof.
intros request updated.
assert (Hget : Sample.is_found (Crud.get_user Sample.blog 2) = true)
  by (vm_compute; reflexivity).
assert (Hok : Sample.status_ok updated.2 = 200) by (vm_compute; reflexivity).
destruct (@update_current_user_keeps_privileges Sample.environment Sample.blog
            request (Sample.user 2 "bob@example.com" "bobby") 2 Sample.evening
            updated.1 (Sample.found (Crud.get_user Sample.blog 2))
            (Sample.body_row updated.2)
            ltac:(vm_compute; reflexivity)
            (found_eq _ Hget) (status_ok_eq updated 200 ltac:(done) Hok))
  as (Hsame & _).
rewrite (Hsame "is_admin") by elem_tac. vm_compute. reflexivity.
Defined.
(* ===================================================================== *)
(** ** Editing a comment, reading a post *)
(* ===================================================================== *)

Lemma set_posts_same db : set_posts db (posts db) (posts_id_seq db) = db.
Proof. by destruct db. Qed.

(** [mapM] over the rows of a table, when every row is accepted. *)
Lemma mapM_Return {A B} (f : A -> result B) (g : A -> B) (l : list A) :
(forall x, x ∈ l -> f x = Return (g x)) -> mapM f l = Return (g <$> l).
Proof.
induction l as [|x l IH]; intros Hall; simpl; [done|].
rewrite (Hall x) by apply list_elem_of_here.
rewrite IH by (intros y Hy; apply Hall; by apply list_elem_of_further).
done.
Qed.

Section Views.
Context `{External}.

(** X19. Editing a comment.  For a stored comment and its author or an
    administrator, [PUT /comments/{comment_id}] always answers 200: the
    comment returned and stored is the old one with the new content,
    [is_edited] true and [updated_at] at the time of the edit, so that
    its id, post, user, parent and creation time are the old ones; it is
    the comment found by its id afterwards; every other comment and
    every other table is as it was.  [update_comment] of [crud.py]
    called without a ["content"] raises [KeyError] and writes nothing. *)
Theorem update_comment_marks_edited db comment_id c :
Crud.get_comment db comment_id = Some c ->
(forall (m : Schemas.CommentUpdate) current_user now,
   may_write "user_id" c current_user ->
   let c' := <["updated_at" := VTime now]>
               (<["is_edited" := VBool true]>
                  (<["content" := VStr (Schemas.cu_content m)]> c)) in
   exists db',
     Routes.update_comment db comment_id m current_user now = (db', Ok 200 c') /\
     Crud.get_comment db' comment_id = Some c' /\
     comments db' = (fun r => if id_is (VInt comment_id) r then c' else r)
                      <$> comments db /\
     (forall f, f ∈ ["id"; "post_id"; "user_id"; "parent_id"; "created_at"] ->
        getattr c' f = getattr c f) /\
     (forall q, q ∈ comments db -> getattr q "id" <> VInt comment_id ->
        q ∈ comments db') /\
     users db' = users db /\ posts db' = posts db /\
     favorites db' = favorites db /\ subscriptions db' = subscriptions db) /\
(forall d now, d !! "content" = None ->
   Crud.update_comment db comment_id d now = (db, Raise (KeyError "content"))).
Proof.
intros Hget. destruct (first_by_id_Some _ _ _ Hget) as [Hin Hid]. split.
- intros m current_user now Hmay c'.
  assert (Hsame : forall f, f <> "updated_at" -> f <> "is_edited" ->
                    f <> "content" -> getattr c' f = getattr c f).
  { intros f ? ? ?. unfold c'. by rewrite !getattr_insert_ne. }
  assert (Hchk : check_update Comment db c c' = None).
  { apply check_update_passes.
    - intros f Hf. simpl in Hf.
      destruct (decide (f = "content")) as [->|?].
      + right. unfold c'. rewrite !getattr_insert_ne by done.
        by rewrite getattr_insert_eq.
      + left. apply changed_false.
        repeat (apply elem_of_cons in Hf as [->|Hf]; [by apply Hsame|]).
        by apply elem_of_nil in Hf.
    - apply changed_false. by apply Hsame.
    - intros f Hf. simpl in Hf. by apply elem_of_nil in Hf.
    - intros ct Hct. simpl in Hct. apply changed_false.
      repeat (apply elem_of_cons in Hct as [->|Hct]; [by apply Hsame|]).
      by apply elem_of_nil in Hct. }
  unfold Routes.update_comment.
  rewrite (verify_comment_owner_entitled _ _ _ _ Hget Hmay).
  unfold Crud.update_comment. rewrite Hget.
  unfold Schemas.CommentUpdate_model_dump. rewrite lookup_singleton_eq.
  unfold_result. fold c'. unfold update. rewrite Hchk. simpl.
  rewrite Hid. eexists. split; [reflexivity|]. simpl.
  set (g := fun r => if id_is (VInt comment_id) r then c' else r).
  repeat apply conj; try done.
  + unfold Crud.get_comment, first_by_id. simpl.
    apply (find_replaced _ g _ c); try done.
    * unfold g, id_is. by rewrite Hid, bool_decide_eq_true_2.
    * unfold id_is. rewrite Hsame by done. by rewrite Hid, bool_decide_eq_true_2.
    * intros y. unfold g. destruct (id_is _ y); auto.
  + intros f Hf. apply Hsame; intros ->; clear -Hf; revert Hf; not_elem_tac.
  + intros q Hq Hne. apply list_elem_of_fmap. exists q. split; [|done].
    unfold g, id_is. by rewrite bool_decide_eq_false_2.
- intros d now Hd. unfold Crud.update_comment. by rewrite Hget, Hd.
Qed.

(** What [increment_post_views] does to a row. *)
Lemma increment_post_views_rows db post_id now (g : row -> row) :
(forall p, p ∈ posts db ->
   (if id_is (VInt post_id) p
    then v ← plus_one (getattr p "view_count");
         Return (<["updated_at" := VTime now]> (<["view_count" := v]> p))
    else Return p) = Return (g p)) ->
Crud.increment_post_views db post_id now
= (set_posts db (g <$> posts db) (posts_id_seq db), Return tt).
Proof.
intros Hall. unfold Crud.increment_post_views.
by rewrite (mapM_Return _ g).
Qed.

(** A statement over rows of which one is refused, and none for any
    other reason, is refused. *)
Lemma mapM_Raise {A B} (f : A -> result B) (e : exn) (l : list A) x :
x ∈ l -> f x = Raise e ->
(forall y e', y ∈ l -> f y = Raise e' -> e' = e) ->
mapM f l = Raise e.
Proof.
induction l as [|y l IH]; intros Hx Hfx Hall; [by apply elem_of_nil in Hx|].
simpl. unfold_result.
destruct (f y) as [b|e'] eqn:Hfy.
- apply elem_of_cons in Hx as [->|Hx]; [congruence|].
  rewrite IH; [done|done|done|].
  intros z e'' Hz. apply Hall. by apply list_elem_of_further.
- f_equal. apply (Hall y); [apply list_elem_of_here|done].
Qed.

(** X20. Counting a view.  Where ids are a primary key of [posts] and
    the stored post has an integer view count below the top of the range
    of its [Integer] column, [increment_post_views] adds one to the view
    count of that post and sets its [updated_at] to the time of the
    statement; every other column of the post, every other post and
    every other table are as they were.  At the top of the range the
    statement is refused with a data error and nothing is written.  On
    an id that no post has it changes nothing. *)
Theorem increment_post_views_adds_one db post_id now :
(forall p n,
   primary_key (posts db) ->
   Crud.get_post db post_id = Some p ->
   getattr p "view_count" = VInt n ->
   Integer_min <= n < Integer_max ->
   let p' := <["updated_at" := VTime now]> (<["view_count" := VInt (n + 1)]> p) in
   exists db',
     Crud.increment_post_views db post_id now = (db', Return tt) /\
     Crud.get_post db' post_id = Some p' /\
     getattr p' "view_count" = VInt (n + 1) /\
     (forall f, f <> "view_count" -> f <> "updated_at" ->
        getattr p' f = getattr p f) /\
     (forall q, q ∈ posts db -> q <> p -> q ∈ posts db') /\
     length (posts db') = length (posts db) /\
     users db' = users db /\ comments db' = comments db /\
     favorites db' = favorites db /\ post_categories db' = post_categories db) /\
(forall p n,
   Crud.get_post db post_id = Some p ->
   getattr p "view_count" = VInt n ->
   Integer_max <= n ->
   Crud.increment_post_views db post_id now = (db, Raise DataError)) /\
(Crud.get_post db post_id = None ->
   Crud.increment_post_views db post_id now = (db, Return tt)).
Proof.
repeat apply conj.
- intros p n Hkey Hget Hcount Hrange p'.
  destruct (first_by_id_Some _ _ _ Hget) as [Hin Hid].
  set (g := fun r : row => if id_is (VInt post_id) r then p' else r).
  assert (Hone : forall q, q ∈ posts db -> id_is (VInt post_id) q = true -> q = p).
  { intros q Hq Hq_id. unfold id_is in Hq_id. apply bool_decide_eq_true in Hq_id.
    eapply (key_identifies _ _ _ _ Hkey); congruence. }
  assert (Hin_range : in_Integer (n + 1) = true).
  { unfold in_Integer, Integer_min, Integer_max in *.
    apply andb_true_iff. split; apply Z.leb_le; lia. }
  rewrite (increment_post_views_rows _ _ _ g).
  2:{ intros q Hq. unfold g. destruct (id_is (VInt post_id) q) eqn:Hq_id; [|done].
      rewrite (Hone q Hq Hq_id), Hcount. unfold plus_one. by rewrite Hin_range. }
  eexists. split; [reflexivity|]. simpl.
  repeat apply conj; try done.
  + unfold Crud.get_post, first_by_id. simpl.
    apply (find_replaced _ g _ p); try done.
    * unfold g, id_is. by rewrite Hid, bool_decide_eq_true_2.
    * unfold id_is, p'. rewrite !getattr_insert_ne by done.
      by rewrite Hid, bool_decide_eq_true_2.
    * intros y. unfold g. destruct (id_is _ y); auto.
  + unfold p'. rewrite getattr_insert_ne by done. by rewrite getattr_insert_eq.
  + intros f ? ?. unfold p'. by rewrite !getattr_insert_ne.
  + intros q Hq Hne. apply list_elem_of_fmap. exists q. split; [|done].
    unfold g. destruct (id_is (VInt post_id) q) eqn:Hq_id; [|done].
    by rewrite (Hone q Hq Hq_id) in Hne.
  + by rewrite length_fmap.
- intros p n Hget Hcount Htop.
  destruct (first_by_id_Some _ _ _ Hget) as [Hin Hid].
  assert (Hout : in_Integer (n + 1) = false).
  { unfold in_Integer, Integer_min, Integer_max in *.
    apply andb_false_iff. right. apply Z.leb_gt. lia. }
  unfold Crud.increment_post_views.
  rewrite (mapM_Raise _ DataError _ p); [done|done| |].
  + unfold id_is. rewrite Hid, bool_decide_eq_true_2 by done.
    rewrite Hcount. unfold plus_one. by rewrite Hout.
  + intros q e _. destruct (id_is (VInt post_id) q); [|done].
    unfold plus_one. unfold_result.
    destruct (getattr q "view_count") as [| | m | | |]; try congruence.
    destruct (in_Integer (m + 1)); congruence.
- intros Hnone.
  rewrite (increment_post_views_rows _ _ _ (fun r => r)).
  + by rewrite list_fmap_id, set_posts_same.
  + intros q Hq. destruct (id_is (VInt post_id) q) eqn:Hq_id; [|done].
    exfalso. unfold Crud.get_post, first_by_id in Hnone.
    apply list_elem_of_In in Hq.
    by rewrite (find_none _ _ Hnone q Hq) in Hq_id.
Qed.

(** X21. Reading a post.  [GET /posts/{post_id}] answers 404 for a post
    that is not stored.  A draft is answered 403 to a visitor and to a
    user who is neither its author nor an administrator, and then no
    view is counted.  A published post, and a draft asked for by its
    author or an administrator, is answered 200 with the post as it was
    loaded, view count included, and its two counts, and the view is
    counted afterwards by [increment_post_views]. *)
Theorem get_post_guards_drafts db post_id current_user now :
(Crud.get_post db post_id = None ->
   Routes.get_post db post_id current_user now
   = (db, HTTPException 404 "Post not found")) /\
(forall p,
   Crud.get_post db post_id = Some p ->
   truthy (getattr p "is_published") = false ->
   match current_user with
   | None => True
   | Some u => ~ may_write "author_id" p u
   end ->
   Routes.get_post db post_id current_user now
   = (db, HTTPException 403 "Not enough permissions")) /\
(forall p,
   Crud.get_post db post_id = Some p ->
   truthy (getattr p "is_published") = true \/
   (exists u, current_user = Some u /\ may_write "author_id" p u) ->
   Routes.get_post db post_id current_user now
   = ((Crud.increment_post_views db post_id now).1,
      Ok 200 (Routes.with_stats db p)) /\
   (forall f, f <> "likes_count" -> f <> "comments_count" ->
      getattr (Routes.with_stats db p) f = getattr p f) /\
   getattr (Routes.with_stats db p) "comments_count"
   = VInt (Z.of_nat (length (List.filter
               (fun c => bool_decide (getattr c "post_id" = VInt post_id))
               (comments db))))).
Proof.
repeat apply conj.
- intros Hnone. unfold Routes.get_post, Dependencies.get_post_or_404.
  by rewrite Hnone.
- intros p Hget Hdraft Hstranger.
  unfold Routes.get_post, Dependencies.get_post_or_404. rewrite Hget, Hdraft.
  destruct current_user as [u|]; [|done]. simpl.
  destruct (negb _ && negb _) eqn:Hd; [done|].
  by apply may_write_decide in Hd.
- intros p Hget Hshown.
  destruct (first_by_id_Some _ _ _ Hget) as [Hin Hid].
  repeat apply conj.
  + unfold Routes.get_post, Dependencies.get_post_or_404. rewrite Hget.
    destruct Hshown as [Hpub|(u & -> & Hmay)].
    * by rewrite Hpub.
    * apply may_write_decide in Hmay. rewrite Hmay. by rewrite andb_false_r.
  + intros f ? ?. unfold Routes.with_stats. by rewrite !getattr_insert_ne.
  + unfold Routes.with_stats, Routes.comments_of.
    rewrite getattr_insert_eq. by rewrite Hid.
Qed.

End Views.

(** X19 at work: the second user of the sample blog edits the first
    comment, which is theirs. *)
Lemma update_comment_marks_edited_witness :
let request := {| Schemas.cu_content := "Very nice" |} in
let edited := @Routes.update_comment Sample.environment Sample.blog 1 request
                (Sample.user 2 "bob@example.com" "bobby") Sample.evening in
Sample.status_ok edited.2 = 200 /\
getattr (Sample.body_row edited.2) "is_edited" = VBool true.
Proof.
intros request edited.
assert (Hc : Sample.is_found (Crud.get_comment Sample.blog 1) = true)
  by (vm_compute; reflexivity).
destruct (proj1 (@update_comment_marks_edited Sample.environment Sample.blog 1 _
                   (found_eq _ Hc))
            request (Sample.user 2 "bob@example.com" "bobby") Sample.evening)
  as (db' & Hupd & _).
{ left. vm_compute. reflexivity. }
unfold edited. rewrite Hupd. split; [reflexivity|].
cbn [snd Sample.body_row]. rewrite getattr_insert_ne by done.
by rewrite getattr_insert_eq.
Defined.

(** X20 at work: a view of the second post of the sample blog. *)
Lemma increment_post_views_adds_one_witness :
exists p',
  Crud.get_post (Crud.increment_post_views Sample.blog 2 Sample.evening).1 2
  = Some p' /\
  getattr p' "view_count" = VInt 1.
Proof.
assert (Hp : Sample.is_found (Crud.get_post Sample.blog 2) = true)
  by (vm_compute; reflexivity).
assert (Hkey : primary_key (posts Sample.blog))
  by (unfold primary_key; apply (bool_decide_unpack (NoDup _));
      vm_compute; exact I).
destruct (proj1 (increment_post_views_adds_one Sample.blog 2 Sample.evening)
            _ 0 Hkey (found_eq _ Hp) ltac:(vm_compute; reflexivity)
            ltac:(unfold Integer_min, Integer_max; lia))
  as (db' & Hinc & Hget & Hcount & _).
rewrite Hinc. eexists. split; [exact Hget|exact Hcount].
Defined.

(** X21 at work: a visitor asks for the draft of the sample blog. *)
Lemma get_post_guards_drafts_witness :
Routes.get_post Sample.blog 1 None Sample.evening
= (Sample.blog, HTTPException 403 "Not enough permissions").
Proof.
assert (Hp : Sample.is_found (Crud.get_post Sample.blog 1) = true)
  by (vm_compute; reflexivity).
destruct (get_post_guards_drafts Sample.blog 1 None Sample.evening)
  as (_ & Hdraft & _).
apply (Hdraft _ (found_eq _ Hp)); [vm_compute; reflexivity|exact I].
Defined.
